(** * Fridge.py: the inventory store and its restock forecast

    A shallow embedding of [src/Fridge.py].  The program keeps one SQLite
    table [fridge_items] and offers five operations on it ([add_item],
    [update_item], [delete_item], [view_items], [predict_restock]) from a
    menu loop.

    Modelling decisions, all taken from the source:
    - Python [int] is [Z]; the INTEGER columns of SQLite hold signed 64-bit
      values, and binding a larger Python [int] raises [OverflowError].
    - Python [float] and the REAL column are IEEE-754 binary64, modelled
      bit for bit by [spec_float] at precision 53 and [emax] 1024.
    - A [datetime.date] is its proleptic Gregorian ordinal (what
      [date.toordinal] returns), between 1 (0001-01-01) and 3652059
      (9999-12-31).  The column [last_updated] holds the ISO text of a date;
      [isoformat] and [fromisoformat] are inverse of each other on dates, so
      the column is modelled by the date itself.
    - [input] prompts are arguments of the operations, [print] appends to the
      list of messages an operation returns, [datetime.now().date()] is an
      argument per reading of the clock.
    - Exceptions are explicit: an operation returns [Ok] or [Raise e]; a
      [Raise] that leaves an operation ends the process, since [main] has no
      handler.
    - Text typed at the name prompt is the string of its bytes.  Bytes that
      are not UTF-8 reach the program as lone surrogates ([stdin] decodes
      with [surrogateescape]), and binding such a [str] to a statement raises
      [UnicodeEncodeError].
    - A failure of the storage engine ([sqlite3.Error]) is an input, too: the
      connection carries the list of calls that are going to fail, and
      whether a failure is "database is locked", which leaves the open
      transaction as it is, or a disk I/O error, on which SQLite rolls the
      open transaction back.
    - The connection keeps the table as it sees it and the table as committed
      to the file; what is not committed is lost when the process ends.
    - The text of the menu and the column layout of the messages are not
      modelled; a message keeps the values it prints. *)

From Stdlib Require Import ZArith List String Bool Lia.
From Stdlib Require Import Floats.SpecFloat.
Import ListNotations.

Open Scope Z_scope.


(** ** Exceptions and results *)

Inductive exn : Type :=
| ValueError
| UnicodeEncodeError     (* a subclass of ValueError *)
| OverflowError
| ZeroDivisionError
| SqlIntegrityError      (* sqlite3.IntegrityError, a subclass of sqlite3.Error *)
| SqlOperationalError.   (* any other sqlite3.Error *)

Inductive res (A : Type) : Type :=
| Ok (a : A)
| Raise (e : exn).

Arguments Ok {A} a.
Arguments Raise {A} e.

(** [except sqlite3.Error] catches both SQLite exceptions and nothing else. *)
Definition is_sqlite_error (e : exn) : bool :=
  match e with
  | SqlIntegrityError | SqlOperationalError => true
  | _ => false
  end.

(** [except ValueError] catches [ValueError] and its subclasses. *)
Definition is_value_error (e : exn) : bool :=
  match e with
  | ValueError | UnicodeEncodeError => true
  | _ => false
  end.

(** ** Text that can be encoded as UTF-8 *)

Module Utf8.

(** What the decoder expects next: a leading byte, or a byte between [lo] and
    [hi] followed by [more] continuation bytes. *)
Inductive expect : Type :=
| Lead
| Tail (lo hi : N) (more : nat).

Definition step (st : expect) (b : N) : option expect :=
  match st with
  | Lead =>
      if (b <? 128)%N then Some Lead
      else if ((194 <=? b) && (b <=? 223))%N then Some (Tail 128 191 0)
      else if (b =? 224)%N then Some (Tail 160 191 1)
      else if (((225 <=? b) && (b <=? 236)) || (b =? 238) || (b =? 239))%N
           then Some (Tail 128 191 1)
      else if (b =? 237)%N then Some (Tail 128 159 1)
      else if (b =? 240)%N then Some (Tail 144 191 2)
      else if ((241 <=? b) && (b <=? 243))%N then Some (Tail 128 191 2)
      else if (b =? 244)%N then Some (Tail 128 143 2)
      else None
  | Tail lo hi more =>
      if ((lo <=? b) && (b <=? hi))%N
      then Some (match more with
                 | O => Lead
                 | S k => Tail 128 191 k
                 end)
      else None
  end.

Fixpoint run (st : expect) (s : string) : bool :=
  match s with
  | EmptyString =>
      match st with
      | Lead => true
      | Tail _ _ _ => false
      end
  | String a rest =>
      match step st (Ascii.N_of_ascii a) with
      | Some st' => run st' rest
      | None => false
      end
  end.

(** The bytes are well-formed UTF-8: the [str] that [input] returns for them
    has no lone surrogate and can be encoded again. *)
Definition valid (s : string) : bool := run Lead s.

End Utf8.

(** ** Python floats *)

Module PyFloat.

Definition prec : Z := 53.
Definition emax : Z := 1024.

Definition float : Type := spec_float.

(** The literal [0.0]. *)
Definition zero : float := S754_zero false.

(** A non-zero integer as an (unnormalised) finite float of exponent 0. *)
Definition raw_of_int (n : Z) : float :=
  match n with
  | Z0 => S754_zero false
  | Zpos p => S754_finite false p 0
  | Zneg p => S754_finite true p 0
  end.

(** [float(n)] as done by [int.__float__]: nearest-even rounding,
    [OverflowError] when the integer is beyond the largest float. *)
Definition of_int (n : Z) : res float :=
  match binary_normalize prec emax n 0 false with
  | S754_infinity _ => Raise OverflowError
  | x => Ok x
  end.

(** [a / b] on two Python ints ([int.__truediv__]): the correctly rounded
    quotient of the two integers, [ZeroDivisionError] on [b = 0],
    [OverflowError] when the quotient is too large for a float, and a
    signed zero for [a = 0]. *)
Definition int_truediv (a b : Z) : res float :=
  if b =? 0 then Raise ZeroDivisionError
  else if a =? 0 then Ok (S754_zero (b <? 0))
  else match SFdiv prec emax (raw_of_int a) (raw_of_int b) with
       | S754_infinity _ => Raise OverflowError
       | x => Ok x
       end.

(** [x / y] on two Python floats ([float.__truediv__]): IEEE division,
    except that a zero divisor raises [ZeroDivisionError]. *)
Definition truediv (x y : float) : res float :=
  match y with
  | S754_zero _ => Raise ZeroDivisionError
  | _ => Ok (SFdiv prec emax x y)
  end.

(** [n / y] with [n] an int and [y] a float ([float.__rtruediv__]): the int
    is converted first. *)
Definition int_truediv_float (n : Z) (y : float) : res float :=
  match of_int n with
  | Raise e => Raise e
  | Ok x => truediv x y
  end.

(** [x <= 0] and [x < 0] against the int [0]. *)
Definition le0 (x : float) : bool := SFleb x zero.
Definition lt0 (x : float) : bool := SFltb x zero.
(** [0 < x] and [0 <= x], used by the statements only. *)
Definition gt0 (x : float) : bool := SFltb zero x.
Definition ge0 (x : float) : bool := SFleb zero x.

(** [int(x)]: truncation towards zero; [OverflowError] on an infinity,
    [ValueError] on a NaN. *)
Definition to_int (x : float) : res Z :=
  match x with
  | S754_zero _ => Ok 0
  | S754_infinity _ => Raise OverflowError
  | S754_nan => Raise ValueError
  | S754_finite s m e =>
      let a := match e with
               | Zneg k => Z.quot (Zpos m) (2 ^ Zpos k)
               | _ => Zpos m * 2 ^ e
               end in
      Ok (if s then - a else a)
  end.

(** The mathematical floor of a float, where it has one. *)
Definition floor (x : float) : option Z :=
  match x with
  | S754_zero _ => Some 0
  | S754_finite s m e =>
      let v := if s then Zneg m else Zpos m in
      Some (match e with
            | Zneg k => Z.div v (2 ^ Zpos k)
            | _ => v * 2 ^ e
            end)
  | _ => None
  end.

End PyFloat.

Abbreviation float := PyFloat.float.

(** ** Calendar dates *)

Module PyDate.

(** A [datetime.date], as its proleptic Gregorian ordinal. *)
Definition date : Type := Z.

Definition min_ordinal : Z := 1.          (* date.min = 0001-01-01 *)
Definition max_ordinal : Z := 3652059.    (* date.max = 9999-12-31 *)
Definition max_delta_days : Z := 999999999.

Definition valid (d : date) : bool :=
  (min_ordinal <=? d) && (d <=? max_ordinal).

(** [(d1 - d2).days] *)
Definition diff_days (d1 d2 : date) : Z := d1 - d2.

(** [timedelta(days=n)]: [OverflowError] beyond 999999999 days. *)
Definition timedelta (n : Z) : res Z :=
  if Z.abs n <=? max_delta_days then Ok n else Raise OverflowError.

(** [d + td]: [OverflowError] when the result is not a date. *)
Definition add (d : date) (td : Z) : res date :=
  if valid (d + td) then Ok (d + td) else Raise OverflowError.

End PyDate.

Abbreviation date := PyDate.date.

(** ** The table [fridge_items] and the connection *)

(** One row of [fridge_items]. *)
Record item : Type := mkItem {
  id : Z;                  (* INTEGER PRIMARY KEY AUTOINCREMENT *)
  name : string;           (* TEXT UNIQUE *)
  quantity : Z;            (* INTEGER *)
  threshold : Z;           (* INTEGER *)
  last_updated : date;     (* DATE, ISO text *)
  daily_usage : float      (* REAL *)
}.

(** The connection [conn].
    - [rows] and [seq]: the table in rowid order and the last AUTOINCREMENT
      value, as this connection sees them, changes of the open transaction
      included.
    - [faults] says, call by call, whether the next call into SQLite fails;
      the empty list is a healthy store.
    - [io_errors] says, failure by failure, whether it is a disk I/O error,
      on which SQLite rolls the open transaction back, or (also when the
      list is used up) "database is locked", which leaves it open.
    - [saved_rows] and [saved_seq]: the table as committed to the file, which
      is what remains when the connection is closed or the process ends. *)
Record conn : Type := Conn {
  rows : list item;
  seq : Z;
  faults : list bool;
  io_errors : list bool;
  saved_rows : list item;
  saved_seq : Z
}.

(** A connection with nothing uncommitted, whose failures, if any, are
    "database is locked". *)
Definition mkConn (l : list item) (s : Z) (fs : list bool) : conn :=
  Conn l s fs [] l s.

Definition with_rows (c : conn) (l : list item) : conn :=
  Conn l (seq c) (faults c) (io_errors c) (saved_rows c) (saved_seq c).

(** The connection after a successful [COMMIT]. *)
Definition committed (c : conn) : conn :=
  Conn (rows c) (seq c) (faults c) (io_errors c) (rows c) (seq c).

Definition healthy (c : conn) : Prop := faults c = [].

(** What the program prints, one constructor per [print] of the source. *)
Inductive message : Type :=
| MsgNotIntegers                                        (* line 37 *)
| MsgAdded (n : string) (qty thresh : Z)                (* line 48 *)
| MsgAlreadyExists                                      (* line 50: DuplicateItem *)
| MsgDatabaseError                                      (* lines 52, 98: StorageError *)
| MsgNotFound                                           (* lines 61, 106, 132: ItemNotFound *)
| MsgCurrent (qty thresh : Z) (last : date) (use : float)    (* line 64 *)
| MsgInvalidInput                                       (* line 71 *)
| MsgUpdated (n : string) (qty thresh : Z) (use : float)     (* line 93 *)
| MsgAlert (n : string) (thresh : Z)                    (* line 96 *)
| MsgDeleted (n : string)                               (* line 109 *)
| MsgNoItems                                            (* line 117 *)
| MsgHeader                                             (* lines 119-120 *)
| MsgRow (n : string) (qty thresh : Z) (last : date) (use : float) (low : bool)  (* line 123 *)
| MsgNotEnoughData                                      (* line 136: InsufficientData *)
| MsgAlreadyBelow (n : string)                          (* line 140 *)
| MsgEstimate (days : Z) (n : string)                   (* line 143 *)
| MsgRestockDate (d : date).                            (* line 144 *)

(** ** The monad of an operation: connection state, exceptions, output *)

Definition M (A : Type) : Type := conn -> res A * conn * list message.

Definition ret {A} (a : A) : M A := fun c => (Ok a, c, []).

Definition raise {A} (e : exn) : M A := fun c => (Raise e, c, []).

Definition bind {A B} (m : M A) (k : A -> M B) : M B :=
  fun c =>
    match m c with
    | (Ok a, c1, out1) =>
        let '(r, c2, out2) := k a c1 in (r, c2, out1 ++ out2)
    | (Raise e, c1, out1) => (Raise e, c1, out1)
    end.

Declare Scope py_scope.
Delimit Scope py_scope with py.
Notation "x <- m ;; k" := (bind m (fun x => k))
  (at level 61, m at next level, right associativity) : py_scope.
Notation "m ;; k" := (bind m (fun _ => k))
  (at level 61, right associativity) : py_scope.
Open Scope py_scope.

Definition lift {A} (r : res A) : M A := fun c => (r, c, []).

Definition print (m : message) : M unit := fun c => (Ok tt, c, [m]).

(** [try: body  except <the exceptions handler accepts>: handler]. *)
Definition try_except {A} (body : M A) (handler : exn -> option (M A)) : M A :=
  fun c =>
    match body c with
    | (Raise e, c1, out1) =>
        match handler e with
        | Some h => let '(r, c2, out2) := h c1 in (r, c2, out1 ++ out2)
        | None => (Raise e, c1, out1)
        end
    | done => done
    end.

(** ** The calls into SQLite *)

Module Sql.

Definition in_int64 (z : Z) : bool :=
  (- 2 ^ 63 <=? z) && (z <=? 2 ^ 63 - 1).

(** Binding a Python int to a statement parameter. *)
Definition bind_int (z : Z) : M unit :=
  if in_int64 z then ret tt else raise OverflowError.

(** Binding a Python str to a statement parameter: it is encoded as UTF-8. *)
Definition text_ok (s : string) : bool := Utf8.valid s.

Definition bind_text (s : string) : M unit :=
  if text_ok s then ret tt else raise UnicodeEncodeError.

(** One call into the storage engine: it fails when [faults] says so, and a
    failure that is a disk I/O error rolls the open transaction back. *)
Definition engine : M unit :=
  fun c =>
    match faults c with
    | [] => (Ok tt, c, [])
    | false :: fs =>
        (Ok tt, Conn (rows c) (seq c) fs (io_errors c) (saved_rows c) (saved_seq c), [])
    | true :: fs =>
        match io_errors c with
        | true :: ks =>
            (Raise SqlOperationalError,
             Conn (saved_rows c) (saved_seq c) fs ks (saved_rows c) (saved_seq c), [])
        | false :: ks =>
            (Raise SqlOperationalError,
             Conn (rows c) (seq c) fs ks (saved_rows c) (saved_seq c), [])
        | [] =>
            (Raise SqlOperationalError,
             Conn (rows c) (seq c) fs [] (saved_rows c) (saved_seq c), [])
        end
    end.

Definition has_name (n : string) (r : item) : bool := String.eqb (name r) n.

(** [SELECT ... WHERE name=?] followed by [fetchone()]. *)
Definition select_one (n : string) : M (option item) :=
  bind_text n ;;
  engine ;;
  fun c => (Ok (find (has_name n) (rows c)), c, []).

(** [SELECT ... FROM fridge_items] followed by [fetchall()]. *)
Definition select_all : M (list item) :=
  engine ;;
  fun c => (Ok (rows c), c, []).

(** [INSERT INTO fridge_items(name, quantity, threshold, last_updated,
    daily_usage) VALUES (?, ?, ?, ?, ?)]: the UNIQUE constraint on [name]
    raises [IntegrityError].  The parameters are bound in their order. *)
Definition insert (n : string) (qty thresh : Z) (last : date) (use : float)
  : M unit :=
  bind_text n ;;
  bind_int qty ;;
  bind_int thresh ;;
  engine ;;
  fun c =>
    if existsb (has_name n) (rows c)
    then (Raise SqlIntegrityError, c, [])
    else (Ok tt,
          Conn (rows c ++ [mkItem (seq c + 1) n qty thresh last use])
               (seq c + 1) (faults c) (io_errors c) (saved_rows c) (saved_seq c),
          []).

(** [UPDATE fridge_items SET quantity=?, threshold=?, last_updated=?,
    daily_usage=? WHERE name=?]. *)
Definition update (qty thresh : Z) (last : date) (use : float) (n : string)
  : M unit :=
  bind_int qty ;;
  bind_int thresh ;;
  bind_text n ;;
  engine ;;
  fun c =>
    (Ok tt,
     with_rows c
       (map (fun r => if has_name n r
                      then mkItem (id r) (name r) qty thresh last use
                      else r)
            (rows c)),
     []).

(** [DELETE FROM fridge_items WHERE name=?]; the result is
    [cursor.rowcount]. *)
Definition delete (n : string) : M Z :=
  bind_text n ;;
  engine ;;
  fun c =>
    (Ok (Z.of_nat (List.length (filter (has_name n) (rows c)))),
     with_rows c (filter (fun r => negb (has_name n r)) (rows c)),
     []).

(** [conn.commit()]: what the connection sees becomes what the file holds. *)
Definition commit : M unit :=
  engine ;;
  fun c => (Ok tt, committed c, []).

End Sql.

(** ** Text typed at a prompt that the program passes to [int] *)

Inductive int_input : Type :=
| Blank                  (* empty, or white space only *)
| Digits (z : Z)         (* the text of the integer [z] *)
| Garbage.               (* anything else *)

(** [int(text)] *)
Definition py_int (t : int_input) : res Z :=
  match t with
  | Digits z => Ok z
  | Blank | Garbage => Raise ValueError
  end.

(** The truth value of [text.strip()]. *)
Definition stripped_nonempty (t : int_input) : bool :=
  match t with
  | Blank => false
  | _ => true
  end.

(** ** The operations of [Fridge.py] *)

(** [initialize_db]: [CREATE TABLE IF NOT EXISTS] leaves an existing table
    as it is; a new database file starts as [new_database]. *)
Definition new_database : conn := mkConn [] 0 [].

Definition initialize_db : M unit :=
  Sql.engine ;;
  Sql.commit.

(** [add_item], lines 28-52.  [today] is [datetime.now().date()]. *)
Definition add_item (today : date) (n : string) (qty_input thresh_input : int_input)
  : M unit :=
  parsed <- try_except
              (qty <- lift (py_int qty_input) ;;
               thresh <- lift (py_int thresh_input) ;;
               ret (Some (qty, thresh)))
              (fun e => if is_value_error e
                        then Some (print MsgNotIntegers ;; ret None)
                        else None) ;;
  match parsed with
  | None => ret tt
  | Some (qty, thresh) =>
      let last := today in
      let use := PyFloat.zero in
      try_except
        (Sql.insert n qty thresh last use ;;
         Sql.commit ;;
         print (MsgAdded n qty thresh))
        (fun e => match e with
                  | SqlIntegrityError => Some (print MsgAlreadyExists)
                  | SqlOperationalError => Some (print MsgDatabaseError)
                  | _ => None
                  end)
  end.

(** Lines 79-83: the rolling rate. *)
Definition usage_changed (days_passed new_quantity old_quantity : Z) : bool :=
  (days_passed >? 0) && negb (new_quantity =? old_quantity).

Definition recompute_usage (days_passed new_quantity old_quantity : Z)
    (old_daily_usage : float) : res float :=
  if usage_changed days_passed new_quantity old_quantity
  then let used_amount := old_quantity - new_quantity in
       PyFloat.int_truediv used_amount days_passed
  else Ok old_daily_usage.

(** Lines 68-69: [int(text) if text.strip() else old]. *)
Definition int_or_keep (text : int_input) (old : Z) : res Z :=
  if stripped_nonempty text then py_int text else Ok old.

(** [update_item], lines 54-98.  The source reads the clock twice:
    [now_days] at line 76 for [days_passed], [now_stamp] at line 86 for the
    date it stores. *)
Definition update_item (now_days now_stamp : date) (n : string)
    (new_qty_input new_thresh_input : int_input) : M unit :=
  result <- Sql.select_one n ;;
  match result with
  | None => print MsgNotFound
  | Some r =>
      let old_quantity := quantity r in
      let old_threshold := threshold r in
      let old_daily_usage := daily_usage r in
      print (MsgCurrent old_quantity old_threshold (last_updated r) old_daily_usage) ;;
      parsed <- try_except
                  (new_quantity <- lift (int_or_keep new_qty_input old_quantity) ;;
                   new_threshold <- lift (int_or_keep new_thresh_input old_threshold) ;;
                   ret (Some (new_quantity, new_threshold)))
                  (fun e => if is_value_error e
                            then Some (print MsgInvalidInput ;; ret None)
                            else None) ;;
      match parsed with
      | None => ret tt
      | Some (new_quantity, new_threshold) =>
          let last_date := last_updated r in
          let days_passed := PyDate.diff_days now_days last_date in
          use <- lift (recompute_usage days_passed new_quantity old_quantity
                         old_daily_usage) ;;
          let updated_date := now_stamp in
          try_except
            (Sql.update new_quantity new_threshold updated_date use n ;;
             Sql.commit ;;
             print (MsgUpdated n new_quantity new_threshold use) ;;
             if new_quantity <? new_threshold
             then print (MsgAlert n new_threshold)
             else ret tt)
            (fun e => if is_sqlite_error e
                      then Some (print MsgDatabaseError)
                      else None)
      end
  end.

(** [delete_item], lines 100-109. *)
Definition delete_item (n : string) : M unit :=
  rowcount <- Sql.delete n ;;
  if rowcount =? 0
  then print MsgNotFound
  else (Sql.commit ;;
        print (MsgDeleted n)).

(** [view_items], lines 111-123. *)
Definition view_line (r : item) : message :=
  MsgRow (name r) (quantity r) (threshold r) (last_updated r) (daily_usage r)
         (quantity r <? threshold r).

Definition view_items : M unit :=
  fetched <- Sql.select_all ;;
  match fetched with
  | [] => print MsgNoItems
  | _ => fun c => (Ok tt, c, MsgHeader :: map view_line fetched)
  end.

(** Line 138. *)
Definition days_left_of (r : item) : res float :=
  PyFloat.int_truediv_float (quantity r - threshold r) (daily_usage r).

(** [predict_restock], lines 125-144. *)
Definition predict_restock (today : date) (n : string) : M unit :=
  result <- Sql.select_one n ;;
  match result with
  | None => print MsgNotFound
  | Some r =>
      if PyFloat.le0 (daily_usage r)
      then print MsgNotEnoughData
      else
        days_left <- lift (days_left_of r) ;;
        if PyFloat.lt0 days_left
        then print (MsgAlreadyBelow n)
        else
          whole <- lift (PyFloat.to_int days_left) ;;
          delta <- lift (PyDate.timedelta whole) ;;
          restock_date <- lift (PyDate.add today delta) ;;
          shown <- lift (PyFloat.to_int days_left) ;;
          print (MsgEstimate shown n) ;;
          print (MsgRestockDate restock_date)
  end.

(** ** The menu loop, lines 146-175 *)

Inductive command : Type :=
| CmdAdd (today : date) (n : string) (qty thresh : int_input)        (* '1' *)
| CmdUpdate (now_days now_stamp : date) (n : string) (qty thresh : int_input)  (* '2' *)
| CmdDelete (n : string)                                             (* '3' *)
| CmdView                                                            (* '4' *)
| CmdPredict (today : date) (n : string)                             (* '5' *)
| CmdExit                                                            (* '6' *)
| CmdOther.                                                          (* anything else *)

Inductive process_end : Type :=
| Exited                 (* "Goodbye!", the connection is closed *)
| Crashed (e : exn)      (* an exception left [main] *)
| InputClosed.           (* no more input to read *)

Definition run_command (cmd : command) : M unit :=
  match cmd with
  | CmdAdd today n q t => add_item today n q t
  | CmdUpdate d1 d2 n q t => update_item d1 d2 n q t
  | CmdDelete n => delete_item n
  | CmdView => view_items
  | CmdPredict today n => predict_restock today n
  | CmdExit | CmdOther => ret tt
  end.

Fixpoint menu_loop (cmds : list command) (c : conn)
  : process_end * conn * list message :=
  match cmds with
  | [] => (InputClosed, c, [])
  | CmdExit :: _ => (Exited, c, [])
  | cmd :: rest =>
      match run_command cmd c with
      | (Raise e, c1, out1) => (Crashed e, c1, out1)
      | (Ok _, c1, out1) =>
          let '(e, c2, out2) := menu_loop rest c1 in (e, c2, out1 ++ out2)
      end
  end.

(** ** Predicates of the statements *)

(** The rounding of [SpecFloat] read as arithmetic on [Z], at binary64. *)
Module Rounding.

(** [fexp] at precision 53 and [emax] 1024. *)
Definition fexp64 (k : Z) : Z := Z.max (k - 53) (-1074).

(** By how many bits [shr_fexp] shifts the mantissa [m] of exponent [e]. *)
Definition shift_of (m e : Z) : Z := Z.max 0 (fexp64 (Zdigits2 m + e) - e).

(** The last step of [binary_round_aux], on the final mantissa and
    exponent. *)
Definition rounded (sx : bool) (M E : Z) : spec_float :=
  match M with
  | Z0 => S754_zero sx
  | Zpos m => if E <=? 971 then S754_finite sx m E else S754_infinity sx
  | Zneg _ => S754_nan
  end.

End Rounding.

(** The floats the program stores: a zero, or a finite number below
    [2 ^ 1024]. *)
Definition float_ok (x : float) : Prop :=
  match x with
  | S754_zero _ => True
  | S754_finite _ m e => Zdigits2 (Zpos m) + e <= 1024
  | _ => False
  end.

(** A non-zero float of sign [s] and of magnitude [2 ^ (k - 1)] or more. *)
Definition at_least (s : bool) (k : Z) (x : float) : Prop :=
  match x with
  | S754_infinity s' => s' = s
  | S754_finite s' m e => s' = s /\ k <= Zdigits2 (Zpos m) + e
  | _ => False
  end.

Definition not_infinite (x : float) : Prop :=
  match x with
  | S754_infinity _ => False
  | _ => True
  end.

(** What every row written by the program satisfies. *)
Definition item_ok (r : item) : Prop :=
  Sql.in_int64 (quantity r) = true /\
  Sql.in_int64 (threshold r) = true /\
  float_ok (daily_usage r).

(** The invariant of the table: rows as the program writes them, and the
    UNIQUE constraint on [name]. *)
Definition store_ok (c : conn) : Prop :=
  Forall item_ok (rows c) /\ NoDup (map name (rows c)).

(** The row of a name, as [SELECT ... WHERE name=?] finds it: a name that
    cannot be bound to the statement finds no row. *)
Definition lookup (n : string) (c : conn) : option item :=
  if Sql.text_ok n then find (Sql.has_name n) (rows c) else None.

(** The invariant of the table, of what the connection sees and of what the
    file holds. *)
Definition stores_ok (c : conn) : Prop :=
  store_ok c /\
  Forall item_ok (saved_rows c) /\ NoDup (map name (saved_rows c)).

(** [keeps m Q]: whatever the health of the storage, [m] keeps the invariant
    of the table, and a value it returns satisfies [Q]. *)
Definition keeps {A : Type} (m : M A) (Q : A -> Prop) : Prop :=
  forall c : conn,
    stores_ok c ->
    stores_ok (snd (fst (m c))) /\
    (forall a, fst (fst (m c)) = Ok a -> Q a).

(** The line of [view_items] for the item named [n]. *)
Definition row_named (n : string) (m : message) : bool :=
  match m with
  | MsgRow n' _ _ _ _ _ => String.eqb n' n
  | _ => false
  end.

(** [raises_only m P]: an exception that leaves [m], whatever the store and
    its health, satisfies [P]. *)
Definition raises_only {A : Type} (m : M A) (P : exn -> Prop) : Prop :=
  forall (c : conn) (e : exn), fst (fst (m c)) = Raise e -> P e.

(** ** Data of the examples *)

(** A table of one row. *)
Definition milk (q t : Z) (d : date) (u : float) : item := mkItem 1 "milk" q t d u.
Definition fridge (r : item) : conn := mkConn [r] 1 [].

(** The floats [1.0], [3.0] and [-2.0]. *)
Definition one : float := S754_finite false 4503599627370496 (-52).
Definition three : float := S754_finite false 6755399441055744 (-51).
Definition minus_two : float := S754_finite true 4503599627370496 (-51).

(** A name that is not UTF-8 text: the single byte 0xFF, which [input()]
    hands to the program as the lone surrogate U+DCFF. *)
Definition not_utf8 : string := String (Ascii.ascii_of_N 255) EmptyString.

(** ** Predicates of the further properties *)

(** [relates m R]: whatever the store and its health, the connection [m]
    leaves is related by [R] to the connection it found. *)
Definition relates {A : Type} (m : M A) (R : conn -> conn -> Prop) : Prop :=
  forall c : conn, R c (snd (fst (m c))).

(** A table: its rows and its AUTOINCREMENT counter. *)
Definition table : Type := (list item * Z)%type.

(** The table the connection sees, and the table the file holds. *)
Definition seen (c : conn) : table := (rows c, seq c).
Definition held (c : conn) : table := (saved_rows c, saved_seq c).

(** What an operation that only reads leaves: the file holds what it held,
    and the connection sees what it saw or, when a failed call rolled the
    open transaction back, what the file holds. *)
Definition only_read (c c' : conn) : Prop :=
  held c' = held c /\ (seen c' = seen c \/ seen c' = held c).

(** Row by row, ids and names are the same, and a row of another name than
    [n] is the same row; the AUTOINCREMENT counter is the same. *)
Definition row_changed (n : string) (t t' : table) : Prop :=
  Forall2 (fun x y => id y = id x /\ name y = name x /\ (name x <> n -> y = x))
          (fst t) (fst t') /\
  snd t' = snd t.

(** What an operation that writes the row of [n] only leaves: the table
    the connection sees, and the table the file holds, are each, but for
    the row of [n], the table the connection saw or the table the file
    held. *)
Definition only_row_changed (n : string) (c c' : conn) : Prop :=
  (row_changed n (seen c) (seen c') \/ row_changed n (held c) (seen c')) /\
  (row_changed n (held c) (held c') \/ row_changed n (seen c) (held c')).

(** ** Facts on binary64 rounding *)

Module RoundingFacts.
  Import Rounding.



Lemma fexp64_eq k : fexp 53 1024 k = fexp64 k.
Proof. reflexivity. Qed.

Lemma digits2_pos_bounds (p : positive) :
  2 ^ (Zpos (digits2_pos p) - 1) <= Zpos p < 2 ^ Zpos (digits2_pos p).
Proof.
  induction p as [p IH | p IH | ]; cbn [digits2_pos].
  - rewrite Pos2Z.inj_succ.
    replace (Z.succ (Zpos (digits2_pos p)) - 1) with (Z.succ (Zpos (digits2_pos p) - 1)) by lia.
    rewrite !Z.pow_succ_r by lia. lia.
  - rewrite Pos2Z.inj_succ.
    replace (Z.succ (Zpos (digits2_pos p)) - 1) with (Z.succ (Zpos (digits2_pos p) - 1)) by lia.
    rewrite !Z.pow_succ_r by lia. lia.
  - cbn. lia.
Qed.

Lemma Zdigits2_bounds (m : Z) :
  0 < m -> 2 ^ (Zdigits2 m - 1) <= m < 2 ^ Zdigits2 m.
Proof.
  destruct m as [ | p | p]; try lia. intros _. apply digits2_pos_bounds.
Qed.

Lemma Zdigits2_nonneg (m : Z) : 0 <= Zdigits2 m.
Proof. destruct m; cbn; lia. Qed.

Lemma Zdigits2_pos (m : Z) : 0 < m -> 0 < Zdigits2 m.
Proof. destruct m; cbn; lia. Qed.

Lemma Zdigits2_le_of_lt (m k : Z) : 0 <= m < 2 ^ k -> 0 <= k -> Zdigits2 m <= k.
Proof.
  intros [Hm Hlt] Hk.
  destruct (Z.eq_dec m 0) as [-> | Hne]; [cbn; lia | ].
  assert (Hb := Zdigits2_bounds m ltac:(lia)).
  assert (Hd := Zdigits2_pos m ltac:(lia)).
  destruct (Z_lt_le_dec k (Zdigits2 m)) as [Hlt' | ]; [ | lia].
  exfalso.
  assert (2 ^ k <= 2 ^ (Zdigits2 m - 1)) by (apply Z.pow_le_mono_r; lia).
  lia.
Qed.

Lemma Zdigits2_ge_of_le (m k : Z) : 0 <= k -> 2 ^ k <= m -> k + 1 <= Zdigits2 m.
Proof.
  intros Hk Hle.
  assert (0 < 2 ^ k) by (apply Z.pow_pos_nonneg; lia).
  assert (Hb := Zdigits2_bounds m ltac:(lia)).
  destruct (Z_lt_le_dec (Zdigits2 m) (k + 1)) as [Hlt | ]; [ | lia].
  exfalso.
  assert (2 ^ Zdigits2 m <= 2 ^ k) by (apply Z.pow_le_mono_r; lia).
  lia.
Qed.

Lemma Zdigits2_mono (a b : Z) : 0 <= a <= b -> Zdigits2 a <= Zdigits2 b.
Proof.
  intros [Ha Hab].
  destruct (Z.eq_dec a 0) as [-> | Hne]; [apply Zdigits2_nonneg | ].
  assert (Hba := Zdigits2_bounds a ltac:(lia)).
  assert (Hda := Zdigits2_pos a ltac:(lia)).
  assert (Zdigits2 a - 1 + 1 <= Zdigits2 b); [ | lia].
  apply Zdigits2_ge_of_le; lia.
Qed.

(** Shifting right *)
Lemma shr_1_m (mrs : shr_record) : 0 <= shr_m mrs -> shr_m (shr_1 mrs) = shr_m mrs / 2.
Proof.
  destruct mrs as [m r s]; cbn [shr_m]. intros Hm.
  destruct m as [ | [p | p | ] | p]; cbn [shr_1 shr_m]; try lia.
  - reflexivity.
  - rewrite Pos2Z.inj_xI. apply Z.div_unique with (r := 1); lia.
  - rewrite Pos2Z.inj_xO. apply Z.div_unique with (r := 0); lia.
  - reflexivity.
Qed.

Lemma iter_shr_1_m (p : positive) : forall mrs,
  0 <= shr_m mrs -> shr_m (iter_pos shr_1 p mrs) = shr_m mrs / 2 ^ Zpos p.
Proof.
  assert (Hstep : forall mrs, 0 <= shr_m mrs -> 0 <= shr_m mrs / 2)
    by (intros; apply Z.div_pos; lia).
  induction p as [p IH | p IH | ]; intros mrs Hm; cbn [iter_pos].
  - assert (H1 : 0 <= shr_m (shr_1 mrs)) by (rewrite shr_1_m; auto).
    assert (H2 : 0 <= shr_m (iter_pos shr_1 p (shr_1 mrs))).
    { rewrite IH by auto. apply Z.div_pos; [auto | apply Z.pow_pos_nonneg; lia]. }
    rewrite IH, IH, shr_1_m by auto.
    rewrite !Z.div_div by (try apply Z.pow_pos_nonneg; lia).
    f_equal. change 2 with (2 ^ 1) at 1.
    rewrite <- !Z.pow_add_r by lia. f_equal. lia.
  - assert (H2 : 0 <= shr_m (iter_pos shr_1 p mrs)).
    { rewrite IH by auto. apply Z.div_pos; [auto | apply Z.pow_pos_nonneg; lia]. }
    rewrite IH, IH by auto.
    rewrite !Z.div_div by (try apply Z.pow_pos_nonneg; lia).
    f_equal. rewrite <- Z.pow_add_r by lia. f_equal. lia.
  - rewrite shr_1_m by auto. reflexivity.
Qed.

Lemma shr_record_of_loc_m m l : shr_m (shr_record_of_loc m l) = m.
Proof. destruct l as [ | [ | | ]]; reflexivity. Qed.


Lemma shr_fexp_spec (m e : Z) (l : location) :
  0 <= m ->
  shr_m (fst (shr_fexp 53 1024 m e l)) = m / 2 ^ shift_of m e /\
  snd (shr_fexp 53 1024 m e l) = e + shift_of m e.
Proof.
  intros Hm. unfold shr_fexp, shift_of. rewrite fexp64_eq.
  destruct (fexp64 (Zdigits2 m + e) - e) as [ | p | p] eqn:En; cbn [shr fst snd].
  - rewrite shr_record_of_loc_m. cbn. rewrite Z.div_1_r. lia.
  - rewrite iter_shr_1_m by (rewrite shr_record_of_loc_m; auto).
    rewrite shr_record_of_loc_m. rewrite Z.max_r by lia. split; reflexivity.
  - rewrite shr_record_of_loc_m. rewrite Z.max_l by lia. cbn. rewrite Z.div_1_r. lia.
Qed.


Lemma round_nearest_even_range (m : Z) (l : location) :
  m <= round_nearest_even m l <= m + 1.
Proof.
  destruct l as [ | [ | | ]]; cbn [round_nearest_even]; try lia.
  destruct (Z.even m); lia.
Qed.


Lemma binary_round_aux_spec (sx : bool) (mx ex : Z) (lx : location) :
  0 <= mx ->
  exists m1 : Z,
    mx / 2 ^ shift_of mx ex <= m1 <= mx / 2 ^ shift_of mx ex + 1 /\
    binary_round_aux 53 1024 sx mx ex lx =
      rounded sx (m1 / 2 ^ shift_of m1 (ex + shift_of mx ex))
                 (ex + shift_of mx ex + shift_of m1 (ex + shift_of mx ex)).
Proof.
  intros Hm. unfold binary_round_aux.
  destruct (shr_fexp_spec mx ex lx Hm) as [Hm1 He1].
  destruct (shr_fexp 53 1024 mx ex lx) as [mrs' e'] eqn:E1. cbn [fst snd] in Hm1, He1.
  set (m1 := round_nearest_even (shr_m mrs') (loc_of_shr_record mrs')).
  assert (Hr := round_nearest_even_range (shr_m mrs') (loc_of_shr_record mrs')).
  fold m1 in Hr.
  assert (H0 : 0 <= shr_m mrs').
  { rewrite Hm1. apply Z.div_pos; [auto | apply Z.pow_pos_nonneg; unfold shift_of; lia]. }
  destruct (shr_fexp_spec m1 e' loc_Exact ltac:(lia)) as [Hm2 He2].
  destruct (shr_fexp 53 1024 m1 e' loc_Exact) as [mrs'' e''] eqn:E2. cbn [fst snd] in Hm2, He2.
  exists m1. split; [rewrite <- Hm1; exact Hr | ].
  subst e'. rewrite Hm2, He2. reflexivity.
Qed.

Lemma pow2_pos (k : Z) : 0 <= k -> 0 < 2 ^ k.
Proof. intros; apply Z.pow_pos_nonneg; lia. Qed.

Lemma shift_of_nonneg m e : 0 <= shift_of m e.
Proof. unfold shift_of; lia. Qed.

(** Dividing by [2 ^ n] removes at most [n] digits... *)
Lemma div_pow2_lower (m n : Z) :
  0 < m -> 0 <= n < Zdigits2 m ->
  2 ^ (Zdigits2 m - 1 - n) <= m / 2 ^ n.
Proof.
  intros Hm Hn. assert (Hb := Zdigits2_bounds m Hm).
  apply Z.div_le_lower_bound; [apply pow2_pos; lia | ].
  rewrite <- Z.pow_add_r by lia.
  replace (n + (Zdigits2 m - 1 - n)) with (Zdigits2 m - 1) by lia. lia.
Qed.

(** ... and exactly [n] of them when it has that many. *)
Lemma div_pow2_upper (m n : Z) :
  0 <= m -> 0 <= n ->
  m / 2 ^ n < 2 ^ Z.max 0 (Zdigits2 m - n).
Proof.
  intros Hm Hn.
  destruct (Z.eq_dec m 0) as [-> | Hne].
  { rewrite Z.div_0_l by (assert (H := pow2_pos n Hn); lia). apply pow2_pos; lia. }
  assert (Hb := Zdigits2_bounds m ltac:(lia)).
  apply Z.div_lt_upper_bound; [apply pow2_pos; lia | ].
  rewrite <- Z.pow_add_r by lia.
  assert (2 ^ Zdigits2 m <= 2 ^ (n + Z.max 0 (Zdigits2 m - n)))
    by (apply Z.pow_le_mono_r; lia).
  lia.
Qed.

(** One step keeps a non-zero mantissa non-zero and does not lower the
    magnitude [digits + exponent], as long as the value is not below the
    smallest subnormal. *)
Lemma shift_step_lower (m e : Z) :
  0 < m -> -1074 < Zdigits2 m + e ->
  0 < m / 2 ^ shift_of m e /\
  Zdigits2 m + e <= Zdigits2 (m / 2 ^ shift_of m e) + (e + shift_of m e).
Proof.
  intros Hm Hk.
  assert (Hd := Zdigits2_pos m Hm).
  assert (Hn : 0 <= shift_of m e < Zdigits2 m) by (unfold shift_of, fexp64; lia).
  assert (Hl := div_pow2_lower m (shift_of m e) Hm Hn).
  assert (Hp := pow2_pos (Zdigits2 m - 1 - shift_of m e) ltac:(lia)).
  split; [lia | ].
  assert (Zdigits2 m - 1 - shift_of m e + 1 <= Zdigits2 (m / 2 ^ shift_of m e))
    by (apply Zdigits2_ge_of_le; lia).
  lia.
Qed.

Lemma shift_step_upper (m e : Z) :
  0 <= m ->
  Zdigits2 (m / 2 ^ shift_of m e + 1) + (e + shift_of m e)
    <= Z.max (Zdigits2 m + e) (e + shift_of m e) + 1.
Proof.
  intros Hm.
  assert (Hn := shift_of_nonneg m e).
  assert (Hu := div_pow2_upper m (shift_of m e) Hm Hn).
  assert (H0 : 0 <= m / 2 ^ shift_of m e)
    by (apply Z.div_pos; [auto | apply pow2_pos; auto]).
  set (t := Z.max 0 (Zdigits2 m - shift_of m e)) in *.
  assert (Hd : Zdigits2 (m / 2 ^ shift_of m e + 1) <= t + 1).
  { apply Zdigits2_le_of_lt; [ | lia]. rewrite Z.pow_add_r by lia.
    assert (0 < 2 ^ t) by (apply pow2_pos; lia). lia. }
  lia.
Qed.





Lemma rounded_ok (sx : bool) (m1 e1 : Z) :
  0 <= m1 ->
  match rounded sx (m1 / 2 ^ shift_of m1 e1) (e1 + shift_of m1 e1) with
  | S754_infinity s => s = sx
  | x => float_ok x
  end.
Proof.
  intros Hm.
  assert (Hn := shift_of_nonneg m1 e1).
  assert (Hu := div_pow2_upper m1 _ Hm Hn).
  assert (H0 : 0 <= m1 / 2 ^ shift_of m1 e1)
    by (apply Z.div_pos; [auto | apply pow2_pos; auto]).
  unfold rounded.
  destruct (m1 / 2 ^ shift_of m1 e1) as [ | M | M] eqn:EM; [exact I | | lia].
  destruct (e1 + shift_of m1 e1 <=? 971) eqn:EE; [ | reflexivity].
  apply Z.leb_le in EE. cbn [float_ok].
  assert (Zdigits2 (Zpos M) <= 53); [ | lia].
  apply Zdigits2_le_of_lt; [ | lia].
  split; [lia | ].
  assert (2 ^ Z.max 0 (Zdigits2 m1 - shift_of m1 e1) <= 2 ^ 53); [ | lia].
  apply Z.pow_le_mono_r; [lia | ].
  unfold shift_of, fexp64 in *. lia.
Qed.

Lemma binary_round_aux_ok (sx : bool) (mx ex : Z) (lx : location) :
  0 <= mx ->
  match binary_round_aux 53 1024 sx mx ex lx with
  | S754_infinity s => s = sx
  | x => float_ok x
  end.
Proof.
  intros Hm. destruct (binary_round_aux_spec sx mx ex lx Hm) as (m1 & Hm1 & ->).
  apply rounded_ok.
  assert (0 <= mx / 2 ^ shift_of mx ex)
    by (apply Z.div_pos; [auto | apply pow2_pos; apply shift_of_nonneg]).
  lia.
Qed.

Lemma binary_round_aux_lower (sx : bool) (mx ex : Z) (lx : location) :
  0 < mx -> -1074 < Zdigits2 mx + ex ->
  at_least sx (Zdigits2 mx + ex) (binary_round_aux 53 1024 sx mx ex lx).
Proof.
  intros Hm Hk.
  destruct (binary_round_aux_spec sx mx ex lx ltac:(lia)) as (m1 & Hm1 & ->).
  destruct (shift_step_lower mx ex Hm Hk) as [Hp0 Hk0].
  set (e1 := ex + shift_of mx ex) in *.
  assert (Hd : Zdigits2 (mx / 2 ^ shift_of mx ex) <= Zdigits2 m1)
    by (apply Zdigits2_mono; lia).
  destruct (shift_step_lower m1 e1 ltac:(lia) ltac:(lia)) as [Hp1 Hk1].
  unfold rounded.
  destruct (m1 / 2 ^ shift_of m1 e1) as [ | M | M] eqn:EM; try lia.
  destruct (e1 + shift_of m1 e1 <=? 971); cbn [at_least]; [ | reflexivity].
  split; [reflexivity | lia].
Qed.

Lemma binary_round_aux_upper (sx : bool) (mx ex : Z) (lx : location) :
  0 <= mx -> Zdigits2 mx + ex <= 1023 -> ex <= 971 ->
  not_infinite (binary_round_aux 53 1024 sx mx ex lx).
Proof.
  intros Hm Hk He.
  destruct (binary_round_aux_spec sx mx ex lx Hm) as (m1 & Hm1 & ->).
  assert (H0 : 0 <= mx / 2 ^ shift_of mx ex)
    by (apply Z.div_pos; [auto | apply pow2_pos; apply shift_of_nonneg]).
  assert (Hu := shift_step_upper mx ex Hm).
  assert (Hd : Zdigits2 m1 <= Zdigits2 (mx / 2 ^ shift_of mx ex + 1))
    by (apply Zdigits2_mono; lia).
  set (e1 := ex + shift_of mx ex) in *.
  assert (He1 : e1 <= 971) by (unfold e1, shift_of, fexp64; lia).
  assert (HE : e1 + shift_of m1 e1 <= 971) by (unfold shift_of, fexp64; lia).
  unfold rounded.
  destruct (m1 / 2 ^ shift_of m1 e1) as [ | M | M]; try exact I.
  apply Z.leb_le in HE. rewrite HE. exact I.
Qed.

(** The quotient and exponent [SFdiv_core_binary] hands to the rounding. *)
Lemma SFdiv_core_binary_spec (m1 e1 m2 e2 : Z) :
  0 < m1 -> 0 < m2 ->
  exists (q e' : Z) (l : location),
    SFdiv_core_binary 53 1024 m1 e1 m2 e2 = (q, e', l) /\
    e' = Z.min (fexp64 (Zdigits2 m1 + e1 - (Zdigits2 m2 + e2))) (e1 - e2) /\
    q = (m1 * 2 ^ (e1 - e2 - e')) / m2.
Proof.
  intros H1 H2. unfold SFdiv_core_binary. rewrite fexp64_eq.
  set (e' := Z.min (fexp64 (Zdigits2 m1 + e1 - (Zdigits2 m2 + e2))) (e1 - e2)).
  set (s := e1 - e2 - e').
  assert (Hs : 0 <= s) by (unfold s, e'; lia).
  set (m' := match s with Z0 => m1 | Zpos _ => Z.shiftl m1 s | Zneg _ => 0 end).
  assert (Hm' : m' = m1 * 2 ^ s).
  { unfold m'. destruct s as [ | p | p] eqn:Es; [cbn; lia | | lia].
    apply Z.shiftl_mul_pow2. lia. }
  assert (Hdiv := Z.div_eucl_eq m' m2 ltac:(lia)).
  assert (Hq : fst (Z.div_eucl m' m2) = m' / m2) by reflexivity.
  destruct (Z.div_eucl m' m2) as [q r]. cbn [fst] in Hq.
  exists q, e', (new_location m2 r). repeat split. rewrite Hq, Hm'. reflexivity.
Qed.

Lemma SFdiv_core_lower (m1 e1 m2 e2 q e' : Z) :
  0 < m1 -> 0 < m2 ->
  -1073 <= Zdigits2 m1 + e1 - (Zdigits2 m2 + e2) ->
  e' = Z.min (fexp64 (Zdigits2 m1 + e1 - (Zdigits2 m2 + e2))) (e1 - e2) ->
  q = (m1 * 2 ^ (e1 - e2 - e')) / m2 ->
  0 < q /\ Zdigits2 m1 + e1 - (Zdigits2 m2 + e2) <= Zdigits2 q + e'.
Proof.
  intros H1 H2 Hd He' Hq.
  set (s := e1 - e2 - e') in *.
  assert (Hb1 := Zdigits2_bounds m1 H1). assert (Hb2 := Zdigits2_bounds m2 H2).
  assert (Hp1 := Zdigits2_pos m1 H1). assert (Hp2 := Zdigits2_pos m2 H2).
  assert (Hs : 0 <= s) by (unfold s; lia).
  assert (Ht : 0 <= Zdigits2 m1 - 1 + s - Zdigits2 m2)
    by (unfold s; subst e'; unfold fexp64; lia).
  assert (Hlow : 2 ^ (Zdigits2 m1 - 1 + s - Zdigits2 m2) <= q).
  { subst q. apply Z.div_le_lower_bound; [lia | ].
    assert (Hps := pow2_pos s Hs).
    assert (Hpt := pow2_pos _ Ht).
    apply Z.le_trans with (2 ^ Zdigits2 m2 * 2 ^ (Zdigits2 m1 - 1 + s - Zdigits2 m2)).
    - apply Z.mul_le_mono_nonneg_r; lia.
    - rewrite <- Z.pow_add_r by lia.
      replace (Zdigits2 m2 + (Zdigits2 m1 - 1 + s - Zdigits2 m2))
        with ((Zdigits2 m1 - 1) + s) by lia.
      rewrite Z.pow_add_r by lia.
      apply Z.mul_le_mono_nonneg_r; lia. }
  assert (Hpt := pow2_pos _ Ht).
  split; [lia | ].
  assert (Zdigits2 m1 - 1 + s - Zdigits2 m2 + 1 <= Zdigits2 q)
    by (apply Zdigits2_ge_of_le; lia).
  unfold s in *. lia.
Qed.

Lemma SFdiv_core_upper (m1 e1 m2 e2 q e' : Z) :
  0 < m1 -> 0 < m2 ->
  e' = Z.min (fexp64 (Zdigits2 m1 + e1 - (Zdigits2 m2 + e2))) (e1 - e2) ->
  q = (m1 * 2 ^ (e1 - e2 - e')) / m2 ->
  0 <= q /\
  Zdigits2 q + e' <= Z.max (Zdigits2 m1 + e1 - (Zdigits2 m2 + e2) + 1) e'.
Proof.
  intros H1 H2 He' Hq.
  set (s := e1 - e2 - e') in *.
  assert (Hb1 := Zdigits2_bounds m1 H1). assert (Hb2 := Zdigits2_bounds m2 H2).
  assert (Hp1 := Zdigits2_pos m1 H1). assert (Hp2 := Zdigits2_pos m2 H2).
  assert (Hs : 0 <= s) by (unfold s; lia).
  assert (Hps := pow2_pos s Hs).
  assert (H0 : 0 <= q) by (subst q; apply Z.div_pos; nia).
  split; [exact H0 | ].
  set (t := Z.max 0 (Zdigits2 m1 + s - Zdigits2 m2 + 1)).
  assert (Hlt : q < 2 ^ t).
  { subst q. apply Z.div_lt_upper_bound; [lia | ].
    assert (Hp := pow2_pos (Zdigits2 m2 - 1) ltac:(lia)).
    apply Z.lt_le_trans with (2 ^ Zdigits2 m1 * 2 ^ s).
    - apply Z.mul_lt_mono_pos_r; lia.
    - apply Z.le_trans with (2 ^ (Zdigits2 m2 - 1) * 2 ^ t).
      + rewrite <- !Z.pow_add_r by lia. apply Z.pow_le_mono_r; lia.
      + apply Z.mul_le_mono_nonneg_r; [apply Z.lt_le_incl, pow2_pos; lia | lia]. }
  assert (Zdigits2 q <= t) by (apply Zdigits2_le_of_lt; lia).
  unfold t, s in *. lia.
Qed.

End RoundingFacts.

(** ** Facts on Python's float operations *)

Module PyFloatFacts.
Import Rounding RoundingFacts.

Lemma digits2_pos_iter_xO (p d : positive) :
  Zpos (digits2_pos (Pos.iter xO p d)) = Zpos (digits2_pos p) + Zpos d.
Proof.
  induction d as [ | d IH] using Pos.peano_ind.
  - cbn [Pos.iter digits2_pos]. lia.
  - rewrite Pos.iter_succ. cbn [digits2_pos]. lia.
Qed.

Lemma shl_align_spec (mx : positive) (ex ex' : Z) :
  Zdigits2 (Zpos (fst (shl_align mx ex ex'))) + snd (shl_align mx ex ex')
    = Zdigits2 (Zpos mx) + ex /\
  snd (shl_align mx ex ex') <= ex.
Proof.
  unfold shl_align. destruct (ex' - ex) as [ | d | d] eqn:Ed; cbn [fst snd]; try lia.
  cbn [Zdigits2]. rewrite digits2_pos_iter_xO. lia.
Qed.

(** [float(n)] of a non-zero integer below [2 ^ 1023] in absolute value. *)
Lemma binary_round_int (s : bool) (p : positive) :
  Zpos p < 2 ^ 1023 ->
  let x := binary_round 53 1024 s p 0 in
  float_ok x /\ at_least s (Zdigits2 (Zpos p)) x.
Proof.
  intros Hp x. unfold x, binary_round.
  assert (Hal := shl_align_spec p 0 (fexp 53 1024 (Zpos (digits2_pos p) + 0))).
  destruct (shl_align p 0 (fexp 53 1024 (Zpos (digits2_pos p) + 0))) as [mz ez].
  cbn [fst snd] in Hal. destruct Hal as [Hmag Hez].
  assert (Hd : Zdigits2 (Zpos p) <= 1023) by (apply Zdigits2_le_of_lt; lia).
  assert (Hd0 := Zdigits2_pos (Zpos p) ltac:(lia)).
  assert (Hok := binary_round_aux_ok s (Zpos mz) ez loc_Exact ltac:(lia)).
  assert (Hlo := binary_round_aux_lower s (Zpos mz) ez loc_Exact ltac:(lia) ltac:(lia)).
  assert (Hup := binary_round_aux_upper s (Zpos mz) ez loc_Exact ltac:(lia) ltac:(lia) ltac:(lia)).
  rewrite Hmag, Z.add_0_r in Hlo.
  destruct (binary_round_aux 53 1024 s (Zpos mz) ez loc_Exact); cbn in *; tauto.
Qed.

Lemma of_int_spec (n : Z) :
  Z.abs n < 2 ^ 1023 ->
  exists x, PyFloat.of_int n = Ok x /\ float_ok x /\
            (n <> 0 -> at_least (n <? 0) (Zdigits2 n) x).
Proof.
  intros Hn. unfold PyFloat.of_int, binary_normalize, PyFloat.prec, PyFloat.emax.
  destruct n as [ | p | p].
  - eexists; split; [reflexivity | ]. cbn. split; [exact I | congruence].
  - destruct (binary_round_int false p ltac:(lia)) as [Hok Hat].
    destruct (binary_round 53 1024 false p 0) eqn:E; cbn in Hok; try contradiction;
      (eexists; split; [reflexivity | split; [exact Hok | intros _; exact Hat]]).
  - destruct (binary_round_int true p ltac:(lia)) as [Hok Hat].
    destruct (binary_round 53 1024 true p 0) eqn:E; cbn in Hok; try contradiction;
      (eexists; split; [reflexivity | split; [exact Hok | intros _; exact Hat]]).
Qed.


Lemma SFdiv_finite (sx sy : bool) (mx my : positive) (ex ey : Z) :
  exists (q e' : Z) (l : location),
    SFdiv 53 1024 (S754_finite sx mx ex) (S754_finite sy my ey)
      = binary_round_aux 53 1024 (xorb sx sy) q e' l /\
    e' = Z.min (fexp64 (Zdigits2 (Zpos mx) + ex - (Zdigits2 (Zpos my) + ey))) (ex - ey) /\
    q = (Zpos mx * 2 ^ (ex - ey - e')) / Zpos my.
Proof.
  destruct (SFdiv_core_binary_spec (Zpos mx) ex (Zpos my) ey ltac:(lia) ltac:(lia))
    as (q & e' & l & Hcore & He & Hq).
  exists q, e', l. split; [ | split; assumption].
  cbn [SFdiv]. rewrite Hcore. reflexivity.
Qed.

(** [a / b] on integers never yields a NaN or an infinity. *)
Lemma int_truediv_ok (a b : Z) (x : float) :
  PyFloat.int_truediv a b = Ok x -> float_ok x.
Proof.
  unfold PyFloat.int_truediv, PyFloat.prec, PyFloat.emax.
  destruct (b =? 0) eqn:Eb; [discriminate | ].
  destruct (a =? 0) eqn:Ea; [intros [= <-]; exact I | ].
  apply Z.eqb_neq in Eb, Ea.
  assert (Hfin : forall n, n <> 0 -> exists s p, PyFloat.raw_of_int n = S754_finite s p 0).
  { intros [ | p | p] Hn; [congruence | | ]; cbn; eauto. }
  destruct (Hfin a Ea) as (sa & pa & ->). destruct (Hfin b Eb) as (sb & pb & ->).
  destruct (SFdiv_finite sa sb pa pb 0 0) as (q & e' & l & -> & He & Hq).
  destruct (SFdiv_core_upper (Zpos pa) 0 (Zpos pb) 0 q e' ltac:(lia) ltac:(lia) He Hq)
    as [Hq0 _].
  assert (Hok := binary_round_aux_ok (xorb sa sb) q e' l Hq0).
  destruct (binary_round_aux 53 1024 (xorb sa sb) q e' l); intros [= <-] || discriminate;
    exact Hok.
Qed.

(** [a / b] does not overflow on integers of ordinary size. *)
Lemma int_truediv_total (a b : Z) :
  b <> 0 -> Z.abs a < 2 ^ 1022 ->
  exists x, PyFloat.int_truediv a b = Ok x.
Proof.
  intros Hb Ha.
  unfold PyFloat.int_truediv, PyFloat.prec, PyFloat.emax.
  destruct (b =? 0) eqn:Eb; [apply Z.eqb_eq in Eb; contradiction | ].
  destruct (a =? 0) eqn:Ea; [eauto | ].
  apply Z.eqb_neq in Ea.
  assert (Hfin : forall n, n <> 0 ->
            exists s p, PyFloat.raw_of_int n = S754_finite s p 0 /\ Zpos p = Z.abs n).
  { intros [ | p | p] Hn; [congruence | | ]; cbn; eauto. }
  destruct (Hfin a Ea) as (sa & pa & -> & Hpa). destruct (Hfin b Hb) as (sb & pb & -> & Hpb).
  destruct (SFdiv_finite sa sb pa pb 0 0) as (q & e' & l & -> & He & Hq).
  destruct (SFdiv_core_upper (Zpos pa) 0 (Zpos pb) 0 q e' ltac:(lia) ltac:(lia) He Hq)
    as [Hq0 Hmag].
  assert (Hda : Zdigits2 (Zpos pa) <= 1022) by (apply Zdigits2_le_of_lt; lia).
  assert (Hdb := Zdigits2_pos (Zpos pb) ltac:(lia)).
  assert (He0 : e' <= 0) by lia.
  assert (Hup := binary_round_aux_upper (xorb sa sb) q e' l Hq0 ltac:(lia) ltac:(lia)).
  destruct (binary_round_aux 53 1024 (xorb sa sb) q e' l); cbn in Hup; try contradiction; eauto.
Qed.

(** Comparisons with zero. *)
Lemma gt0_of_not_le0 (d : float) :
  float_ok d -> PyFloat.le0 d = false -> PyFloat.gt0 d = true.
Proof.
  destruct d as [s | s | | [ | ] m e]; cbn; intros H; try contradiction; try discriminate.
  reflexivity.
Qed.

Lemma gt0_finite (d : float) :
  float_ok d -> PyFloat.gt0 d = true ->
  exists m e, d = S754_finite false m e /\ Zdigits2 (Zpos m) + e <= 1024.
Proof.
  destruct d as [s | s | | [ | ] m e]; cbn; intros H; try contradiction; try discriminate.
  eauto.
Qed.

Lemma lt0_at_least (k : Z) (y : float) : at_least true k y -> PyFloat.lt0 y = true.
Proof.
  destruct y as [s | s | | s m e]; cbn; try contradiction.
  - intros ->. reflexivity.
  - intros [-> _]. reflexivity.
Qed.

(** A number at most [-1] over a positive stored float is negative: the
    quotient cannot underflow to zero. *)
Lemma truediv_negative (x d : float) :
  at_least true 1 x -> float_ok d -> PyFloat.gt0 d = true ->
  exists y, PyFloat.truediv x d = Ok y /\ PyFloat.lt0 y = true.
Proof.
  intros Hx Hd Hpos.
  destruct (gt0_finite d Hd Hpos) as (my & ey & -> & Hmag).
  unfold PyFloat.truediv, PyFloat.prec, PyFloat.emax.
  eexists; split; [reflexivity | ].
  destruct x as [s | s | | s mx ex]; cbn [at_least] in Hx; try contradiction.
  - subst s. reflexivity.
  - destruct Hx as [-> Hx].
    destruct (SFdiv_finite true false mx my ex ey) as (q & e' & l & -> & He & Hq).
    destruct (SFdiv_core_lower (Zpos mx) ex (Zpos my) ey q e' ltac:(lia) ltac:(lia)
                ltac:(lia) He Hq) as [Hq0 Hk].
    apply lt0_at_least with (k := Zdigits2 q + e').
    apply (binary_round_aux_lower (xorb true false) q e' l Hq0). lia.
Qed.

(** [int] truncates, which on a float that is not negative is the floor. *)
Lemma to_int_floor (x : float) (k : Z) :
  PyFloat.ge0 x = true -> PyFloat.floor x = Some k -> PyFloat.to_int x = Ok k.
Proof.
  destruct x as [s | s | | [ | ] m e]; cbn; try discriminate.
  - intros _ [= <-]. reflexivity.
  - intros _ [= <-]. destruct e as [ | p | p]; try reflexivity.
    change (Z.pow_pos 2 p) with (2 ^ Zpos p).
    f_equal. apply Z.quot_div_nonneg; [lia | apply pow2_pos; lia].
Qed.

Lemma to_int_nonneg (x : float) (k : Z) :
  PyFloat.lt0 x = false -> PyFloat.to_int x = Ok k -> 0 <= k.
Proof.
  destruct x as [s | s | | [ | ] m e];
    unfold PyFloat.lt0, PyFloat.to_int, SFltb, SFcompare, PyFloat.zero;
    try discriminate.
  - intros _ [= <-]. lia.
  - intros _ [= <-]. destruct e as [ | p | p].
    + rewrite Z.pow_0_r. lia.
    + assert (H : 0 < 2 ^ Zpos p) by (apply pow2_pos; lia). destruct (2 ^ Zpos p); lia.
    + change (Z.pow_pos 2 p) with (2 ^ Zpos p).
      apply Z.quot_pos; [lia | apply pow2_pos; lia].
Qed.

End PyFloatFacts.

(** ** The storage calls on a healthy connection *)

Lemma engine_healthy (c : conn) : healthy c -> Sql.engine c = (Ok tt, c, []).
Proof. unfold healthy, Sql.engine. intros ->. reflexivity. Qed.

Lemma with_rows_healthy (c : conn) (l : list item) : healthy c -> healthy (with_rows c l).
Proof. intros H. exact H. Qed.

Lemma committed_healthy (c : conn) : healthy c -> healthy (committed c).
Proof. intros H. exact H. Qed.

Lemma commit_healthy (c : conn) : healthy c -> Sql.commit c = (Ok tt, committed c, []).
Proof.
  intros H. unfold Sql.commit, bind. rewrite engine_healthy by exact H. reflexivity.
Qed.

Lemma bind_text_ok (n : string) (c : conn) :
  Sql.text_ok n = true -> Sql.bind_text n c = (Ok tt, c, []).
Proof. intros H. unfold Sql.bind_text. rewrite H. reflexivity. Qed.

Lemma lookup_text_ok (n : string) (c : conn) (r : item) :
  lookup n c = Some r -> Sql.text_ok n = true.
Proof. unfold lookup. destruct (Sql.text_ok n); [reflexivity | discriminate]. Qed.

Lemma lookup_find (n : string) (c : conn) :
  Sql.text_ok n = true -> lookup n c = find (Sql.has_name n) (rows c).
Proof. unfold lookup. intros ->. reflexivity. Qed.

Lemma lookup_some_find (n : string) (c : conn) (r : item) :
  lookup n c = Some r -> find (Sql.has_name n) (rows c) = Some r.
Proof. intros H. rewrite <- lookup_find; [exact H | exact (lookup_text_ok n c r H)]. Qed.

Lemma select_one_healthy (n : string) (c : conn) :
  healthy c -> Sql.text_ok n = true ->
  Sql.select_one n c = (Ok (lookup n c), c, []).
Proof.
  intros H Hn. unfold Sql.select_one, bind. rewrite bind_text_ok by exact Hn.
  rewrite engine_healthy by exact H. rewrite lookup_find by exact Hn. reflexivity.
Qed.

Lemma select_one_found (n : string) (c : conn) (r : item) :
  healthy c -> lookup n c = Some r ->
  Sql.select_one n c = (Ok (Some r), c, []).
Proof.
  intros H Hl. rewrite select_one_healthy; [ | exact H | exact (lookup_text_ok n c r Hl)].
  rewrite Hl. reflexivity.
Qed.

Lemma select_one_unbound (n : string) (c : conn) :
  Sql.text_ok n = false -> Sql.select_one n c = (Raise UnicodeEncodeError, c, []).
Proof. intros Hn. unfold Sql.select_one, bind, Sql.bind_text. rewrite Hn. reflexivity. Qed.

Lemma select_all_healthy (c : conn) :
  healthy c -> Sql.select_all c = (Ok (rows c), c, []).
Proof.
  intros H. unfold Sql.select_all, bind. rewrite engine_healthy by exact H. reflexivity.
Qed.

Lemma insert_healthy (n : string) (q t : Z) (d : date) (u : float) (c : conn) :
  healthy c -> Sql.text_ok n = true ->
  Sql.in_int64 q = true -> Sql.in_int64 t = true ->
  Sql.insert n q t d u c =
    if existsb (Sql.has_name n) (rows c)
    then (Raise SqlIntegrityError, c, [])
    else (Ok tt,
          Conn (rows c ++ [mkItem (seq c + 1) n q t d u]) (seq c + 1) (faults c)
               (io_errors c) (saved_rows c) (saved_seq c),
          []).
Proof.
  intros H Hn Hq Ht. unfold Sql.insert, Sql.bind_int, bind.
  rewrite bind_text_ok by exact Hn. rewrite Hq, Ht. unfold ret.
  rewrite engine_healthy by exact H.
  destruct (existsb (Sql.has_name n) (rows c)); reflexivity.
Qed.

(** The row an [UPDATE] writes in place of [r]. *)
Lemma update_healthy (q t : Z) (d : date) (u : float) (n : string) (c : conn) :
  healthy c -> Sql.text_ok n = true ->
  Sql.in_int64 q = true -> Sql.in_int64 t = true ->
  Sql.update q t d u n c =
    (Ok tt,
     with_rows c (map (fun r => if Sql.has_name n r
                                then mkItem (id r) (name r) q t d u else r)
                      (rows c)),
     []).
Proof.
  intros H Hn Hq Ht. unfold Sql.update, Sql.bind_int, bind. rewrite Hq, Ht. unfold ret.
  rewrite bind_text_ok by exact Hn.
  rewrite engine_healthy by exact H. reflexivity.
Qed.

Lemma delete_healthy (n : string) (c : conn) :
  healthy c -> Sql.text_ok n = true ->
  Sql.delete n c =
    (Ok (Z.of_nat (List.length (filter (Sql.has_name n) (rows c)))),
     with_rows c (filter (fun r => negb (Sql.has_name n r)) (rows c)),
     []).
Proof.
  intros H Hn. unfold Sql.delete, bind. rewrite bind_text_ok by exact Hn.
  rewrite engine_healthy by exact H. reflexivity.
Qed.

(** ** Rows and names *)

Lemma lookup_existsb (n : string) (c : conn) (r : item) :
  lookup n c = Some r -> existsb (Sql.has_name n) (rows c) = true.
Proof.
  intros H. apply lookup_some_find in H. apply find_some in H.
  apply existsb_exists. eauto.
Qed.

Lemma find_none_existsb (n : string) (l : list item) :
  find (Sql.has_name n) l = None -> existsb (Sql.has_name n) l = false.
Proof.
  intros H.
  destruct (existsb (Sql.has_name n) l) eqn:E; [ | reflexivity].
  apply existsb_exists in E. destruct E as (r & Hin & Hr).
  rewrite (find_none _ _ H r Hin) in Hr. discriminate.
Qed.

Lemma lookup_none_existsb (n : string) (c : conn) :
  Sql.text_ok n = true -> lookup n c = None ->
  existsb (Sql.has_name n) (rows c) = false.
Proof.
  intros Hn H. rewrite lookup_find in H by exact Hn. apply find_none_existsb. exact H.
Qed.

Lemma has_name_iff (n : string) (r : item) : Sql.has_name n r = true <-> name r = n.
Proof. unfold Sql.has_name. apply String.eqb_eq. Qed.

Lemma find_map_update (n : string) (upd : item -> item) (l : list item) (r : item) :
  (forall x, name (upd x) = name x) ->
  find (Sql.has_name n) l = Some r ->
  find (Sql.has_name n) (map (fun x => if Sql.has_name n x then upd x else x) l)
    = Some (upd r).
Proof.
  intros Hupd. induction l as [ | x l IH]; cbn [find map]; [discriminate | ].
  destruct (Sql.has_name n x) eqn:Ex.
  - intros [= ->].
    assert (Hn : Sql.has_name n (upd r) = true)
      by (apply has_name_iff; rewrite Hupd; apply has_name_iff; exact Ex).
    rewrite Hn. reflexivity.
  - rewrite Ex. exact IH.
Qed.

Lemma filter_none (n : string) (l : list item) :
  find (Sql.has_name n) l = None ->
  filter (Sql.has_name n) l = [] /\
  filter (fun r => negb (Sql.has_name n r)) l = l.
Proof.
  induction l as [ | x l IH]; cbn [find filter]; [auto | ].
  destruct (Sql.has_name n x) eqn:Ex; [discriminate | ].
  intros H. destruct (IH H) as [-> ->]. auto.
Qed.

Lemma find_filter_others (n : string) (l : list item) :
  find (Sql.has_name n) (filter (fun r => negb (Sql.has_name n r)) l) = None.
Proof.
  induction l as [ | x l IH]; cbn [filter]; [reflexivity | ].
  destruct (Sql.has_name n x) eqn:Ex; cbn [negb find]; [exact IH | ].
  rewrite Ex. exact IH.
Qed.

Lemma filter_app_new (n : string) (l : list item) (r : item) :
  find (Sql.has_name n) l = None -> name r = n ->
  filter (Sql.has_name n) (l ++ [r]) = [r].
Proof.
  intros Hnone Hr. rewrite filter_app. destruct (filter_none n l Hnone) as [-> _].
  cbn [filter app]. apply has_name_iff in Hr. rewrite Hr. reflexivity.
Qed.

Lemma NoDup_names_eq (l : list item) (a b : item) :
  NoDup (map name l) -> In a l -> In b l -> name a = name b -> a = b.
Proof.
  induction l as [ | x l IH]; cbn [map In]; [contradiction | ].
  intros Hnd Ha Hb Hab. inversion Hnd as [ | ? ? Hnotin Hnd']; subst.
  destruct Ha as [-> | Ha], Hb as [-> | Hb]; auto.
  - exfalso. apply Hnotin. rewrite Hab. apply in_map. exact Hb.
  - exfalso. apply Hnotin. rewrite <- Hab. apply in_map. exact Ha.
Qed.

Lemma filter_unique_length (n : string) (l : list item) (r : item) :
  NoDup (map name l) -> find (Sql.has_name n) l = Some r ->
  List.length (filter (Sql.has_name n) l) = 1%nat.
Proof.
  induction l as [ | x l IH]; cbn [find filter map]; [discriminate | ].
  intros Hnd. inversion Hnd as [ | ? ? Hnotin Hnd']; subst.
  destruct (Sql.has_name n x) eqn:Ex.
  - intros _. cbn [List.length]. f_equal.
    destruct (find (Sql.has_name n) l) as [y | ] eqn:Ey.
    + exfalso. apply find_some in Ey. destruct Ey as [Hin Hy].
      apply Hnotin. apply has_name_iff in Ex, Hy. rewrite Ex, <- Hy.
      apply in_map. exact Hin.
    + destruct (filter_none n l Ey) as [-> _]. reflexivity.
  - intros H. apply IH; assumption.
Qed.

(** ** The invariant of the table *)

Lemma store_ok_same_rows (c c' : conn) :
  rows c' = rows c -> store_ok c -> store_ok c'.
Proof. unfold store_ok. intros ->. auto. Qed.

Lemma new_database_ok : store_ok new_database.
Proof. split; constructor. Qed.

Lemma stores_ok_view (c : conn) : stores_ok c -> store_ok c.
Proof. intros [H _]. exact H. Qed.

Lemma stores_ok_intro (c : conn) :
  Forall item_ok (rows c) -> NoDup (map name (rows c)) ->
  Forall item_ok (saved_rows c) -> NoDup (map name (saved_rows c)) ->
  stores_ok c.
Proof. intros H1 H2 H3 H4. split; [split | split]; assumption. Qed.

Lemma mkConn_stores_ok (l : list item) (s : Z) (fs : list bool) :
  store_ok (mkConn l s fs) -> stores_ok (mkConn l s fs).
Proof. intros [H1 H2]. apply stores_ok_intro; assumption. Qed.

Lemma keeps_weaken {A} (m : M A) (Q R : A -> Prop) :
  keeps m Q -> (forall a, Q a -> R a) -> keeps m R.
Proof.
  intros Hm HQR c Hc. destruct (Hm c Hc) as [H1 H2]. split; [exact H1 | auto].
Qed.

Lemma keeps_ret {A} (a : A) (Q : A -> Prop) : Q a -> keeps (ret a) Q.
Proof. intros Ha c Hc. cbn. split; [exact Hc | intros ? [= <-]; exact Ha]. Qed.

Lemma keeps_raise {A} (e : exn) (Q : A -> Prop) : keeps (raise e) Q.
Proof. intros c Hc. cbn. split; [exact Hc | discriminate]. Qed.

Lemma keeps_lift {A} (r : res A) (Q : A -> Prop) :
  (forall a, r = Ok a -> Q a) -> keeps (lift r) Q.
Proof. intros Hr c Hc. cbn. split; [exact Hc | exact Hr]. Qed.

Lemma keeps_print (m : message) : keeps (print m) (fun _ => True).
Proof. intros c Hc. cbn. split; [exact Hc | auto]. Qed.

Lemma keeps_bind {A B} (m : M A) (k : A -> M B) (Q : A -> Prop) (R : B -> Prop) :
  keeps m Q -> (forall a, Q a -> keeps (k a) R) -> keeps (bind m k) R.
Proof.
  intros Hm Hk c Hc. destruct (Hm c Hc) as [H1 H2]. unfold bind.
  destruct (m c) as [[[a | e] c1] out1]; cbn [fst snd] in *.
  - destruct (Hk a (H2 a eq_refl) c1 H1) as [H3 H4].
    destruct (k a c1) as [[r c2] out2]; cbn [fst snd] in *. split; assumption.
  - split; [exact H1 | discriminate].
Qed.

Lemma keeps_try {A} (body : M A) (handler : exn -> option (M A)) (Q : A -> Prop) :
  keeps body Q ->
  (forall e h, handler e = Some h -> keeps h Q) ->
  keeps (try_except body handler) Q.
Proof.
  intros Hb Hh c Hc. destruct (Hb c Hc) as [H1 H2]. unfold try_except.
  destruct (body c) as [[[a | e] c1] out1]; cbn [fst snd] in *.
  - split; assumption.
  - destruct (handler e) as [h | ] eqn:Eh.
    + destruct (Hh e h Eh c1 H1) as [H3 H4].
      destruct (h c1) as [[r c2] out2]; cbn [fst snd] in *. split; assumption.
    + cbn [fst snd]. split; [exact H1 | discriminate].
Qed.

Lemma keeps_engine : keeps Sql.engine (fun _ => True).
Proof.
  intros c ((H1 & H2) & H3 & H4). unfold Sql.engine.
  destruct (faults c) as [ | [ | ] fs]; [ | destruct (io_errors c) as [ | [ | ] ks] | ];
    cbn [fst snd]; (split; [ | auto]); apply stores_ok_intro; assumption.
Qed.

Lemma keeps_commit : keeps Sql.commit (fun _ => True).
Proof.
  unfold Sql.commit. eapply keeps_bind; [apply keeps_engine | intros [] _].
  intros c ((H1 & H2) & H3 & H4). cbn [fst snd]. split; [ | auto].
  apply stores_ok_intro; assumption.
Qed.

Lemma keeps_bind_int (z : Z) : keeps (Sql.bind_int z) (fun _ => Sql.in_int64 z = true).
Proof.
  unfold Sql.bind_int. destruct (Sql.in_int64 z) eqn:E.
  - apply keeps_ret. reflexivity.
  - apply keeps_raise.
Qed.

Lemma keeps_bind_text (n : string) : keeps (Sql.bind_text n) (fun _ => Sql.text_ok n = true).
Proof.
  unfold Sql.bind_text. destruct (Sql.text_ok n) eqn:E.
  - apply keeps_ret. reflexivity.
  - apply keeps_raise.
Qed.

Lemma keeps_select_one (n : string) :
  keeps (Sql.select_one n) (fun found => forall r, found = Some r -> item_ok r).
Proof.
  unfold Sql.select_one.
  eapply keeps_bind; [apply keeps_bind_text | intros [] _].
  apply keeps_bind with (Q := fun _ => True); [apply keeps_engine | ].
  intros _ _ c Hc. cbn [fst snd]. split; [exact Hc | ].
  intros a [= <-] r Hr. apply find_some in Hr. destruct Hr as [Hin _].
  destruct Hc as [[Hall _] _]. rewrite Forall_forall in Hall. auto.
Qed.

Lemma keeps_select_all : keeps Sql.select_all (fun _ => True).
Proof.
  unfold Sql.select_all. apply keeps_bind with (Q := fun _ => True); [apply keeps_engine | ].
  intros _ _ c Hc. cbn [fst snd]. auto.
Qed.

Lemma NoDup_snoc {A} (l : list A) (a : A) : NoDup l -> ~ In a l -> NoDup (l ++ [a]).
Proof.
  induction l as [ | x l IH]; cbn [app]; intros Hnd Hin.
  - constructor; [intros [] | constructor].
  - inversion Hnd as [ | ? ? Hx Hl]; subst. constructor.
    + rewrite in_app_iff. cbn [In]. intros [H | [H | []]]; [auto | ].
      apply Hin. left. symmetry. exact H.
    + apply IH; [exact Hl | ]. intros H. apply Hin. right. exact H.
Qed.

Lemma keeps_insert (n : string) (q t : Z) (d : date) (u : float) :
  float_ok u -> keeps (Sql.insert n q t d u) (fun _ => True).
Proof.
  intros Hu. unfold Sql.insert.
  eapply keeps_bind; [apply keeps_bind_text | intros [] _].
  eapply keeps_bind; [apply keeps_bind_int | intros [] Hq; cbv beta in Hq].
  eapply keeps_bind; [apply keeps_bind_int | intros [] Ht; cbv beta in Ht].
  eapply keeps_bind; [apply keeps_engine | intros [] _].
  intros c ((Hall & Hnd) & H3 & H4).
  destruct (existsb (Sql.has_name n) (rows c)) eqn:Ex; cbn [fst snd].
  - split; [apply stores_ok_intro; assumption | discriminate].
  - split; [ | auto]. apply stores_ok_intro; cbn [rows saved_rows]; try assumption.
    + apply Forall_app. split; [exact Hall | ].
      constructor; [ | constructor]. repeat split; assumption.
    + rewrite map_app. cbn [map name]. apply NoDup_snoc; [exact Hnd | ].
      intros Hin. apply in_map_iff in Hin. destruct Hin as (r & Hr & Hin).
      assert (Hex : existsb (Sql.has_name n) (rows c) = true)
        by (apply existsb_exists; exists r; split; [exact Hin | apply has_name_iff; exact Hr]).
      congruence.
Qed.

Lemma keeps_update (q t : Z) (d : date) (u : float) (n : string) :
  float_ok u -> keeps (Sql.update q t d u n) (fun _ => True).
Proof.
  intros Hu. unfold Sql.update.
  eapply keeps_bind; [apply keeps_bind_int | intros [] Hq; cbv beta in Hq].
  eapply keeps_bind; [apply keeps_bind_int | intros [] Ht; cbv beta in Ht].
  eapply keeps_bind; [apply keeps_bind_text | intros [] _].
  eapply keeps_bind; [apply keeps_engine | intros [] _].
  intros c ((Hall & Hnd) & H3 & H4). cbn [fst snd]. split; [ | auto].
  apply stores_ok_intro; cbn [with_rows rows saved_rows]; try assumption.
  - rewrite Forall_forall in *. intros x Hx. apply in_map_iff in Hx.
    destruct Hx as (r & <- & Hin). destruct (Sql.has_name n r); [ | auto].
    repeat split; assumption.
  - rewrite map_map.
    rewrite (map_ext _ name); [exact Hnd | ].
    intros r. destruct (Sql.has_name n r); reflexivity.
Qed.

Lemma NoDup_names_filter (p : item -> bool) (l : list item) :
  NoDup (map name l) -> NoDup (map name (filter p l)).
Proof.
  induction l as [ | x l IH]; cbn [map filter]; [auto | ].
  intros Hnd. inversion Hnd as [ | ? ? Hnotin Hnd']; subst.
  destruct (p x); cbn [map]; [ | auto].
  constructor; [ | auto].
  intros Hin. apply Hnotin. apply in_map_iff in Hin. destruct Hin as (r & Hr & Hin).
  apply filter_In in Hin. rewrite <- Hr. apply in_map. tauto.
Qed.

Lemma keeps_delete (n : string) : keeps (Sql.delete n) (fun _ => True).
Proof.
  unfold Sql.delete.
  eapply keeps_bind; [apply keeps_bind_text | intros [] _].
  eapply keeps_bind; [apply keeps_engine | intros [] _].
  intros c ((Hall & Hnd) & H3 & H4). cbn [fst snd]. split; [ | auto].
  apply stores_ok_intro; cbn [with_rows rows saved_rows]; try assumption.
  - rewrite Forall_forall in *. intros x Hx. apply filter_In in Hx. apply Hall. tauto.
  - apply NoDup_names_filter. exact Hnd.
Qed.

(** ** Every operation keeps the invariant *)

Lemma recompute_usage_ok (days_passed new_quantity old_quantity : Z) (old use : float) :
  float_ok old ->
  recompute_usage days_passed new_quantity old_quantity old = Ok use ->
  float_ok use.
Proof.
  intros Hold. unfold recompute_usage.
  destruct (usage_changed days_passed new_quantity old_quantity).
  - apply PyFloatFacts.int_truediv_ok.
  - intros [= <-]. exact Hold.
Qed.

Lemma add_item_keeps (today : date) (n : string) (qi ti : int_input) :
  keeps (add_item today n qi ti) (fun _ => True).
Proof.
  unfold add_item.
  eapply keeps_bind with (Q := fun _ => True).
  - apply keeps_try.
    + eapply keeps_bind; [apply keeps_lift; intros; exact I | intros q _].
      eapply keeps_bind; [apply keeps_lift; intros; exact I | intros t _].
      apply keeps_ret. exact I.
    + intros e h. destruct (is_value_error e); intros [= <-].
      eapply keeps_bind; [apply keeps_print | intros [] _]. apply keeps_ret. exact I.
  - intros [[q t] | ] _; [ | apply keeps_ret; exact I].
    apply keeps_try.
    + eapply keeps_bind; [apply keeps_insert; exact I | intros [] _].
      eapply keeps_bind; [apply keeps_commit | intros [] _].
      apply keeps_print.
    + intros [ | | | | | ] h [= <-]; apply keeps_print.
Qed.

Lemma update_item_keeps (now_days now_stamp : date) (n : string) (qi ti : int_input) :
  keeps (update_item now_days now_stamp n qi ti) (fun _ => True).
Proof.
  unfold update_item.
  eapply keeps_bind; [apply keeps_select_one | ].
  intros [r | ] Hr; cbv beta in Hr; [ | apply keeps_print].
  destruct (Hr r eq_refl) as (_ & _ & Hold).
  eapply keeps_bind; [apply keeps_print | intros [] _].
  eapply keeps_bind with (Q := fun _ => True).
  - apply keeps_try.
    + eapply keeps_bind; [apply keeps_lift; intros; exact I | intros q _].
      eapply keeps_bind; [apply keeps_lift; intros; exact I | intros t _].
      apply keeps_ret. exact I.
    + intros e h. destruct (is_value_error e); intros [= <-].
      eapply keeps_bind; [apply keeps_print | intros [] _]. apply keeps_ret. exact I.
  - intros [[q t] | ] _; [ | apply keeps_ret; exact I].
    eapply keeps_bind.
    + apply keeps_lift. intros use Huse. exact (recompute_usage_ok _ _ _ _ _ Hold Huse).
    + intros use Huse. apply keeps_try.
      * eapply keeps_bind; [apply keeps_update; exact Huse | intros [] _].
        eapply keeps_bind; [apply keeps_commit | intros [] _].
        eapply keeps_bind; [apply keeps_print | intros [] _].
        destruct (q <? t); [apply keeps_print | apply keeps_ret; exact I].
      * intros e h. destruct (is_sqlite_error e); intros [= <-]. apply keeps_print.
Qed.

Lemma delete_item_keeps (n : string) : keeps (delete_item n) (fun _ => True).
Proof.
  unfold delete_item.
  eapply keeps_bind; [apply keeps_delete | intros rowcount _].
  destruct (rowcount =? 0); [apply keeps_print | ].
  eapply keeps_bind; [apply keeps_commit | intros [] _]. apply keeps_print.
Qed.

Lemma view_items_keeps : keeps view_items (fun _ => True).
Proof.
  unfold view_items.
  eapply keeps_bind; [apply keeps_select_all | intros fetched _].
  destruct fetched; [apply keeps_print | ].
  intros c Hc. cbn [fst snd]. auto.
Qed.

Lemma predict_restock_keeps (today : date) (n : string) :
  keeps (predict_restock today n) (fun _ => True).
Proof.
  unfold predict_restock.
  eapply keeps_bind; [apply keeps_select_one | ].
  intros [r | ] _; [ | apply keeps_print].
  destruct (PyFloat.le0 (daily_usage r)); [apply keeps_print | ].
  eapply keeps_bind; [apply keeps_lift; intros; exact I | intros days_left _].
  destruct (PyFloat.lt0 days_left); [apply keeps_print | ].
  eapply keeps_bind; [apply keeps_lift; intros; exact I | intros whole _].
  eapply keeps_bind; [apply keeps_lift; intros; exact I | intros delta _].
  eapply keeps_bind; [apply keeps_lift; intros; exact I | intros restock_date _].
  eapply keeps_bind; [apply keeps_lift; intros; exact I | intros shown _].
  eapply keeps_bind; [apply keeps_print | intros [] _]. apply keeps_print.
Qed.

Lemma run_command_keeps (cmd : command) : keeps (run_command cmd) (fun _ => True).
Proof.
  destruct cmd; cbn [run_command].
  - apply add_item_keeps.
  - apply update_item_keeps.
  - apply delete_item_keeps.
  - apply view_items_keeps.
  - apply predict_restock_keeps.
  - apply keeps_ret; exact I.
  - apply keeps_ret; exact I.
Qed.

(** Every state the menu loop reaches from a table that satisfies the
    invariant satisfies it, too; a new database does. *)
Lemma menu_loop_keeps (cmds : list command) (c : conn) :
  stores_ok c -> stores_ok (snd (fst (menu_loop cmds c))).
Proof.
  revert c. induction cmds as [ | cmd rest IH]; intros c Hc; cbn [menu_loop]; [exact Hc | ].
  assert (Hrun := run_command_keeps cmd c Hc). destruct Hrun as [Hrun _].
  assert (Hstep : stores_ok
            (snd (fst match run_command cmd c with
                      | (Raise e, c1, out1) => (Crashed e, c1, out1)
                      | (Ok _, c1, out1) =>
                          let '(e, c2, out2) := menu_loop rest c1 in (e, c2, out1 ++ out2)
                      end))).
  { destruct (run_command cmd c) as [[[a | e] c1] out1]; cbn [fst snd] in *; [ | exact Hrun].
    specialize (IH c1 Hrun). destruct (menu_loop rest c1) as [[e c2] out2]. exact IH. }
  destruct cmd; try exact Hstep. exact Hc.
Qed.

(** ** The operations on a healthy connection *)

(** A successful update: the row written in place of [r], and the messages. *)
Lemma update_item_healthy (c : conn) (now_days now_stamp : date) (n : string)
    (qi ti : int_input) (r : item) (nq nt : Z) (use : float) :
  healthy c ->
  lookup n c = Some r ->
  int_or_keep qi (quantity r) = Ok nq ->
  int_or_keep ti (threshold r) = Ok nt ->
  Sql.in_int64 nq = true ->
  Sql.in_int64 nt = true ->
  recompute_usage (PyDate.diff_days now_days (last_updated r)) nq (quantity r)
                  (daily_usage r) = Ok use ->
  update_item now_days now_stamp n qi ti c =
    (Ok tt,
     committed
       (with_rows c (map (fun x => if Sql.has_name n x
                                   then mkItem (id x) (name x) nq nt now_stamp use
                                   else x)
                         (rows c))),
     MsgCurrent (quantity r) (threshold r) (last_updated r) (daily_usage r)
       :: MsgUpdated n nq nt use
       :: (if nq <? nt then [MsgAlert n nt] else [])).
Proof.
  intros H Hl Hq Ht Hnq Hnt Huse.
  assert (Hn := lookup_text_ok n c r Hl).
  unfold update_item. unfold bind at 1. rewrite (select_one_found n c r H Hl).
  unfold bind at 1 2 3, try_except at 1, lift, print, ret.
  rewrite Hq. unfold bind at 1. rewrite Ht. cbv beta iota.
  unfold bind at 1. rewrite Huse. cbv beta iota.
  unfold try_except, bind at 1. rewrite update_healthy by assumption.
  unfold bind at 1. rewrite commit_healthy by (apply with_rows_healthy; exact H).
  unfold bind. destruct (nq <? nt); reflexivity.
Qed.

(** The row found after a successful update. *)
Lemma lookup_updated (c : conn) (n : string) (r : item) (upd : item -> item) :
  (forall x, name (upd x) = name x) ->
  lookup n c = Some r ->
  lookup n (committed (with_rows c (map (fun x => if Sql.has_name n x then upd x else x)
                                        (rows c))))
  = Some (upd r).
Proof.
  intros Hupd Hl. assert (Hn := lookup_text_ok n c r Hl).
  rewrite lookup_find by exact Hn. cbn [committed with_rows rows].
  apply find_map_update; [exact Hupd | apply lookup_some_find; exact Hl].
Qed.

Lemma in_int64_range (z : Z) : Sql.in_int64 z = true -> - 2 ^ 63 <= z <= 2 ^ 63 - 1.
Proof.
  unfold Sql.in_int64. intros H. apply andb_true_iff in H. destruct H as [H1 H2].
  apply Z.leb_le in H1, H2. split; assumption.
Qed.

Lemma int64_difference_small (a b : Z) :
  Sql.in_int64 a = true -> Sql.in_int64 b = true -> Z.abs (a - b) < 2 ^ 1022.
Proof.
  intros Ha Hb. apply in_int64_range in Ha, Hb.
  assert (H : 2 ^ 64 <= 2 ^ 1022) by (apply Z.pow_le_mono_r; lia).
  change (2 ^ 64) with (2 * 2 ^ 63) in H. lia.
Qed.

(** The rolling rate never fails on quantities the table can hold. *)
Lemma recompute_usage_total (days_passed nq oq : Z) (old : float) :
  Sql.in_int64 nq = true -> Sql.in_int64 oq = true ->
  exists use, recompute_usage days_passed nq oq old = Ok use.
Proof.
  intros Hn Ho. unfold recompute_usage.
  destruct (usage_changed days_passed nq oq) eqn:E; [ | eauto].
  unfold usage_changed in E. apply andb_true_iff in E. destruct E as [E _].
  apply Z.gtb_lt in E.
  apply PyFloatFacts.int_truediv_total; [lia | apply int64_difference_small; assumption].
Qed.

Lemma usage_changed_iff (days_passed nq oq : Z) :
  usage_changed days_passed nq oq = true <-> 0 < days_passed /\ nq <> oq.
Proof.
  unfold usage_changed. rewrite andb_true_iff, negb_true_iff, Z.eqb_neq.
  split; intros [H1 H2]; split; auto; [apply Z.gtb_lt; exact H1 | apply Z.gtb_lt; exact H1].
Qed.

Lemma gt0_not_le0 (d : float) : PyFloat.gt0 d = true -> PyFloat.le0 d = false.
Proof. destruct d as [s | [ | ] | | [ | ] m e]; cbn; congruence. Qed.

Lemma ge0_not_lt0 (d : float) : PyFloat.ge0 d = true -> PyFloat.lt0 d = false.
Proof. destruct d as [s | [ | ] | | [ | ] m e]; cbn; congruence. Qed.

Lemma truediv_gt0 (x d : float) :
  PyFloat.gt0 d = true -> PyFloat.truediv x d = Ok (SFdiv PyFloat.prec PyFloat.emax x d).
Proof. destruct d as [s | s | | s m e]; cbn [PyFloat.truediv]; try reflexivity. discriminate. Qed.

(** [days_left] is computed without an exception on the rows of the table. *)
Lemma days_left_of_total (r : item) :
  item_ok r -> PyFloat.gt0 (daily_usage r) = true ->
  exists days_left, days_left_of r = Ok days_left.
Proof.
  intros (Hq & Ht & _) Hpos. unfold days_left_of, PyFloat.int_truediv_float.
  destruct (PyFloatFacts.of_int_spec (quantity r - threshold r)) as (x & -> & _).
  { assert (H := int64_difference_small _ _ Hq Ht).
    assert (2 ^ 1022 <= 2 ^ 1023) by (apply Z.pow_le_mono_r; lia). lia. }
  rewrite truediv_gt0 by exact Hpos. eauto.
Qed.

Lemma valid_range (d : date) : PyDate.valid d = true -> 1 <= d <= 3652059.
Proof.
  unfold PyDate.valid, PyDate.min_ordinal, PyDate.max_ordinal. intros H.
  apply andb_true_iff in H. destruct H as [H1 H2]. apply Z.leb_le in H1, H2. lia.
Qed.

(** The forecast, once [days_left] is known. *)
Lemma predict_restock_healthy (c : conn) (today : date) (n : string) (r : item)
    (days_left : float) (k : Z) :
  healthy c -> lookup n c = Some r ->
  PyFloat.le0 (daily_usage r) = false ->
  days_left_of r = Ok days_left ->
  PyFloat.lt0 days_left = false ->
  PyFloat.to_int days_left = Ok k ->
  PyDate.valid today = true ->
  PyDate.valid (today + k) = true ->
  predict_restock today n c = (Ok tt, c, [MsgEstimate k n; MsgRestockDate (today + k)]).
Proof.
  intros H Hl Hle Hdl Hlt Hk Ht Htk.
  unfold predict_restock. unfold bind at 1. rewrite (select_one_found n c r H Hl).
  rewrite Hle. unfold bind, lift, print. rewrite Hdl, Hlt, Hk.
  assert (Hdelta : PyDate.timedelta k = Ok k).
  { unfold PyDate.timedelta, PyDate.max_delta_days.
    apply valid_range in Ht, Htk.
    assert (E : (Z.abs k <=? 999999999) = true) by (apply Z.leb_le; lia).
    rewrite E. reflexivity. }
  rewrite Hdelta. unfold PyDate.add. rewrite Htk. reflexivity.
Qed.

(** Whatever the store, a day count [predict_restock] prints is not
    negative. *)
Lemma predict_restock_estimate_nonneg (c : conn) (today : date) (n n' : string) (k : Z) :
  In (MsgEstimate k n') (snd (predict_restock today n c)) -> 0 <= k.
Proof.
  unfold predict_restock, Sql.select_one, Sql.bind_text, Sql.engine, bind, lift, print,
    ret, raise.
  destruct (Sql.text_ok n); cbn [fst snd app In]; [ | tauto].
  destruct (faults c) as [ | [ | ] fs]; [ | destruct (io_errors c) as [ | [ | ] ks] | ];
    cbn [fst snd app In rows]; try tauto;
    (destruct (find (Sql.has_name n) (rows c)) as [r | ]; cbn [fst snd app In];
     [ | intros [H | []]; discriminate]);
    (destruct (PyFloat.le0 (daily_usage r)); cbn [fst snd app In];
     [intros [H | []]; discriminate | ]);
    (destruct (days_left_of r) as [days_left | e]; cbn [fst snd app In]; [ | tauto]);
    (destruct (PyFloat.lt0 days_left) eqn:Elt; cbn [fst snd app In];
     [intros [H | []]; discriminate | ]);
    (destruct (PyFloat.to_int days_left) as [whole | e] eqn:Eint; cbn [fst snd app In];
     [ | tauto]);
    (destruct (PyDate.timedelta whole) as [delta | e]; cbn [fst snd app In]; [ | tauto]);
    (destruct (PyDate.add today delta) as [restock | e]; cbn [fst snd app In]; [ | tauto]);
    (intros [H | [H | []]]; [ | discriminate]; injection H as <- _;
     exact (PyFloatFacts.to_int_nonneg days_left whole Elt Eint)).
Qed.

(** Below the threshold with a positive rate: [days_left] is negative. *)
Lemma days_left_negative (r : item) :
  item_ok r -> quantity r < threshold r -> PyFloat.gt0 (daily_usage r) = true ->
  exists days_left, days_left_of r = Ok days_left /\ PyFloat.lt0 days_left = true.
Proof.
  intros (Hq & Ht & Hd) Hlt Hpos. unfold days_left_of, PyFloat.int_truediv_float.
  destruct (PyFloatFacts.of_int_spec (quantity r - threshold r)) as (x & -> & _ & Hx).
  { assert (H := int64_difference_small _ _ Hq Ht).
    assert (2 ^ 1022 <= 2 ^ 1023) by (apply Z.pow_le_mono_r; lia). lia. }
  specialize (Hx ltac:(lia)).
  assert (Hneg : (quantity r - threshold r <? 0) = true) by (apply Z.ltb_lt; lia).
  rewrite Hneg in Hx.
  apply PyFloatFacts.truediv_negative; [ | exact Hd | exact Hpos].
  assert (Hdig : 1 <= Zdigits2 (quantity r - threshold r)).
  { destruct (quantity r - threshold r) as [ | p | p]; cbn; lia. }
  destruct x as [s | s | | s m e]; cbn [at_least] in *; try tauto.
  destruct Hx as [-> Hx]. split; [reflexivity | lia].
Qed.

(** The message looked for is not among those of a failed run. *)
Ltac not_printed :=
  let E := fresh "E" in
  let H := fresh "H" in
  intros E H; inversion E; subst; cbn [In app] in H;
  repeat match goal with
         | H' : _ \/ _ |- _ => destruct H' as [H' | H']
         end;
  solve [discriminate | contradiction].

(** A successful [add_item] appended the row, whatever the health of the
    storage. *)
Lemma add_item_success (c c1 : conn) (today : date) (n : string) (qi ti : int_input)
    (out : list message) (q t : Z) :
  add_item today n qi ti c = (Ok tt, c1, out) ->
  In (MsgAdded n q t) out ->
  qi = Digits q /\ ti = Digits t /\
  existsb (Sql.has_name n) (rows c) = false /\
  rows c1 = rows c ++ [mkItem (seq c + 1) n q t today PyFloat.zero] /\
  seq c1 = seq c + 1 /\
  Sql.text_ok n = true /\
  saved_rows c1 = rows c1 /\ saved_seq c1 = seq c1.
Proof.
  unfold add_item.
  destruct qi as [ | q' | ]; destruct ti as [ | t' | ];
    cbn [try_except bind lift py_int ret print fst snd app is_value_error];
    try not_printed.
  unfold try_except, bind, Sql.insert, Sql.bind_int, Sql.bind_text, Sql.commit, Sql.engine,
    bind, ret, raise, print.
  destruct (Sql.text_ok n); [ | discriminate].
  destruct (Sql.in_int64 q'); [ | discriminate].
  destruct (Sql.in_int64 t'); [ | discriminate].
  destruct c as [rs sq fs ks srs ssq]. cbn [faults rows seq io_errors saved_rows saved_seq].
  destruct fs as [ | [ | ] fs]; [ | destruct ks as [ | [ | ] ks] | ];
    cbn [fst snd app faults rows seq io_errors saved_rows saved_seq];
    try not_printed;
    (destruct (existsb (Sql.has_name n) rs);
     cbn [fst snd app faults rows seq io_errors saved_rows saved_seq committed];
     [not_printed | ]).
  - intros [= <- <-] [[= <- <-] | []]. cbn [rows seq saved_rows saved_seq]. auto 10.
  - destruct fs as [ | [ | ] fs']; [ | destruct ks as [ | [ | ] ks] | ];
      cbn [fst snd app faults rows seq io_errors saved_rows saved_seq committed];
      try not_printed;
      intros [= <- <-] [[= <- <-] | []]; cbn [rows seq saved_rows saved_seq]; auto 10.
Qed.

Lemma filter_row_named (n : string) (l : list item) :
  filter (row_named n) (map view_line l) = map view_line (filter (Sql.has_name n) l).
Proof.
  induction l as [ | x l IH]; cbn [map filter]; [reflexivity | ].
  unfold view_line at 1. cbn [row_named]. unfold Sql.has_name at 1.
  destruct (String.eqb (name x) n); cbn [map]; rewrite IH; reflexivity.
Qed.

Lemma view_items_healthy (c : conn) :
  healthy c -> rows c <> [] ->
  view_items c = (Ok tt, c, MsgHeader :: map view_line (rows c)).
Proof.
  intros H Hne. unfold view_items. unfold bind. rewrite select_all_healthy by exact H.
  destruct (rows c); [contradiction | reflexivity].
Qed.

(** On a healthy store, a name that is not in the table and quantities of 64
    bits are enough for [add_item] to succeed. *)
Lemma add_item_healthy_new (c : conn) (today : date) (n : string) (q t : Z) :
  healthy c -> Sql.text_ok n = true -> lookup n c = None ->
  Sql.in_int64 q = true -> Sql.in_int64 t = true ->
  add_item today n (Digits q) (Digits t) c =
    (Ok tt,
     committed
       (Conn (rows c ++ [mkItem (seq c + 1) n q t today PyFloat.zero]) (seq c + 1)
             (faults c) (io_errors c) (saved_rows c) (saved_seq c)),
     [MsgAdded n q t]).
Proof.
  intros H Hn Hl Hq Ht.
  unfold add_item, bind at 1. cbn [try_except bind lift py_int ret].
  unfold try_except, bind at 1. rewrite insert_healthy by assumption.
  rewrite (lookup_none_existsb n c Hn Hl).
  unfold bind, print. rewrite commit_healthy by exact H. reflexivity.
Qed.

(** One step of the case analysis on the health of the storage. *)
Ltac split_faults :=
  first
    [ progress cbn [fst snd app faults rows seq io_errors saved_rows saved_seq committed
                    with_rows]
    | match goal with
      | |- context [match ?l with nil => _ | cons _ _ => _ end] =>
          is_var l; destruct l as [ | [ | ] ?]
      end ].

(** The run printed [MsgUpdated]: the row in the goal is the one it names. *)
Ltac updated_row :=
  let Hin := fresh "Hin" in
  intros [= <- <-] Hin; cbn [In] in Hin;
  repeat match goal with
         | H : _ \/ _ |- _ => destruct H as [H | H]
         end;
  try discriminate; try contradiction;
  match goal with
  | H : MsgUpdated _ _ _ _ = _ |- _ => injection H as <- <- <- <-
  end;
  reflexivity.

(** A successful [update_item] rewrote the row of the name, whatever the
    health of the storage. *)
Lemma update_item_success (c c' : conn) (now_days now_stamp : date) (n n' : string)
    (qi ti : int_input) (out : list message) (nq nt : Z) (use : float) :
  update_item now_days now_stamp n qi ti c = (Ok tt, c', out) ->
  In (MsgUpdated n' nq nt use) out ->
  rows c' = map (fun x => if Sql.has_name n x
                          then mkItem (id x) (name x) nq nt now_stamp use
                          else x) (rows c).
Proof.
  unfold update_item, Sql.select_one, Sql.update, Sql.bind_int, Sql.bind_text, Sql.commit,
    Sql.engine, bind, try_except, lift, ret, raise, print.
  destruct c as [rs sq fs ks srs ssq].
  destruct (Sql.text_ok n); [ | discriminate].
  repeat first
    [ split_faults
    | progress cbn [is_sqlite_error is_value_error]
    | match goal with
      | |- context [find (Sql.has_name n) rs] =>
          destruct (find (Sql.has_name n) rs) as [? | ]
      | |- context [int_or_keep ?x ?y] =>
          destruct (int_or_keep x y) as [? | [ | | | | | ]]
      | |- context [recompute_usage ?a ?b ?c ?d] => destruct (recompute_usage a b c d)
      | |- context [Sql.in_int64 ?z] => destruct (Sql.in_int64 z)
      | |- context [?a <? ?b] => destruct (a <? b)
      end ].
  all: first [not_printed | updated_row].
Qed.

Lemma with_rows_same (c : conn) : with_rows c (rows c) = c.
Proof. destruct c; reflexivity. Qed.

(** [delete_item] on a healthy store. *)
Lemma delete_item_absent (c : conn) (n : string) :
  healthy c -> Sql.text_ok n = true -> lookup n c = None ->
  delete_item n c = (Ok tt, c, [MsgNotFound]).
Proof.
  intros H Hn Hl. unfold delete_item, bind. rewrite delete_healthy by assumption.
  rewrite lookup_find in Hl by exact Hn.
  destruct (filter_none n (rows c) Hl) as [-> ->]. rewrite with_rows_same. reflexivity.
Qed.

Lemma delete_item_present (c : conn) (n : string) (r : item) :
  healthy c -> lookup n c = Some r ->
  delete_item n c =
    (Ok tt,
     committed (with_rows c (filter (fun x => negb (Sql.has_name n x)) (rows c))),
     [MsgDeleted n]).
Proof.
  intros H Hl. assert (Hn := lookup_text_ok n c r Hl).
  unfold delete_item, bind. rewrite delete_healthy by assumption.
  assert (Hcount : (Z.of_nat (List.length (filter (Sql.has_name n) (rows c))) =? 0) = false).
  { apply Z.eqb_neq. apply lookup_some_find in Hl. apply find_some in Hl.
    destruct Hl as [Hin Hr].
    assert (Hf : In r (filter (Sql.has_name n) (rows c))) by (apply filter_In; auto).
    destruct (filter (Sql.has_name n) (rows c)); [contradiction | cbn [List.length]; lia]. }
  rewrite Hcount. unfold print.
  rewrite commit_healthy by (apply with_rows_healthy; exact H). reflexivity.
Qed.

(** ** The exceptions that leave an operation *)

Lemma raises_ret {A} (a : A) (P : exn -> Prop) : raises_only (ret a) P.
Proof. intros c e. cbn. discriminate. Qed.

Lemma raises_print (m : message) (P : exn -> Prop) : raises_only (print m) P.
Proof. intros c e. cbn. discriminate. Qed.

Lemma raises_raise {A} (e : exn) (P : exn -> Prop) : P e -> raises_only (@raise A e) P.
Proof. intros He c e'. cbn. intros [= <-]. exact He. Qed.

Lemma raises_lift {A} (r : res A) (P : exn -> Prop) :
  (forall e, r = Raise e -> P e) -> raises_only (lift r) P.
Proof. intros Hr c e. cbn. apply Hr. Qed.

Lemma raises_bind {A B} (m : M A) (k : A -> M B) (P : exn -> Prop) :
  raises_only m P -> (forall a, raises_only (k a) P) -> raises_only (bind m k) P.
Proof.
  intros Hm Hk c e. unfold bind. specialize (Hm c).
  destruct (m c) as [[[a | e1] c1] out1]; cbn [fst snd] in *.
  - specialize (Hk a c1 e). destruct (k a c1) as [[r c2] out2]. exact Hk.
  - intros [= <-]. exact (Hm e1 eq_refl).
Qed.

Lemma raises_try {A} (body : M A) (handler : exn -> option (M A)) (Q P : exn -> Prop) :
  raises_only body Q ->
  (forall e, Q e -> match handler e with
                    | Some h => raises_only h P
                    | None => P e
                    end) ->
  raises_only (try_except body handler) P.
Proof.
  intros Hb Hh c e. unfold try_except. specialize (Hb c).
  destruct (body c) as [[[a | e1] c1] out1]; cbn [fst snd] in *; [discriminate | ].
  specialize (Hh e1 (Hb e1 eq_refl)).
  destruct (handler e1) as [h | ].
  - specialize (Hh c1 e). destruct (h c1) as [[r c2] out2]. exact Hh.
  - cbn [fst]. intros [= <-]. exact Hh.
Qed.

Lemma raises_engine (P : exn -> Prop) : P SqlOperationalError -> raises_only Sql.engine P.
Proof.
  intros HP c e. unfold Sql.engine.
  destruct (faults c) as [ | [ | ] fs]; [ | destruct (io_errors c) as [ | [ | ] ks] | ];
    cbn [fst]; try discriminate; intros [= <-]; exact HP.
Qed.

Lemma raises_commit (P : exn -> Prop) : P SqlOperationalError -> raises_only Sql.commit P.
Proof.
  intros HP. unfold Sql.commit. apply raises_bind; [apply raises_engine; exact HP | ].
  intros _ c e. cbn. discriminate.
Qed.

Lemma raises_bind_int (z : Z) (P : exn -> Prop) :
  P OverflowError -> raises_only (Sql.bind_int z) P.
Proof.
  intros HP. unfold Sql.bind_int.
  destruct (Sql.in_int64 z); [apply raises_ret | apply raises_raise; exact HP].
Qed.

Lemma raises_bind_text (n : string) (P : exn -> Prop) :
  (Sql.text_ok n = false -> P UnicodeEncodeError) -> raises_only (Sql.bind_text n) P.
Proof.
  intros HP. unfold Sql.bind_text.
  destruct (Sql.text_ok n); [apply raises_ret | apply raises_raise; auto].
Qed.

Lemma raises_select_one (n : string) (P : exn -> Prop) :
  P SqlOperationalError -> (Sql.text_ok n = false -> P UnicodeEncodeError) ->
  raises_only (Sql.select_one n) P.
Proof.
  intros HP HU. unfold Sql.select_one.
  apply raises_bind; [apply raises_bind_text; exact HU | intros _].
  apply raises_bind; [apply raises_engine; exact HP | ].
  intros _ c e. cbn. discriminate.
Qed.

Lemma raises_update (q t : Z) (d : date) (u : float) (n : string) (P : exn -> Prop) :
  P SqlOperationalError -> P OverflowError ->
  (Sql.text_ok n = false -> P UnicodeEncodeError) ->
  raises_only (Sql.update q t d u n) P.
Proof.
  intros H1 H2 H3. unfold Sql.update.
  apply raises_bind; [apply raises_bind_int; exact H2 | intros _].
  apply raises_bind; [apply raises_bind_int; exact H2 | intros _].
  apply raises_bind; [apply raises_bind_text; exact H3 | intros _].
  apply raises_bind; [apply raises_engine; exact H1 | intros _].
  intros c e. cbn. discriminate.
Qed.

(** ** The divisions *)

Lemma int_truediv_raises (a b : Z) (e : exn) :
  PyFloat.int_truediv a b = Raise e ->
  (e = ZeroDivisionError /\ b = 0) \/ (e = OverflowError /\ b <> 0).
Proof.
  unfold PyFloat.int_truediv. destruct (b =? 0) eqn:Eb.
  - intros [= <-]. left. split; [reflexivity | apply Z.eqb_eq; exact Eb].
  - apply Z.eqb_neq in Eb. destruct (a =? 0); [discriminate | ].
    destruct (SFdiv _ _ _ _); try discriminate. intros [= <-]. right. auto.
Qed.

Lemma truediv_raises (x y : float) (e : exn) :
  PyFloat.truediv x y = Raise e ->
  e = ZeroDivisionError /\ PyFloat.le0 y = true /\ PyFloat.gt0 y = false.
Proof.
  destruct y as [s | s | | s m ey]; cbn [PyFloat.truediv]; try discriminate.
  intros [= <-]. repeat split.
Qed.

Lemma of_int_raises (n : Z) (e : exn) : PyFloat.of_int n = Raise e -> e = OverflowError.
Proof.
  unfold PyFloat.of_int. destruct (binary_normalize _ _ _ _ _); try discriminate.
  intros [= <-]. reflexivity.
Qed.

Lemma to_int_raises (x : float) (e : exn) :
  PyFloat.to_int x = Raise e -> e = OverflowError \/ e = ValueError.
Proof.
  destruct x as [s | s | | s m ex]; cbn [PyFloat.to_int]; try discriminate;
    intros [= <-]; auto.
Qed.

(** Lines 79-81: the division is reached with [days_passed > 0] only. *)
Lemma recompute_usage_raises (days_passed nq oq : Z) (old : float) (e : exn) :
  recompute_usage days_passed nq oq old = Raise e -> e = OverflowError.
Proof.
  unfold recompute_usage. destruct (usage_changed days_passed nq oq) eqn:E; [ | discriminate].
  apply usage_changed_iff in E. intros H.
  destruct (int_truediv_raises _ _ _ H) as [[_ Hz] | [He _]]; [lia | exact He].
Qed.

(** Lines 135-138: the division is reached with a divisor that is not zero. *)
Lemma days_left_of_raises (r : item) (e : exn) :
  PyFloat.le0 (daily_usage r) = false ->
  days_left_of r = Raise e -> e = OverflowError.
Proof.
  intros Hle. unfold days_left_of, PyFloat.int_truediv_float.
  destruct (PyFloat.of_int (quantity r - threshold r)) as [x | e1] eqn:Ex.
  - intros H. destruct (truediv_raises _ _ _ H) as (_ & Hz & _). congruence.
  - intros [= <-]. exact (of_int_raises _ _ Ex).
Qed.

Lemma int_or_keep_raises (text : int_input) (old : Z) (e : exn) :
  int_or_keep text old = Raise e -> e = ValueError.
Proof.
  unfold int_or_keep, py_int. destruct text; cbn [stripped_nonempty]; try discriminate;
    intros [= <-]; reflexivity.
Qed.

Lemma update_item_raises (now_days now_stamp : date) (n : string) (qi ti : int_input) :
  raises_only (update_item now_days now_stamp n qi ti)
              (fun e => e = OverflowError \/ e = SqlOperationalError \/
                        (e = UnicodeEncodeError /\ Sql.text_ok n = false)).
Proof.
  unfold update_item.
  apply raises_bind; [apply raises_select_one; auto | ].
  intros [r | ]; [ | apply raises_print].
  apply raises_bind; [apply raises_print | intros _].
  apply raises_bind.
  - apply raises_try with (Q := fun e => e = ValueError).
    + apply raises_bind; [apply raises_lift; apply int_or_keep_raises | intros q].
      apply raises_bind; [apply raises_lift; apply int_or_keep_raises | intros t].
      apply raises_ret.
    + intros e ->. cbn [is_value_error].
      apply raises_bind; [apply raises_print | intros _; apply raises_ret].
  - intros [[q t] | ]; [ | apply raises_ret].
    apply raises_bind.
    + apply raises_lift. intros e He. left. exact (recompute_usage_raises _ _ _ _ _ He).
    + intros use.
      apply raises_try
        with (Q := fun e => e = OverflowError \/ e = SqlOperationalError \/
                            (e = UnicodeEncodeError /\ Sql.text_ok n = false)).
      * apply raises_bind; [apply raises_update; auto | intros _].
        apply raises_bind; [apply raises_commit; auto | intros _].
        apply raises_bind; [apply raises_print | intros _].
        destruct (q <? t); [apply raises_print | apply raises_ret].
      * intros e [-> | [-> | [-> Hn]]]; cbn [is_sqlite_error]; auto. apply raises_print.
Qed.

Lemma predict_restock_raises (today : date) (n : string) :
  raises_only (predict_restock today n)
              (fun e => e = OverflowError \/ e = ValueError \/ e = SqlOperationalError \/
                        (e = UnicodeEncodeError /\ Sql.text_ok n = false)).
Proof.
  unfold predict_restock.
  apply raises_bind; [apply raises_select_one; auto 6 | ].
  intros [r | ]; [ | apply raises_print].
  destruct (PyFloat.le0 (daily_usage r)) eqn:Ele; [apply raises_print | ].
  apply raises_bind.
  { apply raises_lift. intros e He. left. exact (days_left_of_raises r e Ele He). }
  intros days_left. destruct (PyFloat.lt0 days_left); [apply raises_print | ].
  apply raises_bind.
  { apply raises_lift. intros e He. destruct (to_int_raises _ _ He); auto. }
  intros whole. apply raises_bind.
  { apply raises_lift. intros e. unfold PyDate.timedelta.
    destruct (Z.abs whole <=? PyDate.max_delta_days); [discriminate | ].
    intros [= <-]. auto. }
  intros delta. apply raises_bind.
  { apply raises_lift. intros e. unfold PyDate.add.
    destruct (PyDate.valid (today + delta)); [discriminate | ]. intros [= <-]. auto. }
  intros restock. apply raises_bind.
  { apply raises_lift. intros e He. destruct (to_int_raises _ _ He); auto. }
  intros shown. apply raises_bind; [apply raises_print | intros _; apply raises_print].
Qed.

(** * The claims *)

(** ** C1: the rolling usage rate *)


(** C1, as amended.  On a healthy store, for an existing item and a new
    quantity and threshold within the signed 64-bit range of the INTEGER
    columns, [update_item] succeeds and stores as [daily_usage] the correctly
    rounded quotient [(old_quantity - new_quantity) / days_passed] exactly
    when [days_passed = today - last_updated] is positive and the quantity
    differs; in every other case the stored [daily_usage] is carried forward
    unchanged. *)
Theorem update_item_usage_rule (c : conn) (now_days now_stamp : date) (n : string)
    (qi ti : int_input) (r : item) (nq nt : Z) :
  healthy c ->
  lookup n c = Some r ->
  Sql.in_int64 (quantity r) = true ->
  int_or_keep qi (quantity r) = Ok nq ->
  int_or_keep ti (threshold r) = Ok nt ->
  Sql.in_int64 nq = true ->
  Sql.in_int64 nt = true ->
  exists (c' : conn) (out : list message) (r' : item),
    update_item now_days now_stamp n qi ti c = (Ok tt, c', out) /\
    lookup n c' = Some r' /\
    (0 < PyDate.diff_days now_days (last_updated r) /\ nq <> quantity r ->
       PyFloat.int_truediv (quantity r - nq)
         (PyDate.diff_days now_days (last_updated r)) = Ok (daily_usage r')) /\
    (~ (0 < PyDate.diff_days now_days (last_updated r) /\ nq <> quantity r) ->
       daily_usage r' = daily_usage r).
Proof.
  intros H Hl Hoq Hq Ht Hnq Hnt.
  destruct (recompute_usage_total (PyDate.diff_days now_days (last_updated r))
              nq (quantity r) (daily_usage r) Hnq Hoq) as [use Huse].
  eexists _, _, (mkItem (id r) (name r) nq nt now_stamp use).
  split; [apply (update_item_healthy c now_days now_stamp n qi ti r nq nt use); assumption | ].
  split.
  - apply (lookup_updated c n r (fun x => mkItem (id x) (name x) nq nt now_stamp use));
      [reflexivity | exact Hl].
  - cbn [daily_usage]. unfold recompute_usage in Huse.
    split; intros Hc.
    + apply usage_changed_iff in Hc. rewrite Hc in Huse. exact Huse.
    + destruct (usage_changed _ nq (quantity r)) eqn:E.
      * apply usage_changed_iff in E. contradiction.
      * injection Huse as <-. reflexivity.
Qed.

(** One day later, 10 -> 7. *)
Lemma update_item_usage_rule_witness :
  lookup "milk" (fridge (milk 10 2 739000 PyFloat.zero))
    = Some (milk 10 2 739000 PyFloat.zero) /\
  exists (c' : conn) (out : list message) (r' : item),
    update_item 739001 739001 "milk" (Digits 7) Blank
      (fridge (milk 10 2 739000 PyFloat.zero)) = (Ok tt, c', out) /\
    lookup "milk" c' = Some r' /\
    (0 < PyDate.diff_days 739001 739000 /\ 7 <> 10 ->
       PyFloat.int_truediv (10 - 7) (PyDate.diff_days 739001 739000)
         = Ok (daily_usage r')) /\
    (~ (0 < PyDate.diff_days 739001 739000 /\ 7 <> 10) ->
       daily_usage r' = PyFloat.zero).
Proof.
  split; [reflexivity | ].
  apply (update_item_usage_rule (fridge (milk 10 2 739000 PyFloat.zero))
           739001 739001 "milk" (Digits 7) Blank (milk 10 2 739000 PyFloat.zero) 7 2);
    reflexivity.
Defined.


(** One day later, 10 -> 7: the rate becomes 3.0. *)
Example update_one_day_later_used :
  update_item 739001 739001 "milk" (Digits 7) Blank
    (fridge (milk 10 2 739000 PyFloat.zero))
  = (Ok tt, fridge (milk 7 2 739001 three),
     [MsgCurrent 10 2 739000 PyFloat.zero; MsgUpdated "milk" 7 2 three]).
Proof. vm_compute. reflexivity. Qed.

(** One day later, 10 -> 12, a restock: the rate becomes -2.0. *)
Example update_one_day_later_restocked :
  update_item 739001 739001 "milk" (Digits 12) Blank
    (fridge (milk 10 2 739000 PyFloat.zero))
  = (Ok tt, fridge (milk 12 2 739001 minus_two),
     [MsgCurrent 10 2 739000 PyFloat.zero; MsgUpdated "milk" 12 2 minus_two]).
Proof. vm_compute. reflexivity. Qed.

(** The same day, 10 -> 7: the rate is carried forward. *)
Example update_same_day :
  update_item 739000 739000 "milk" (Digits 7) Blank
    (fridge (milk 10 2 739000 three))
  = (Ok tt, fridge (milk 7 2 739000 three),
     [MsgCurrent 10 2 739000 three; MsgUpdated "milk" 7 2 three]).
Proof. vm_compute. reflexivity. Qed.

(** C1 as stated fails beyond 64 bits: with [new_quantity = 2 ^ 63] one day
    later, the quantity differs and a day has passed, yet no rate is stored:
    binding the quantity raises [OverflowError], which [update_item] does
    not handle. *)
Lemma update_item_usage_rule_counterexample :
  update_item 739001 739001 "milk" (Digits (2 ^ 63)) Blank
    (fridge (milk 10 2 739000 PyFloat.zero))
  = (Raise OverflowError, fridge (milk 10 2 739000 PyFloat.zero),
     [MsgCurrent 10 2 739000 PyFloat.zero]) /\
  (0 < PyDate.diff_days 739001 739000 /\ 2 ^ 63 <> 10) /\
  ~ (exists (c' : conn) (out : list message) (r' : item),
       update_item 739001 739001 "milk" (Digits (2 ^ 63)) Blank
         (fridge (milk 10 2 739000 PyFloat.zero)) = (Ok tt, c', out) /\
       lookup "milk" c' = Some r' /\
       PyFloat.int_truediv (10 - 2 ^ 63) (PyDate.diff_days 739001 739000)
         = Ok (daily_usage r')).
Proof.
  assert (E : update_item 739001 739001 "milk" (Digits (2 ^ 63)) Blank
                (fridge (milk 10 2 739000 PyFloat.zero))
              = (Raise OverflowError, fridge (milk 10 2 739000 PyFloat.zero),
                 [MsgCurrent 10 2 739000 PyFloat.zero]))
    by (vm_compute; reflexivity).
  split; [exact E | ]. split; [split; [reflexivity | discriminate] | ].
  intros (c' & out & r' & Hrun & _). rewrite E in Hrun. discriminate.
Qed.

(** ** C2: the forecast *)

(** C2, as amended.  For every existing item with [daily_usage > 0],
    [days_left = (quantity - threshold) / daily_usage] is computed, and when
    it is at least 0 [predict_restock] reports [floor(days_left)] days and
    the date that many days after today, provided that date is a calendar
    date the [date] type has, that is, not after 9999-12-31. *)
Theorem predict_restock_forecast (c : conn) (today : date) (n : string) (r : item) :
  healthy c ->
  lookup n c = Some r ->
  item_ok r ->
  PyFloat.gt0 (daily_usage r) = true ->
  PyDate.valid today = true ->
  exists days_left : float,
    days_left_of r = Ok days_left /\
    forall k : Z,
      PyFloat.ge0 days_left = true ->
      PyFloat.floor days_left = Some k ->
      PyDate.valid (today + k) = true ->
      predict_restock today n c
        = (Ok tt, c, [MsgEstimate k n; MsgRestockDate (today + k)]).
Proof.
  intros H Hl Hok Hpos Htoday.
  destruct (days_left_of_total r Hok Hpos) as [days_left Hdl].
  exists days_left. split; [exact Hdl | ].
  intros k Hge Hfloor Hdate.
  apply (predict_restock_healthy c today n r days_left k); auto.
  - apply gt0_not_le0. exact Hpos.
  - apply ge0_not_lt0. exact Hge.
  - apply PyFloatFacts.to_int_floor; assumption.
Qed.

(** quantity 5, threshold 2, daily_usage 1.0. *)
Lemma predict_restock_forecast_witness :
  lookup "milk" (fridge (milk 5 2 739000 one)) = Some (milk 5 2 739000 one) /\
  PyFloat.gt0 one = true /\
  exists days_left : float,
    days_left_of (milk 5 2 739000 one) = Ok days_left /\
    forall k : Z,
      PyFloat.ge0 days_left = true ->
      PyFloat.floor days_left = Some k ->
      PyDate.valid (739000 + k) = true ->
      predict_restock 739000 "milk" (fridge (milk 5 2 739000 one))
        = (Ok tt, fridge (milk 5 2 739000 one),
           [MsgEstimate k "milk"; MsgRestockDate (739000 + k)]).
Proof.
  split; [reflexivity | ]. split; [reflexivity | ].
  apply (predict_restock_forecast (fridge (milk 5 2 739000 one)) 739000 "milk"
           (milk 5 2 739000 one)); try reflexivity.
  repeat split. vm_compute. discriminate.
Defined.

(** quantity 5, threshold 2, daily_usage 1.0: 3 days, and the date 3 days
    after today. *)
Example predict_three_days :
  days_left_of (milk 5 2 739000 one) = Ok three /\
  PyFloat.floor three = Some 3 /\
  predict_restock 739000 "milk" (fridge (milk 5 2 739000 one))
  = (Ok tt, fridge (milk 5 2 739000 one),
     [MsgEstimate 3 "milk"; MsgRestockDate (739000 + 3)]).
Proof. vm_compute. repeat split. Qed.

(** C2 as stated fails when the projected date is past 9999-12-31: with
    quantity 10000000, threshold 0 and daily_usage 1.0, [days_left] is
    10000000.0, at least 0, and [date + timedelta] raises [OverflowError]
    before anything is printed. *)
Lemma predict_restock_forecast_counterexample :
  exists days_left : float,
    days_left_of (milk 10000000 0 739000 one) = Ok days_left /\
    PyFloat.gt0 one = true /\
    PyFloat.ge0 days_left = true /\
    PyFloat.floor days_left = Some 10000000 /\
    predict_restock 739000 "milk" (fridge (milk 10000000 0 739000 one))
      = (Raise OverflowError, fridge (milk 10000000 0 739000 one), []).
Proof.
  eexists. split; [vm_compute; reflexivity | ]. vm_compute. repeat split.
Qed.

(** ** C3: already below the threshold *)

(** C3, as amended.  For every existing item whose quantity is below its
    threshold and whose [daily_usage] is greater than 0, [predict_restock]
    reports that the item is already below its threshold instead of a
    forecast; and for every item and store, a day count it reports is never
    negative. *)
Theorem predict_restock_below (c : conn) (today : date) (n : string) (r : item) :
  healthy c ->
  lookup n c = Some r ->
  item_ok r ->
  quantity r < threshold r ->
  PyFloat.gt0 (daily_usage r) = true ->
  predict_restock today n c = (Ok tt, c, [MsgAlreadyBelow n]) /\
  (forall (c' : conn) (today' : date) (n1 n2 : string) (k : Z),
     In (MsgEstimate k n2) (snd (predict_restock today' n1 c')) -> 0 <= k).
Proof.
  intros H Hl Hok Hlt Hpos. split.
  - destruct (days_left_negative r Hok Hlt Hpos) as (days_left & Hdl & Hneg).
    unfold predict_restock. unfold bind at 1. rewrite (select_one_found n c r H Hl).
    rewrite (gt0_not_le0 _ Hpos). unfold bind, lift, print. rewrite Hdl, Hneg.
    reflexivity.
  - intros c' today' n1 n2 k. apply predict_restock_estimate_nonneg.
Qed.

(** quantity 1, threshold 5, daily_usage 1.0. *)
Lemma predict_restock_below_witness :
  lookup "milk" (fridge (milk 1 5 739000 one)) = Some (milk 1 5 739000 one) /\
  1 < 5 /\
  PyFloat.gt0 one = true /\
  predict_restock 739001 "milk" (fridge (milk 1 5 739000 one))
    = (Ok tt, fridge (milk 1 5 739000 one), [MsgAlreadyBelow "milk"]) /\
  (forall (c' : conn) (today' : date) (n1 n2 : string) (k : Z),
     In (MsgEstimate k n2) (snd (predict_restock today' n1 c')) -> 0 <= k).
Proof.
  split; [reflexivity | ]. split; [lia | ]. split; [reflexivity | ].
  apply (predict_restock_below (fridge (milk 1 5 739000 one)) 739001 "milk"
           (milk 1 5 739000 one)); try reflexivity.
  repeat split. vm_compute. discriminate.
Defined.

(** C3 as stated fails for an item that has no consumption on record: with
    quantity 1, threshold 5 and the initial daily_usage 0.0, the quantity is
    below the threshold, and [predict_restock] reports that there is not
    enough usage data, not that the item is below its threshold. *)
Lemma predict_restock_below_counterexample :
  quantity (milk 1 5 739000 PyFloat.zero) < threshold (milk 1 5 739000 PyFloat.zero) /\
  predict_restock 739001 "milk" (fridge (milk 1 5 739000 PyFloat.zero))
    = (Ok tt, fridge (milk 1 5 739000 PyFloat.zero), [MsgNotEnoughData]) /\
  predict_restock 739001 "milk" (fridge (milk 1 5 739000 PyFloat.zero))
    <> (Ok tt, fridge (milk 1 5 739000 PyFloat.zero), [MsgAlreadyBelow "milk"]).
Proof.
  split; [reflexivity | ]. split; [reflexivity | ]. vm_compute. discriminate.
Qed.

(** ** C4: the errors of the forecast *)




Example predict_without_usage :
  predict_restock 739001 "milk" (fridge (milk 5 2 739000 PyFloat.zero))
  = (Ok tt, fridge (milk 5 2 739000 PyFloat.zero), [MsgNotEnoughData]).
Proof. reflexivity. Qed.

Example predict_absent :
  predict_restock 739001 "eggs" (fridge (milk 5 2 739000 one))
  = (Ok tt, fridge (milk 5 2 739000 one), [MsgNotFound]).
Proof. reflexivity. Qed.

(** ** C5: adding a name twice *)

(** C5, as amended.  On a healthy store, for every name already present and
    every quantity and threshold within the signed 64-bit range of the
    INTEGER columns, [add_item] reports "Item already exists" and leaves the
    connection, rows and AUTOINCREMENT counter included, as it was. *)
Theorem add_item_duplicate (c : conn) (today : date) (n : string) (q t : Z) (r : item) :
  healthy c ->
  lookup n c = Some r ->
  Sql.in_int64 q = true ->
  Sql.in_int64 t = true ->
  add_item today n (Digits q) (Digits t) c = (Ok tt, c, [MsgAlreadyExists]).
Proof.
  intros H Hl Hq Ht.
  unfold add_item, bind at 1. cbn [try_except bind lift py_int ret].
  unfold try_except, bind at 1.
  rewrite insert_healthy by (assumption || exact (lookup_text_ok n c r Hl)).
  rewrite (lookup_existsb n c r Hl). reflexivity.
Qed.

Lemma add_item_duplicate_witness :
  lookup "milk" (fridge (milk 10 2 739000 PyFloat.zero))
    = Some (milk 10 2 739000 PyFloat.zero) /\
  add_item 739001 "milk" (Digits 4) (Digits 1) (fridge (milk 10 2 739000 PyFloat.zero))
    = (Ok tt, fridge (milk 10 2 739000 PyFloat.zero), [MsgAlreadyExists]).
Proof.
  split; [reflexivity | ].
  apply (add_item_duplicate (fridge (milk 10 2 739000 PyFloat.zero)) 739001 "milk" 4 1
           (milk 10 2 739000 PyFloat.zero)); reflexivity.
Defined.

(** Adding twice from a new database: the second call reports the duplicate
    and the store is the one the first call left. *)
Example add_twice :
  menu_loop [CmdAdd 739000 "milk" (Digits 10) (Digits 2);
             CmdAdd 739000 "milk" (Digits 4) (Digits 1); CmdExit] new_database
  = (Exited, fridge (milk 10 2 739000 PyFloat.zero),
     [MsgAdded "milk" 10 2; MsgAlreadyExists]).
Proof. reflexivity. Qed.

(** C5 as stated fails beyond 64 bits: for a name that is present and the
    quantity [2 ^ 63], binding the quantity raises [OverflowError] before
    SQLite can check the name, and [add_item] handles [sqlite3.Error] only. *)
Lemma add_item_duplicate_counterexample :
  lookup "milk" (fridge (milk 10 2 739000 PyFloat.zero))
    = Some (milk 10 2 739000 PyFloat.zero) /\
  add_item 739001 "milk" (Digits (2 ^ 63)) (Digits 1)
    (fridge (milk 10 2 739000 PyFloat.zero))
    = (Raise OverflowError, fridge (milk 10 2 739000 PyFloat.zero), []) /\
  add_item 739001 "milk" (Digits (2 ^ 63)) (Digits 1)
    (fridge (milk 10 2 739000 PyFloat.zero))
    <> (Ok tt, fridge (milk 10 2 739000 PyFloat.zero), [MsgAlreadyExists]).
Proof.
  split; [reflexivity | ]. split; [vm_compute; reflexivity | ].
  vm_compute. discriminate.
Qed.

(** ** C6: a new item is listed once *)

(** C6.  For every store, every name that is not in it and every quantity
    [q] and threshold [t] supplied, after an [add_item] that succeeded
    ("Item added"), [view_items] on a healthy store lists the item exactly
    once, with the quantity [q] and threshold [t], [daily_usage] 0.0 and
    [last_updated] today. *)
Theorem add_then_view (c c1 : conn) (today : date) (n : string) (q t : Z) :
  lookup n c = None ->
  add_item today n (Digits q) (Digits t) c = (Ok tt, c1, [MsgAdded n q t]) ->
  healthy c1 ->
  exists lines : list message,
    view_items c1 = (Ok tt, c1, MsgHeader :: lines) /\
    filter (row_named n) lines = [MsgRow n q t today PyFloat.zero (q <? t)].
Proof.
  intros Hl Hadd H1.
  destruct (add_item_success c c1 today n (Digits q) (Digits t) _ q t Hadd
              (or_introl eq_refl))
    as (_ & _ & _ & Hrows & _ & Hn & _).
  rewrite (lookup_find n c Hn) in Hl.
  exists (map view_line (rows c1)). split.
  - apply view_items_healthy; [exact H1 | ].
    rewrite Hrows. intros E. apply app_eq_nil in E. destruct E as [_ E]. discriminate.
  - rewrite filter_row_named, Hrows.
    rewrite (filter_app_new n (rows c) (mkItem (seq c + 1) n q t today PyFloat.zero)
               Hl eq_refl).
    reflexivity.
Qed.

Lemma add_then_view_witness :
  lookup "eggs" (fridge (milk 10 2 739000 one)) = None /\
  add_item 739001 "eggs" (Digits 12) (Digits 6) (fridge (milk 10 2 739000 one))
    = (Ok tt,
       mkConn [milk 10 2 739000 one; mkItem 2 "eggs" 12 6 739001 PyFloat.zero] 2 [],
       [MsgAdded "eggs" 12 6]) /\
  healthy (mkConn [milk 10 2 739000 one; mkItem 2 "eggs" 12 6 739001 PyFloat.zero] 2 []) /\
  exists lines : list message,
    view_items (mkConn [milk 10 2 739000 one; mkItem 2 "eggs" 12 6 739001 PyFloat.zero] 2 [])
      = (Ok tt,
         mkConn [milk 10 2 739000 one; mkItem 2 "eggs" 12 6 739001 PyFloat.zero] 2 [],
         MsgHeader :: lines) /\
    filter (row_named "eggs") lines = [MsgRow "eggs" 12 6 739001 PyFloat.zero (12 <? 6)].
Proof.
  split; [reflexivity | ]. split; [reflexivity | ]. split; [reflexivity | ].
  apply (add_then_view (fridge (milk 10 2 739000 one))
           (mkConn [milk 10 2 739000 one; mkItem 2 "eggs" 12 6 739001 PyFloat.zero] 2 [])
           739001 "eggs" 12 6); reflexivity.
Defined.

Example add_then_view_lines :
  menu_loop [CmdAdd 739001 "eggs" (Digits 12) (Digits 6); CmdView; CmdExit]
    (fridge (milk 10 2 739000 one))
  = (Exited,
     mkConn [milk 10 2 739000 one; mkItem 2 "eggs" 12 6 739001 PyFloat.zero] 2 [],
     [MsgAdded "eggs" 12 6; MsgHeader;
      MsgRow "milk" 10 2 739000 one false;
      MsgRow "eggs" 12 6 739001 PyFloat.zero false]).
Proof. reflexivity. Qed.

(** ** C7: the date of an update *)

(** C7, as amended.  For every existing item, an [update_item] that
    succeeded ("Item updated") has set [last_updated] to today, the date read
    at line 86, whether or not the quantity changed; the new date is not
    earlier than the previous one whenever today is not earlier than the
    date stored. *)
Theorem update_item_stamps_today (c c' : conn) (now_days now_stamp : date) (n : string)
    (qi ti : int_input) (out : list message) (r : item) (nq nt : Z) (use : float) :
  lookup n c = Some r ->
  update_item now_days now_stamp n qi ti c = (Ok tt, c', out) ->
  In (MsgUpdated n nq nt use) out ->
  exists r' : item,
    lookup n c' = Some r' /\
    last_updated r' = now_stamp /\
    (last_updated r <= now_stamp -> last_updated r <= last_updated r').
Proof.
  intros Hl Hrun Hout.
  assert (Hrows := update_item_success c c' now_days now_stamp n n qi ti out nq nt use
                     Hrun Hout).
  exists (mkItem (id r) (name r) nq nt now_stamp use). split; [ | split].
  - rewrite (lookup_find n c' (lookup_text_ok n c r Hl)), Hrows.
    apply (find_map_update n (fun x => mkItem (id x) (name x) nq nt now_stamp use));
      [reflexivity | exact (lookup_some_find n c r Hl)].
  - reflexivity.
  - cbn [last_updated]. auto.
Qed.

(** The next day, nothing typed at either prompt: the quantity is kept and
    the date is the new one. *)
Lemma update_item_stamps_today_witness :
  lookup "milk" (fridge (milk 10 2 739000 one)) = Some (milk 10 2 739000 one) /\
  exists r' : item,
    lookup "milk" (fridge (milk 10 2 739001 one)) = Some r' /\
    last_updated r' = 739001 /\
    (last_updated (milk 10 2 739000 one) <= 739001 ->
     last_updated (milk 10 2 739000 one) <= last_updated r').
Proof.
  split; [reflexivity | ].
  apply (update_item_stamps_today (fridge (milk 10 2 739000 one)) _ 739001 739001 "milk"
           Blank Blank [MsgCurrent 10 2 739000 one; MsgUpdated "milk" 10 2 one]
           (milk 10 2 739000 one) 10 2 one).
  - reflexivity.
  - reflexivity.
  - right. left. reflexivity.
Defined.

(** C7 as stated fails when the clock reads an earlier date than the one
    stored (a clock set back, a database file written under a later date):
    the update stores today's date, which is then earlier than the previous
    [last_updated]. *)
Lemma update_item_stamps_today_counterexample :
  update_item 739000 739000 "milk" Blank Blank (fridge (milk 10 2 739001 one))
    = (Ok tt, fridge (milk 10 2 739000 one),
       [MsgCurrent 10 2 739001 one; MsgUpdated "milk" 10 2 one]) /\
  lookup "milk" (fridge (milk 10 2 739000 one)) = Some (milk 10 2 739000 one) /\
  last_updated (milk 10 2 739000 one) < last_updated (milk 10 2 739001 one).
Proof. repeat split. Qed.

(** ** C8: deleting *)




Example delete_absent_then_present :
  menu_loop [CmdDelete "eggs"; CmdDelete "milk"; CmdView; CmdExit]
    (mkConn [milk 10 2 739000 one; mkItem 2 "eggs" 12 6 739001 PyFloat.zero] 2 [])
  = (Exited, mkConn [] 2 [],
     [MsgDeleted "eggs"; MsgDeleted "milk"; MsgNoItems]).
Proof. reflexivity. Qed.

Example delete_nonexistent :
  delete_item "eggs" (fridge (milk 10 2 739000 one))
  = (Ok tt, fridge (milk 10 2 739000 one), [MsgNotFound]).
Proof. reflexivity. Qed.

(** ** C9: errors of the storage *)

(** C9 does not hold of the code.  On a connection whose next call into
    SQLite fails, [add_item] reports the error as a message, as C9 says, but
    [delete_item], [view_items], [predict_restock] and the [SELECT] of
    [update_item] run outside any [try]: the exception leaves the operation
    and, [main] having no handler, ends the process. *)
Theorem storage_error_escapes :
  add_item 739001 "eggs" (Digits 12) (Digits 6) (mkConn [milk 10 2 739000 one] 1 [true])
    = (Ok tt, fridge (milk 10 2 739000 one), [MsgDatabaseError]) /\
  delete_item "milk" (mkConn [milk 10 2 739000 one] 1 [true])
    = (Raise SqlOperationalError, fridge (milk 10 2 739000 one), []) /\
  view_items (mkConn [milk 10 2 739000 one] 1 [true])
    = (Raise SqlOperationalError, fridge (milk 10 2 739000 one), []) /\
  predict_restock 739001 "milk" (mkConn [milk 10 2 739000 one] 1 [true])
    = (Raise SqlOperationalError, fridge (milk 10 2 739000 one), []) /\
  update_item 739001 739001 "milk" (Digits 7) Blank (mkConn [milk 10 2 739000 one] 1 [true])
    = (Raise SqlOperationalError, fridge (milk 10 2 739000 one), []) /\
  menu_loop [CmdDelete "milk"; CmdView; CmdExit] (mkConn [milk 10 2 739000 one] 1 [true])
    = (Crashed SqlOperationalError, fridge (milk 10 2 739000 one), []).
Proof. repeat split. Qed.

(** ** C10: no division by zero *)

(** C10.  Neither division can divide by zero.  For every store that
    satisfies the invariant of the table and every input, no
    [ZeroDivisionError] leaves [update_item] or [predict_restock]; in
    [update_item] the division is evaluated only when [days_passed > 0], and
    with [days_passed <= 0] the old rate is returned without dividing; in
    [predict_restock] a stored [daily_usage] that passes the test
    [daily_usage <= 0] is strictly positive. *)
Theorem no_division_by_zero (c : conn) (now_days now_stamp today : date) (n : string)
    (qi ti : int_input) :
  store_ok c ->
  fst (fst (update_item now_days now_stamp n qi ti c)) <> Raise ZeroDivisionError /\
  fst (fst (predict_restock today n c)) <> Raise ZeroDivisionError /\
  (forall days_passed nq oq : Z,
     usage_changed days_passed nq oq = true -> 0 < days_passed) /\
  (forall (days_passed nq oq : Z) (old : float),
     days_passed <= 0 -> recompute_usage days_passed nq oq old = Ok old) /\
  (forall r : item,
     lookup n c = Some r ->
     PyFloat.le0 (daily_usage r) = false ->
     PyFloat.gt0 (daily_usage r) = true).
Proof.
  intros [Hall _]. split; [ | split; [ | split; [ | split]]].
  - intros H. destruct (update_item_raises _ _ _ _ _ _ _ H) as [E | [E | [E _]]];
      discriminate.
  - intros H. destruct (predict_restock_raises _ _ _ _ H) as [E | [E | [E | [E _]]]];
      discriminate.
  - intros days_passed nq oq H. apply usage_changed_iff in H. tauto.
  - intros days_passed nq oq old Hle. unfold recompute_usage.
    destruct (usage_changed days_passed nq oq) eqn:E; [ | reflexivity].
    apply usage_changed_iff in E. lia.
  - intros r Hl Hle. apply lookup_some_find, find_some in Hl. destruct Hl as [Hin _].
    rewrite Forall_forall in Hall. destruct (Hall r Hin) as (_ & _ & Hok).
    apply PyFloatFacts.gt0_of_not_le0; assumption.
Qed.

Lemma no_division_by_zero_witness :
  store_ok (fridge (milk 10 2 739000 three)) /\
  fst (fst (update_item 739001 739001 "milk" (Digits 7) Blank
              (fridge (milk 10 2 739000 three)))) <> Raise ZeroDivisionError /\
  fst (fst (predict_restock 739001 "milk" (fridge (milk 10 2 739000 three))))
    <> Raise ZeroDivisionError /\
  (forall days_passed nq oq : Z,
     usage_changed days_passed nq oq = true -> 0 < days_passed) /\
  (forall (days_passed nq oq : Z) (old : float),
     days_passed <= 0 -> recompute_usage days_passed nq oq old = Ok old) /\
  (forall r : item,
     lookup "milk" (fridge (milk 10 2 739000 three)) = Some r ->
     PyFloat.le0 (daily_usage r) = false ->
     PyFloat.gt0 (daily_usage r) = true).
Proof.
  assert (Hok : store_ok (fridge (milk 10 2 739000 three))).
  { split.
    - constructor; [ | constructor]. repeat split. vm_compute. discriminate.
    - constructor; [intros [] | constructor]. }
  split; [exact Hok | ].
  apply (no_division_by_zero (fridge (milk 10 2 739000 three)) 739001 739001 739001
           "milk" (Digits 7) Blank Hok).
Defined.

(** * Further properties of the operations *)

(** ** What an operation leaves of the connection *)

Section Relates.

Variable R : conn -> conn -> Prop.
Hypothesis R_refl : forall c : conn, R c c.
Hypothesis R_trans : forall c1 c2 c3 : conn, R c1 c2 -> R c2 c3 -> R c1 c3.
Hypothesis R_engine : relates Sql.engine R.

Lemma relates_ret {A} (a : A) : relates (ret a) R.
Proof. intros c. apply R_refl. Qed.

Lemma relates_raise {A} (e : exn) : relates (@raise A e) R.
Proof. intros c. apply R_refl. Qed.

Lemma relates_lift {A} (r : res A) : relates (lift r) R.
Proof. intros c. apply R_refl. Qed.

Lemma relates_print (m : message) : relates (print m) R.
Proof. intros c. apply R_refl. Qed.

Lemma relates_bind {A B} (m : M A) (k : A -> M B) :
  relates m R -> (forall a, relates (k a) R) -> relates (bind m k) R.
Proof.
  intros Hm Hk c. unfold bind. specialize (Hm c).
  destruct (m c) as [[[a | e] c1] out1]; cbn [fst snd] in *; [ | exact Hm].
  specialize (Hk a c1). destruct (k a c1) as [[r c2] out2]; cbn [fst snd] in *.
  exact (R_trans _ _ _ Hm Hk).
Qed.

Lemma relates_try {A} (body : M A) (handler : exn -> option (M A)) :
  relates body R ->
  (forall e h, handler e = Some h -> relates h R) ->
  relates (try_except body handler) R.
Proof.
  intros Hb Hh c. unfold try_except. specialize (Hb c).
  destruct (body c) as [[[a | e] c1] out1]; cbn [fst snd] in *; [exact Hb | ].
  destruct (handler e) as [h | ] eqn:Eh; [ | exact Hb].
  specialize (Hh e h Eh c1). destruct (h c1) as [[r c2] out2]; cbn [fst snd] in *.
  exact (R_trans _ _ _ Hb Hh).
Qed.

Lemma relates_bind_int (z : Z) : relates (Sql.bind_int z) R.
Proof.
  unfold Sql.bind_int. destruct (Sql.in_int64 z); [apply relates_ret | apply relates_raise].
Qed.

Lemma relates_bind_text (n : string) : relates (Sql.bind_text n) R.
Proof.
  unfold Sql.bind_text. destruct (Sql.text_ok n); [apply relates_ret | apply relates_raise].
Qed.

Lemma relates_select_one (n : string) : relates (Sql.select_one n) R.
Proof.
  unfold Sql.select_one. apply relates_bind; [apply relates_bind_text | intros _].
  apply relates_bind; [exact R_engine | ].
  intros _ c. apply R_refl.
Qed.

Lemma relates_select_all : relates Sql.select_all R.
Proof.
  unfold Sql.select_all. apply relates_bind; [exact R_engine | ].
  intros _ c. apply R_refl.
Qed.

End Relates.

Lemma only_read_refl (c : conn) : only_read c c.
Proof. split; [reflexivity | left; reflexivity]. Qed.

Lemma only_read_trans (c1 c2 c3 : conn) :
  only_read c1 c2 -> only_read c2 c3 -> only_read c1 c3.
Proof.
  unfold only_read. intros [H1 S1] [H2 S2]. split; [congruence | ].
  destruct S2 as [S2 | S2]; [destruct S1; [left | right]; congruence | right; congruence].
Qed.

Lemma only_read_engine : relates Sql.engine only_read.
Proof.
  intros c. unfold Sql.engine, only_read, seen, held.
  destruct (faults c) as [ | [ | ] fs]; [ | destruct (io_errors c) as [ | [ | ] ks] | ];
    cbn [fst snd rows seq saved_rows saved_seq]; auto.
Qed.

Lemma row_changed_refl (n : string) (t : table) : row_changed n t t.
Proof.
  split; [ | reflexivity].
  induction (fst t) as [ | x l IH]; constructor; [repeat split | exact IH].
Qed.

Lemma row_changed_trans (n : string) (t1 t2 t3 : table) :
  row_changed n t1 t2 -> row_changed n t2 t3 -> row_changed n t1 t3.
Proof.
  intros [H12 S12] [H23 S23]. split; [ | congruence].
  revert H23. generalize (fst t3). induction H12 as [ | x y l1 l2 Hxy _ IH];
    intros l3 H23; inversion H23 as [ | y' z l2' l3' Hyz Hrest]; subst; constructor.
  - destruct Hxy as (Hi & Hn & Hk), Hyz as (Hi' & Hn' & Hk').
    split; [congruence | ]. split; [congruence | ].
    intros Hne. rewrite Hk' by congruence. auto.
  - apply IH. exact Hrest.
Qed.

Lemma only_row_changed_refl (n : string) (c : conn) : only_row_changed n c c.
Proof. split; left; apply row_changed_refl. Qed.

Lemma only_row_changed_trans (n : string) (c1 c2 c3 : conn) :
  only_row_changed n c1 c2 -> only_row_changed n c2 c3 -> only_row_changed n c1 c3.
Proof.
  intros [S12 H12] [S23 H23].
  split.
  - destruct S23 as [T | T];
      [destruct S12 as [U | U] | destruct H12 as [U | U]];
      first [left; exact (row_changed_trans n _ _ _ U T)
            | right; exact (row_changed_trans n _ _ _ U T)].
  - destruct H23 as [T | T];
      [destruct H12 as [U | U] | destruct S12 as [U | U]];
      first [left; exact (row_changed_trans n _ _ _ U T)
            | right; exact (row_changed_trans n _ _ _ U T)].
Qed.

Lemma only_read_only_row_changed (n : string) (c c' : conn) :
  only_read c c' -> only_row_changed n c c'.
Proof.
  intros [Hh Hs]. split.
  - destruct Hs as [-> | ->]; [left | right]; apply row_changed_refl.
  - left. rewrite Hh. apply row_changed_refl.
Qed.

Lemma only_row_changed_engine (n : string) : relates Sql.engine (only_row_changed n).
Proof. intros c. apply only_read_only_row_changed, only_read_engine. Qed.

(** The side conditions of the lemmas of [Relates], for the two relations. *)
Ltac frame_side :=
  first
    [ exact only_read_refl
    | exact only_read_trans
    | exact only_read_engine
    | match goal with
      | |- forall c : conn, only_row_changed ?n c c =>
          exact (only_row_changed_refl n)
      | |- forall c1 c2 c3 : conn, only_row_changed ?n c1 c2 -> _ =>
          exact (only_row_changed_trans n)
      | |- relates Sql.engine (only_row_changed ?n) =>
          exact (only_row_changed_engine n)
      end ].

Ltac frame :=
  repeat first
    [ frame_side
    | apply relates_print
    | apply relates_ret
    | apply relates_raise
    | apply relates_lift
    | apply relates_bind_int
    | apply relates_bind_text
    | apply relates_select_one
    | apply relates_select_all
    | apply relates_bind; [.. | intros ?] ].

Lemma update_only_row_changed (q t : Z) (d : date) (u : float) (n : string) :
  relates (Sql.update q t d u n) (only_row_changed n).
Proof.
  unfold Sql.update. frame.
  intros c. cbn [fst snd]. split; [left | left; apply row_changed_refl].
  split; [ | reflexivity]. unfold seen, with_rows. cbn [fst rows].
  induction (rows c) as [ | x l IH]; cbn [map]; constructor; [ | exact IH].
  destruct (Sql.has_name n x) eqn:Ex; cbn [id name].
  - repeat split. intros Hne. apply has_name_iff in Ex. contradiction.
  - auto.
Qed.

Lemma commit_only_row_changed (n : string) : relates Sql.commit (only_row_changed n).
Proof.
  unfold Sql.commit. frame.
  intros c. cbn [fst snd]. split; [left | right]; apply row_changed_refl.
Qed.



(** X3.  The invariant of the table holds in every state the menu loop
    reaches from a new database, whatever is typed, whatever calls into the
    storage fail and whichever of the failures roll the open transaction
    back: names are unique, quantities and thresholds are within 64 bits,
    and no [daily_usage] is a NaN or an infinity. *)
Theorem reachable_tables_are_ok (cmds : list command) (fs ks : list bool) :
  store_ok (snd (fst (menu_loop cmds (Conn [] 0 fs ks [] 0)))).
Proof.
  apply stores_ok_view, menu_loop_keeps, stores_ok_intro; constructor.
Qed.

(** ** [add_item] *)

(** X4.  Text that [int] rejects, at either prompt, stops [add_item] before
    it calls the storage: it prints the error, and the connection, the
    pending storage failures included, is untouched. *)
Theorem add_item_rejects_text (c : conn) (today : date) (n : string)
    (qi ti : int_input) :
  py_int qi = Raise ValueError \/ py_int ti = Raise ValueError ->
  add_item today n qi ti c = (Ok tt, c, [MsgNotIntegers]).
Proof.
  intros H. unfold add_item.
  destruct qi as [ | q | ]; destruct ti as [ | t | ]; try reflexivity.
  destruct H as [H | H]; discriminate.
Qed.

Lemma add_item_rejects_text_witness :
  (py_int Garbage = Raise ValueError \/ py_int (Digits 3) = Raise ValueError) /\
  add_item 739000 "milk" Garbage (Digits 3) (mkConn [] 0 [true])
    = (Ok tt, mkConn [] 0 [true], [MsgNotIntegers]).
Proof.
  split; [left; reflexivity | ].
  apply (add_item_rejects_text (mkConn [] 0 [true]) 739000 "milk" Garbage (Digits 3)).
  left. reflexivity.
Defined.

(** X5.  A failure of the storage never leaves [add_item]: whatever the
    store and its health, the only exceptions that can leave it are raised
    when the parameters of the [INSERT] are bound, before the storage is
    called: [UnicodeEncodeError] for a name that is not UTF-8 text, and
    otherwise [OverflowError] for a quantity or threshold outside 64 bits. *)
Theorem add_item_exceptions (c : conn) (today : date) (n : string)
    (qi ti : int_input) (e : exn) :
  fst (fst (add_item today n qi ti c)) = Raise e ->
  exists q t : Z,
    qi = Digits q /\ ti = Digits t /\
    ((e = UnicodeEncodeError /\ Sql.text_ok n = false) \/
     (e = OverflowError /\ Sql.text_ok n = true /\
      (Sql.in_int64 q = false \/ Sql.in_int64 t = false))).
Proof.
  unfold add_item.
  destruct qi as [ | q | ]; destruct ti as [ | t | ];
    cbn [try_except bind lift py_int ret print fst snd app is_value_error];
    try discriminate.
  unfold try_except, bind, Sql.insert, Sql.bind_text, Sql.bind_int, Sql.commit, Sql.engine,
    bind, ret, raise, print.
  destruct (Sql.text_ok n) eqn:En;
    [ | cbn [fst]; intros [= <-]; exists q, t; repeat split; left; split; reflexivity].
  destruct (Sql.in_int64 q) eqn:Eq;
    [ | cbn [fst]; intros [= <-]; exists q, t; repeat split; right; repeat split; auto].
  destruct (Sql.in_int64 t) eqn:Et;
    [ | cbn [fst]; intros [= <-]; exists q, t; repeat split; right; repeat split; auto].
  destruct c as [rs sq fs ks srs ssq].
  repeat first
    [ split_faults
    | discriminate
    | match goal with
      | |- context [existsb ?f ?l] => destruct (existsb f l)
      end ].
Qed.

Lemma add_item_exceptions_witness :
  fst (fst (add_item 739000 "milk" (Digits (2 ^ 63)) (Digits 1) (mkConn [] 0 [true])))
    = Raise OverflowError /\
  fst (fst (add_item 739000 not_utf8 (Digits (2 ^ 63)) (Digits 1) (mkConn [] 0 [true])))
    = Raise UnicodeEncodeError /\
  (exists q t : Z,
     Digits (2 ^ 63) = Digits q /\ Digits 1 = Digits t /\
     ((OverflowError = UnicodeEncodeError /\ Sql.text_ok "milk" = false) \/
      (OverflowError = OverflowError /\ Sql.text_ok "milk" = true /\
       (Sql.in_int64 q = false \/ Sql.in_int64 t = false)))) /\
  (exists q t : Z,
     Digits (2 ^ 63) = Digits q /\ Digits 1 = Digits t /\
     ((UnicodeEncodeError = UnicodeEncodeError /\ Sql.text_ok not_utf8 = false) \/
      (UnicodeEncodeError = OverflowError /\ Sql.text_ok not_utf8 = true /\
       (Sql.in_int64 q = false \/ Sql.in_int64 t = false)))).
Proof.
  split; [reflexivity | ]. split; [reflexivity | ]. split.
  - apply (add_item_exceptions (mkConn [] 0 [true]) 739000 "milk"
             (Digits (2 ^ 63)) (Digits 1) OverflowError).
    reflexivity.
  - apply (add_item_exceptions (mkConn [] 0 [true]) 739000 not_utf8
             (Digits (2 ^ 63)) (Digits 1) UnicodeEncodeError).
    reflexivity.
Defined.

(** X6.  An [add_item] that succeeded ("Item added") appended one row to the
    table and left every existing row as it was, whatever the health of the
    storage; the name was not in the table before. *)
Theorem add_item_appends_one_row (c c1 : conn) (today : date) (n : string)
    (qi ti : int_input) (out : list message) (q t : Z) :
  add_item today n qi ti c = (Ok tt, c1, out) ->
  In (MsgAdded n q t) out ->
  lookup n c = None /\
  rows c1 = rows c ++ [mkItem (seq c + 1) n q t today PyFloat.zero] /\
  seq c1 = seq c + 1.
Proof.
  intros Hrun Hout.
  destruct (add_item_success c c1 today n qi ti out q t Hrun Hout)
    as (_ & _ & Hex & Hrows & Hseq & _).
  split; [ | split; assumption].
  destruct (lookup n c) as [r | ] eqn:E; [ | reflexivity].
  rewrite (lookup_existsb n c r E) in Hex. discriminate.
Qed.

Lemma add_item_appends_one_row_witness :
  add_item 739001 "eggs" (Digits 12) (Digits 6) (mkConn [milk 10 2 739000 one] 1 [false])
    = (Ok tt, mkConn [milk 10 2 739000 one; mkItem 2 "eggs" 12 6 739001 PyFloat.zero] 2 [],
       [MsgAdded "eggs" 12 6]) /\
  lookup "eggs" (mkConn [milk 10 2 739000 one] 1 [false]) = None /\
  rows (mkConn [milk 10 2 739000 one; mkItem 2 "eggs" 12 6 739001 PyFloat.zero] 2 [])
    = rows (mkConn [milk 10 2 739000 one] 1 [false])
      ++ [mkItem (seq (mkConn [milk 10 2 739000 one] 1 [false]) + 1) "eggs" 12 6 739001
            PyFloat.zero] /\
  seq (mkConn [milk 10 2 739000 one; mkItem 2 "eggs" 12 6 739001 PyFloat.zero] 2 [])
    = seq (mkConn [milk 10 2 739000 one] 1 [false]) + 1.
Proof.
  split; [reflexivity | ].
  apply (add_item_appends_one_row (mkConn [milk 10 2 739000 one] 1 [false]) _ 739001
           "eggs" (Digits 12) (Digits 6) [MsgAdded "eggs" 12 6] 12 6).
  - reflexivity.
  - left. reflexivity.
Defined.

(** ** [update_item] *)

(** X7.  On a healthy store, [update_item] on a name that is UTF-8 text
    and is not in the table reports "Item not found" and leaves the
    connection as it was, whatever is typed for the quantity and the
    threshold; on a name that is not UTF-8 text it ends with
    [UnicodeEncodeError] at the [SELECT], whatever the store. *)
Theorem update_item_absent (c : conn) (now_days now_stamp : date) (n : string)
    (qi ti : int_input) :
  (healthy c -> Sql.text_ok n = true -> lookup n c = None ->
   update_item now_days now_stamp n qi ti c = (Ok tt, c, [MsgNotFound])) /\
  (Sql.text_ok n = false ->
   update_item now_days now_stamp n qi ti c = (Raise UnicodeEncodeError, c, [])).
Proof.
  split.
  - intros H Hn Hl. unfold update_item. unfold bind at 1.
    rewrite select_one_healthy, Hl by assumption. reflexivity.
  - intros Hn. unfold update_item. unfold bind at 1.
    rewrite select_one_unbound by exact Hn. reflexivity.
Qed.

Lemma update_item_absent_witness :
  healthy (fridge (milk 10 2 739000 one)) /\
  Sql.text_ok "eggs" = true /\
  lookup "eggs" (fridge (milk 10 2 739000 one)) = None /\
  Sql.text_ok not_utf8 = false /\
  update_item 739001 739001 "eggs" (Digits 7) Garbage (fridge (milk 10 2 739000 one))
    = (Ok tt, fridge (milk 10 2 739000 one), [MsgNotFound]) /\
  update_item 739001 739001 not_utf8 (Digits 7) Garbage (fridge (milk 10 2 739000 one))
    = (Raise UnicodeEncodeError, fridge (milk 10 2 739000 one), []).
Proof.
  do 4 (split; [reflexivity | ]). split.
  - apply (proj1 (update_item_absent (fridge (milk 10 2 739000 one)) 739001 739001 "eggs"
                    (Digits 7) Garbage)); reflexivity.
  - apply (proj2 (update_item_absent (fridge (milk 10 2 739000 one)) 739001 739001 not_utf8
                    (Digits 7) Garbage)); reflexivity.
Defined.

(** X8.  On a healthy store, text that [int] rejects at either prompt of
    [update_item] (blank is not rejected: it keeps the stored value) makes it
    print the current values and the error, and leaves the connection as it
    was: neither the other field nor the date is written. *)
Theorem update_item_rejects_text (c : conn) (now_days now_stamp : date) (n : string)
    (qi ti : int_input) (r : item) :
  healthy c ->
  lookup n c = Some r ->
  int_or_keep qi (quantity r) = Raise ValueError \/
  int_or_keep ti (threshold r) = Raise ValueError ->
  update_item now_days now_stamp n qi ti c =
    (Ok tt, c,
     [MsgCurrent (quantity r) (threshold r) (last_updated r) (daily_usage r);
      MsgInvalidInput]).
Proof.
  intros H Hl Hbad. unfold update_item. unfold bind at 1.
  rewrite (select_one_found n c r H Hl).
  unfold bind, try_except, lift, print, ret.
  destruct (int_or_keep qi (quantity r)) as [q | e] eqn:Eq.
  - destruct Hbad as [Hbad | Hbad]; [discriminate | ]. rewrite Hbad. reflexivity.
  - rewrite (int_or_keep_raises _ _ _ Eq). reflexivity.
Qed.

Lemma update_item_rejects_text_witness :
  lookup "milk" (fridge (milk 10 2 739000 one)) = Some (milk 10 2 739000 one) /\
  (int_or_keep (Digits 7) 10 = Raise ValueError \/
   int_or_keep Garbage 2 = Raise ValueError) /\
  update_item 739001 739001 "milk" (Digits 7) Garbage (fridge (milk 10 2 739000 one))
    = (Ok tt, fridge (milk 10 2 739000 one),
       [MsgCurrent 10 2 739000 one; MsgInvalidInput]).
Proof.
  split; [reflexivity | ]. split; [right; reflexivity | ].
  apply (update_item_rejects_text (fridge (milk 10 2 739000 one)) 739001 739001 "milk"
           (Digits 7) Garbage (milk 10 2 739000 one)); try reflexivity.
  right. reflexivity.
Defined.

(** X9.  On a healthy store and for values within 64 bits, a successful
    [update_item] raises the below-threshold alert exactly when the new
    quantity is below the new threshold, and the alert names the item and
    the new threshold. *)
Theorem update_item_alert (c : conn) (now_days now_stamp : date) (n : string)
    (qi ti : int_input) (r : item) (nq nt : Z) :
  healthy c ->
  lookup n c = Some r ->
  Sql.in_int64 (quantity r) = true ->
  int_or_keep qi (quantity r) = Ok nq ->
  int_or_keep ti (threshold r) = Ok nt ->
  Sql.in_int64 nq = true ->
  Sql.in_int64 nt = true ->
  exists (c' : conn) (out : list message),
    update_item now_days now_stamp n qi ti c = (Ok tt, c', out) /\
    (In (MsgAlert n nt) out <-> nq < nt) /\
    (forall (n' : string) (t' : Z), In (MsgAlert n' t') out -> n' = n /\ t' = nt).
Proof.
  intros H Hl Hoq Hq Ht Hnq Hnt.
  destruct (recompute_usage_total (PyDate.diff_days now_days (last_updated r))
              nq (quantity r) (daily_usage r) Hnq Hoq) as [use Huse].
  eexists _, _.
  split; [apply (update_item_healthy c now_days now_stamp n qi ti r nq nt use); assumption | ].
  destruct (nq <? nt) eqn:E; cbn [In].
  - apply Z.ltb_lt in E. split.
    + split; [intros _; exact E | intros _; right; right; left; reflexivity].
    + intros n' t' [Hin | [Hin | [Hin | []]]]; try discriminate.
      injection Hin as <- <-. auto.
  - apply Z.ltb_ge in E. split.
    + split; [intros [Hin | [Hin | []]]; discriminate | lia].
    + intros n' t' [Hin | [Hin | []]]; discriminate.
Qed.

Lemma update_item_alert_witness :
  lookup "milk" (fridge (milk 10 2 739000 one)) = Some (milk 10 2 739000 one) /\
  exists (c' : conn) (out : list message),
    update_item 739001 739001 "milk" (Digits 1) Blank (fridge (milk 10 2 739000 one))
      = (Ok tt, c', out) /\
    (In (MsgAlert "milk" 2) out <-> 1 < 2) /\
    (forall (n' : string) (t' : Z), In (MsgAlert n' t') out -> n' = "milk"%string /\ t' = 2).
Proof.
  split; [reflexivity | ].
  apply (update_item_alert (fridge (milk 10 2 739000 one)) 739001 739001 "milk"
           (Digits 1) Blank (milk 10 2 739000 one) 1 2); reflexivity.
Defined.

(** X10.  On a healthy store, [update_item] with both prompts left blank
    keeps the quantity, the threshold and the [daily_usage] of the item and
    only writes the date: the row found afterwards is the old row with
    [last_updated] set to today. *)
Theorem update_item_blank (c : conn) (now_days now_stamp : date) (n : string) (r : item) :
  healthy c ->
  lookup n c = Some r ->
  Sql.in_int64 (quantity r) = true ->
  Sql.in_int64 (threshold r) = true ->
  exists (c' : conn) (out : list message),
    update_item now_days now_stamp n Blank Blank c = (Ok tt, c', out) /\
    lookup n c' = Some (mkItem (id r) (name r) (quantity r) (threshold r) now_stamp
                               (daily_usage r)).
Proof.
  intros H Hl Hq Ht.
  assert (Huse : recompute_usage (PyDate.diff_days now_days (last_updated r))
                   (quantity r) (quantity r) (daily_usage r) = Ok (daily_usage r)).
  { unfold recompute_usage, usage_changed. rewrite Z.eqb_refl, andb_false_r. reflexivity. }
  eexists _, _. split.
  - apply (update_item_healthy c now_days now_stamp n Blank Blank r (quantity r)
             (threshold r) (daily_usage r)); auto.
  - apply (lookup_updated c n r
             (fun x => mkItem (id x) (name x) (quantity r) (threshold r) now_stamp
                              (daily_usage r)));
      [reflexivity | exact Hl].
Qed.

Lemma update_item_blank_witness :
  lookup "milk" (fridge (milk 10 2 739000 three)) = Some (milk 10 2 739000 three) /\
  exists (c' : conn) (out : list message),
    update_item 739005 739005 "milk" Blank Blank (fridge (milk 10 2 739000 three))
      = (Ok tt, c', out) /\
    lookup "milk" c' = Some (mkItem 1 "milk" 10 2 739005 three).
Proof.
  split; [reflexivity | ].
  apply (update_item_blank (fridge (milk 10 2 739000 three)) 739005 739005 "milk"
           (milk 10 2 739000 three)); reflexivity.
Defined.

(** The sign of a rate: the quotient of a non-zero integer by a positive
    one of ordinary size is not zero and has the sign of the dividend. *)
Lemma int_truediv_sign (a b : Z) :
  a <> 0 -> 0 < b < 2 ^ 1000 -> Z.abs a < 2 ^ 1022 ->
  exists x : float, PyFloat.int_truediv a b = Ok x /\ at_least (a <? 0) (-1000) x.
Proof.
  intros Ha Hb Hsmall.
  unfold PyFloat.int_truediv, PyFloat.prec, PyFloat.emax.
  assert (Eb : (b =? 0) = false) by (apply Z.eqb_neq; lia).
  assert (Ea : (a =? 0) = false) by (apply Z.eqb_neq; exact Ha).
  rewrite Eb, Ea.
  assert (Hfa : exists pa, PyFloat.raw_of_int a = S754_finite (a <? 0) pa 0 /\
                           Zpos pa = Z.abs a).
  { destruct a as [ | p | p]; [congruence | | ]; cbn; eauto. }
  assert (Hfb : exists pb, PyFloat.raw_of_int b = S754_finite false pb 0 /\ Zpos pb = b).
  { destruct b as [ | p | p]; try lia. cbn. eauto. }
  destruct Hfa as (pa & -> & Hpa). destruct Hfb as (pb & -> & Hpb).
  destruct (PyFloatFacts.SFdiv_finite (a <? 0) false pa pb 0 0)
    as (q & e' & l & -> & He & Hq).
  assert (Hda : Zdigits2 (Zpos pa) <= 1022)
    by (apply RoundingFacts.Zdigits2_le_of_lt; lia).
  assert (Hda0 := RoundingFacts.Zdigits2_pos (Zpos pa) ltac:(lia)).
  assert (Hdb : Zdigits2 (Zpos pb) <= 1000)
    by (apply RoundingFacts.Zdigits2_le_of_lt; lia).
  assert (Hdb0 := RoundingFacts.Zdigits2_pos (Zpos pb) ltac:(lia)).
  destruct (RoundingFacts.SFdiv_core_lower (Zpos pa) 0 (Zpos pb) 0 q e'
              ltac:(lia) ltac:(lia) ltac:(lia) He Hq) as [Hq0 Hlow].
  destruct (RoundingFacts.SFdiv_core_upper (Zpos pa) 0 (Zpos pb) 0 q e'
              ltac:(lia) ltac:(lia) He Hq) as [_ Hupp].
  assert (He0 : e' <= 0) by lia.
  assert (Hat := RoundingFacts.binary_round_aux_lower (xorb (a <? 0) false) q e' l Hq0
                   ltac:(lia)).
  assert (Hni := RoundingFacts.binary_round_aux_upper (xorb (a <? 0) false) q e' l
                   ltac:(lia) ltac:(lia) ltac:(lia)).
  rewrite xorb_false_r in *.
  destruct (binary_round_aux 53 1024 (a <? 0) q e' l) as [s | s | | s m e];
    cbn [at_least not_infinite] in Hat, Hni; try contradiction.
  eexists. split; [reflexivity | ]. cbn [at_least]. destruct Hat as [-> Hk].
  split; [reflexivity | lia].
Qed.

Lemma at_least_positive (k : Z) (x : float) : at_least false k x -> PyFloat.gt0 x = true.
Proof.
  destruct x as [s | s | | s m e]; cbn; try contradiction.
  - intros ->. reflexivity.
  - intros [-> _]. reflexivity.
Qed.

Lemma at_least_negative (k : Z) (x : float) :
  at_least true k x -> PyFloat.lt0 x = true /\ PyFloat.le0 x = true.
Proof.
  destruct x as [s | s | | s m e]; cbn; try contradiction.
  - intros ->. split; reflexivity.
  - intros [-> _]. split; reflexivity.
Qed.

Lemma valid_days_passed (d1 d2 : date) :
  PyDate.valid d1 = true -> PyDate.valid d2 = true ->
  PyDate.diff_days d1 d2 < 2 ^ 1000.
Proof.
  intros H1 H2. apply valid_range in H1, H2. unfold PyDate.diff_days.
  assert (2 ^ 22 <= 2 ^ 1000) by (apply Z.pow_le_mono_r; lia).
  change (2 ^ 22) with 4194304 in *. lia.
Qed.

(** The rate an update stores when a day or more has passed and the quantity
    differs. *)
Lemma update_item_rate (c : conn) (now_days now_stamp : date) (n : string)
    (qi ti : int_input) (r : item) (nq nt : Z) :
  healthy c ->
  lookup n c = Some r ->
  Sql.in_int64 (quantity r) = true ->
  int_or_keep qi (quantity r) = Ok nq ->
  int_or_keep ti (threshold r) = Ok nt ->
  Sql.in_int64 nq = true ->
  Sql.in_int64 nt = true ->
  PyDate.valid now_days = true ->
  PyDate.valid (last_updated r) = true ->
  0 < PyDate.diff_days now_days (last_updated r) ->
  nq <> quantity r ->
  exists (use : float) (out : list message),
    at_least (quantity r <? nq) (-1000) use /\
    update_item now_days now_stamp n qi ti c =
      (Ok tt,
       committed
         (with_rows c (map (fun x => if Sql.has_name n x
                                     then mkItem (id x) (name x) nq nt now_stamp use
                                     else x)
                           (rows c))),
       out).
Proof.
  intros H Hl Hoq Hq Ht Hnq Hnt Hv1 Hv2 Hdays Hne.
  destruct (int_truediv_sign (quantity r - nq) (PyDate.diff_days now_days (last_updated r)))
    as (use & Huse & Hsign).
  { lia. }
  { split; [exact Hdays | apply valid_days_passed; assumption]. }
  { apply int64_difference_small; assumption. }
  assert (Hs : (quantity r - nq <? 0) = (quantity r <? nq)).
  { destruct (quantity r <? nq) eqn:E.
    - apply Z.ltb_lt in E. apply Z.ltb_lt. lia.
    - apply Z.ltb_ge in E. apply Z.ltb_ge. lia. }
  rewrite Hs in Hsign. exists use. eexists. split; [exact Hsign | ].
  apply (update_item_healthy c now_days now_stamp n qi ti r nq nt use); try assumption.
  unfold recompute_usage.
  assert (Hc : usage_changed (PyDate.diff_days now_days (last_updated r)) nq (quantity r)
               = true) by (apply usage_changed_iff; auto).
  rewrite Hc. exact Huse.
Qed.

(** X11.  On a healthy store, when a day or more has passed, the rate an
    update stores has the sign of the change: strictly positive when the
    quantity went down, strictly negative when it went up; it is never
    rounded to zero. *)
Theorem update_item_rate_sign (c : conn) (now_days now_stamp : date) (n : string)
    (qi ti : int_input) (r : item) (nq nt : Z) :
  healthy c ->
  lookup n c = Some r ->
  Sql.in_int64 (quantity r) = true ->
  int_or_keep qi (quantity r) = Ok nq ->
  int_or_keep ti (threshold r) = Ok nt ->
  Sql.in_int64 nq = true ->
  Sql.in_int64 nt = true ->
  PyDate.valid now_days = true ->
  PyDate.valid (last_updated r) = true ->
  0 < PyDate.diff_days now_days (last_updated r) ->
  nq <> quantity r ->
  exists (c' : conn) (out : list message) (r' : item),
    update_item now_days now_stamp n qi ti c = (Ok tt, c', out) /\
    lookup n c' = Some r' /\
    (nq < quantity r -> PyFloat.gt0 (daily_usage r') = true) /\
    (quantity r < nq -> PyFloat.lt0 (daily_usage r') = true).
Proof.
  intros H Hl Hoq Hq Ht Hnq Hnt Hv1 Hv2 Hdays Hne.
  destruct (update_item_rate c now_days now_stamp n qi ti r nq nt H Hl Hoq Hq Ht Hnq Hnt
              Hv1 Hv2 Hdays Hne) as (use & out & Hsign & Hrun).
  eexists _, out, (mkItem (id r) (name r) nq nt now_stamp use).
  split; [exact Hrun | ]. split.
  - apply (lookup_updated c n r (fun x => mkItem (id x) (name x) nq nt now_stamp use));
      [reflexivity | exact Hl].
  - cbn [daily_usage]. split; intros Hlt.
    + assert (E : (quantity r <? nq) = false) by (apply Z.ltb_ge; lia).
      rewrite E in Hsign. exact (at_least_positive _ _ Hsign).
    + assert (E : (quantity r <? nq) = true) by (apply Z.ltb_lt; lia).
      rewrite E in Hsign. exact (proj1 (at_least_negative _ _ Hsign)).
Qed.

Lemma update_item_rate_sign_witness :
  lookup "milk" (fridge (milk 10 2 739000 PyFloat.zero))
    = Some (milk 10 2 739000 PyFloat.zero) /\
  0 < PyDate.diff_days 739003 739000 /\
  exists (c' : conn) (out : list message) (r' : item),
    update_item 739003 739003 "milk" (Digits 9) Blank
      (fridge (milk 10 2 739000 PyFloat.zero)) = (Ok tt, c', out) /\
    lookup "milk" c' = Some r' /\
    (9 < 10 -> PyFloat.gt0 (daily_usage r') = true) /\
    (10 < 9 -> PyFloat.lt0 (daily_usage r') = true).
Proof.
  split; [reflexivity | ]. split; [reflexivity | ].
  apply (update_item_rate_sign (fridge (milk 10 2 739000 PyFloat.zero)) 739003 739003
           "milk" (Digits 9) Blank (milk 10 2 739000 PyFloat.zero) 9 2);
    try reflexivity.
  discriminate.
Defined.

(** ** How the operations compose *)

Lemma predict_restock_not_enough (c : conn) (today : date) (n : string) (r : item) :
  healthy c -> lookup n c = Some r -> PyFloat.le0 (daily_usage r) = true ->
  predict_restock today n c = (Ok tt, c, [MsgNotEnoughData]).
Proof.
  intros H Hl Hle. unfold predict_restock. unfold bind at 1.
  rewrite (select_one_found n c r H Hl). rewrite Hle. reflexivity.
Qed.

Lemma predict_restock_absent (c : conn) (today : date) (n : string) :
  healthy c -> Sql.text_ok n = true -> lookup n c = None ->
  predict_restock today n c = (Ok tt, c, [MsgNotFound]).
Proof.
  intros H Hn Hl. unfold predict_restock. unfold bind at 1.
  rewrite select_one_healthy, Hl by assumption. reflexivity.
Qed.

Lemma find_app_new (n : string) (l : list item) (r : item) :
  find (Sql.has_name n) l = None -> name r = n ->
  find (Sql.has_name n) (l ++ [r]) = Some r.
Proof.
  intros Hnone Hr. induction l as [ | x l IH]; cbn [app find].
  - apply has_name_iff in Hr. rewrite Hr. reflexivity.
  - cbn [find] in Hnone. destruct (Sql.has_name n x); [discriminate | auto].
Qed.

Lemma lookup_added (c : conn) (n : string) (r : item) :
  Sql.text_ok n = true -> lookup n c = None -> name r = n ->
  lookup n (committed (Conn (rows c ++ [r]) (seq c + 1) (faults c) (io_errors c)
                            (saved_rows c) (saved_seq c)))
  = Some r.
Proof.
  intros Hn Hl Hr. rewrite lookup_find in Hl |- * by exact Hn.
  cbn [committed rows]. apply find_app_new; assumption.
Qed.

(** X12.  A restock cannot be forecast: on a healthy store, after an update
    a day or more later that raised the quantity, [predict_restock] on the
    item reports that there is not enough usage data, whatever the threshold. *)
Theorem restock_then_predict (c : conn) (now_days now_stamp today : date) (n : string)
    (qi ti : int_input) (r : item) (nq nt : Z) :
  healthy c ->
  lookup n c = Some r ->
  Sql.in_int64 (quantity r) = true ->
  int_or_keep qi (quantity r) = Ok nq ->
  int_or_keep ti (threshold r) = Ok nt ->
  Sql.in_int64 nq = true ->
  Sql.in_int64 nt = true ->
  PyDate.valid now_days = true ->
  PyDate.valid (last_updated r) = true ->
  0 < PyDate.diff_days now_days (last_updated r) ->
  quantity r < nq ->
  exists (c' : conn) (out : list message),
    update_item now_days now_stamp n qi ti c = (Ok tt, c', out) /\
    predict_restock today n c' = (Ok tt, c', [MsgNotEnoughData]).
Proof.
  intros H Hl Hoq Hq Ht Hnq Hnt Hv1 Hv2 Hdays Hup.
  destruct (update_item_rate c now_days now_stamp n qi ti r nq nt H Hl Hoq Hq Ht Hnq Hnt
              Hv1 Hv2 Hdays ltac:(lia)) as (use & out & Hsign & Hrun).
  eexists _, out. split; [exact Hrun | ].
  assert (E : (quantity r <? nq) = true) by (apply Z.ltb_lt; exact Hup).
  rewrite E in Hsign.
  apply (predict_restock_not_enough _ today n (mkItem (id r) (name r) nq nt now_stamp use)).
  - apply committed_healthy, with_rows_healthy. exact H.
  - apply (lookup_updated c n r (fun x => mkItem (id x) (name x) nq nt now_stamp use));
      [reflexivity | exact Hl].
  - exact (proj2 (at_least_negative _ _ Hsign)).
Qed.

Lemma restock_then_predict_witness :
  lookup "milk" (fridge (milk 10 2 739000 three)) = Some (milk 10 2 739000 three) /\
  10 < 12 /\
  exists (c' : conn) (out : list message),
    update_item 739001 739001 "milk" (Digits 12) Blank (fridge (milk 10 2 739000 three))
      = (Ok tt, c', out) /\
    predict_restock 739001 "milk" c' = (Ok tt, c', [MsgNotEnoughData]).
Proof.
  split; [reflexivity | ]. split; [reflexivity | ].
  apply (restock_then_predict (fridge (milk 10 2 739000 three)) 739001 739001 739001
           "milk" (Digits 12) Blank (milk 10 2 739000 three) 12 2); reflexivity.
Defined.

(** X13.  A new item cannot be forecast: on a healthy store, after an
    [add_item] of a new name that is UTF-8 text, with values within 64 bits,
    [predict_restock] on it reports that there is not enough usage data. *)
Theorem add_then_predict (c : conn) (today today' : date) (n : string) (q t : Z) :
  healthy c ->
  Sql.text_ok n = true ->
  lookup n c = None ->
  Sql.in_int64 q = true ->
  Sql.in_int64 t = true ->
  exists c1 : conn,
    add_item today n (Digits q) (Digits t) c = (Ok tt, c1, [MsgAdded n q t]) /\
    predict_restock today' n c1 = (Ok tt, c1, [MsgNotEnoughData]).
Proof.
  intros H Hn Hl Hq Ht. eexists. split; [apply add_item_healthy_new; assumption | ].
  apply (predict_restock_not_enough _ today' n
           (mkItem (seq c + 1) n q t today PyFloat.zero)).
  - apply committed_healthy. exact H.
  - apply lookup_added; [assumption | assumption | reflexivity].
  - reflexivity.
Qed.

Lemma add_then_predict_witness :
  healthy (fridge (milk 10 2 739000 three)) /\
  Sql.text_ok "eggs" = true /\
  lookup "eggs" (fridge (milk 10 2 739000 three)) = None /\
  exists c1 : conn,
    add_item 739001 "eggs" (Digits 12) (Digits 6) (fridge (milk 10 2 739000 three))
      = (Ok tt, c1, [MsgAdded "eggs" 12 6]) /\
    predict_restock 739002 "eggs" c1 = (Ok tt, c1, [MsgNotEnoughData]).
Proof.
  do 3 (split; [reflexivity | ]).
  apply (add_then_predict (fridge (milk 10 2 739000 three)) 739001 739002 "eggs" 12 6);
    reflexivity.
Defined.

(** X14.  Adding and deleting undo each other on the rows: on a healthy
    store, after an [add_item] of a new name that is UTF-8 text,
    [delete_item] of that name succeeds and the rows are those before the
    add, in the same order; the AUTOINCREMENT counter is not given back, and
    both changes are committed. *)
Theorem add_then_delete (c : conn) (today : date) (n : string) (q t : Z) :
  healthy c ->
  Sql.text_ok n = true ->
  lookup n c = None ->
  Sql.in_int64 q = true ->
  Sql.in_int64 t = true ->
  exists c1 c2 : conn,
    add_item today n (Digits q) (Digits t) c = (Ok tt, c1, [MsgAdded n q t]) /\
    delete_item n c1 = (Ok tt, c2, [MsgDeleted n]) /\
    rows c2 = rows c /\
    seq c2 = seq c + 1 /\
    held c2 = seen c2.
Proof.
  intros H Hn Hl Hq Ht. eexists _, _. split; [apply add_item_healthy_new; assumption | ].
  split.
  - apply (delete_item_present _ n (mkItem (seq c + 1) n q t today PyFloat.zero)).
    + apply committed_healthy. exact H.
    + apply lookup_added; [assumption | assumption | reflexivity].
  - cbn [committed with_rows rows seq]. split; [ | split; reflexivity].
    rewrite lookup_find in Hl by exact Hn.
    rewrite filter_app. destruct (filter_none n (rows c) Hl) as [_ ->].
    cbn [filter]. unfold Sql.has_name at 1. cbn [name]. rewrite String.eqb_refl.
    cbn [negb]. apply app_nil_r.
Qed.

Lemma add_then_delete_witness :
  healthy (fridge (milk 10 2 739000 three)) /\
  Sql.text_ok "eggs" = true /\
  lookup "eggs" (fridge (milk 10 2 739000 three)) = None /\
  exists c1 c2 : conn,
    add_item 739001 "eggs" (Digits 12) (Digits 6) (fridge (milk 10 2 739000 three))
      = (Ok tt, c1, [MsgAdded "eggs" 12 6]) /\
    delete_item "eggs" c1 = (Ok tt, c2, [MsgDeleted "eggs"]) /\
    rows c2 = rows (fridge (milk 10 2 739000 three)) /\
    seq c2 = seq (fridge (milk 10 2 739000 three)) + 1 /\
    held c2 = seen c2.
Proof.
  do 3 (split; [reflexivity | ]).
  apply (add_then_delete (fridge (milk 10 2 739000 three)) 739001 "eggs" 12 6);
    reflexivity.
Defined.

(** X15.  A deleted item is gone for every operation: on a healthy store,
    after a [delete_item] that found the name, [update_item],
    [predict_restock] and a second [delete_item] on it all report "Item not
    found", and [add_item] of the name succeeds again. *)
Theorem delete_then_not_found (c : conn) (d1 d2 today : date) (n : string)
    (qi ti : int_input) (r : item) (q t : Z) :
  healthy c ->
  lookup n c = Some r ->
  Sql.in_int64 q = true ->
  Sql.in_int64 t = true ->
  exists c' : conn,
    delete_item n c = (Ok tt, c', [MsgDeleted n]) /\
    update_item d1 d2 n qi ti c' = (Ok tt, c', [MsgNotFound]) /\
    predict_restock today n c' = (Ok tt, c', [MsgNotFound]) /\
    delete_item n c' = (Ok tt, c', [MsgNotFound]) /\
    exists c2 : conn,
      add_item today n (Digits q) (Digits t) c' = (Ok tt, c2, [MsgAdded n q t]).
Proof.
  intros H Hl Hq Ht. eexists. split; [apply (delete_item_present c n r H Hl) | ].
  assert (Hn := lookup_text_ok n c r Hl).
  assert (H' : healthy (committed
                          (with_rows c (filter (fun x => negb (Sql.has_name n x)) (rows c)))))
    by (apply committed_healthy, with_rows_healthy; exact H).
  assert (Hl' : lookup n (committed
                            (with_rows c (filter (fun x => negb (Sql.has_name n x))
                                                 (rows c))))
                = None) by (rewrite lookup_find by exact Hn; apply find_filter_others).
  split; [ | split; [ | split]].
  - unfold update_item. unfold bind at 1. rewrite select_one_healthy, Hl' by assumption.
    reflexivity.
  - apply predict_restock_absent; assumption.
  - apply delete_item_absent; assumption.
  - eexists. apply add_item_healthy_new; assumption.
Qed.

Lemma delete_then_not_found_witness :
  lookup "milk" (fridge (milk 10 2 739000 three)) = Some (milk 10 2 739000 three) /\
  exists c' : conn,
    delete_item "milk" (fridge (milk 10 2 739000 three))
      = (Ok tt, c', [MsgDeleted "milk"]) /\
    update_item 739001 739001 "milk" (Digits 7) Blank c' = (Ok tt, c', [MsgNotFound]) /\
    predict_restock 739001 "milk" c' = (Ok tt, c', [MsgNotFound]) /\
    delete_item "milk" c' = (Ok tt, c', [MsgNotFound]) /\
    exists c2 : conn,
      add_item 739001 "milk" (Digits 4) (Digits 1) c' = (Ok tt, c2, [MsgAdded "milk" 4 1]).
Proof.
  split; [reflexivity | ].
  apply (delete_then_not_found (fridge (milk 10 2 739000 three)) 739001 739001 739001
           "milk" (Digits 7) Blank (milk 10 2 739000 three) 4 1); reflexivity.
Defined.

(** ** [view_items] and the limits of [predict_restock] *)

(** X16.  On a healthy store, [view_items] prints "No items" for an empty
    table and otherwise the header and one line per row, in the order of the
    table; a line carries the LOW flag exactly when the quantity is below the
    threshold, every line is the line of a row of the table, and the
    connection is left as it was. *)
Theorem view_items_lists_rows (c : conn) :
  healthy c ->
  view_items c =
    (Ok tt, c,
     match rows c with
     | [] => [MsgNoItems]
     | _ :: _ => MsgHeader :: map view_line (rows c)
     end) /\
  (forall r : item, In r (rows c) -> In (view_line r) (snd (view_items c))) /\
  (forall (n : string) (q t : Z) (d : date) (u : float) (low : bool),
     In (MsgRow n q t d u low) (snd (view_items c)) ->
     (low = true <-> q < t) /\
     exists r : item,
       In r (rows c) /\ name r = n /\ quantity r = q /\ threshold r = t /\
       last_updated r = d /\ daily_usage r = u).
Proof.
  intros H.
  assert (E : view_items c =
    (Ok tt, c,
     match rows c with
     | [] => [MsgNoItems]
     | _ :: _ => MsgHeader :: map view_line (rows c)
     end)).
  { unfold view_items, bind. rewrite select_all_healthy by exact H.
    destruct (rows c); reflexivity. }
  split; [exact E | ]. rewrite E. cbn [snd]. split.
  - intros r Hin. destruct (rows c) as [ | x l] eqn:Er; [contradiction | ].
    right. apply in_map. exact Hin.
  - intros n q t d u low Hin.
    assert (Hline : In (MsgRow n q t d u low) (map view_line (rows c))).
    { destruct (rows c) as [ | x l]; cbn [In] in Hin.
      - destruct Hin as [Hin | []]. discriminate.
      - destruct Hin as [Hin | Hin]; [discriminate | exact Hin]. }
    apply in_map_iff in Hline. destruct Hline as (r & Hr & Hin').
    unfold view_line in Hr. injection Hr as <- <- <- <- <- <-. split.
    + apply Z.ltb_lt.
    + exists r. repeat split. exact Hin'.
Qed.

Lemma view_items_lists_rows_witness :
  view_items (mkConn [milk 1 2 739000 one; mkItem 2 "eggs" 12 6 739001 PyFloat.zero] 2 [])
  = (Ok tt, mkConn [milk 1 2 739000 one; mkItem 2 "eggs" 12 6 739001 PyFloat.zero] 2 [],
     [MsgHeader; MsgRow "milk" 1 2 739000 one true;
      MsgRow "eggs" 12 6 739001 PyFloat.zero false]).
Proof.
  apply (proj1 (view_items_lists_rows
                  (mkConn [milk 1 2 739000 one; mkItem 2 "eggs" 12 6 739001 PyFloat.zero]
                          2 [])
                  eq_refl)).
Defined.

(** X17.  A forecast past the last calendar date is not reported: on a
    healthy store, when [days_left] is at least 0 and today plus
    [floor(days_left)] days is after 9999-12-31, [predict_restock] ends with
    [OverflowError] and prints nothing. *)
Theorem predict_restock_past_last_date (c : conn) (today : date) (n : string) (r : item)
    (days_left : float) (k : Z) :
  healthy c ->
  lookup n c = Some r ->
  PyFloat.le0 (daily_usage r) = false ->
  days_left_of r = Ok days_left ->
  PyFloat.ge0 days_left = true ->
  PyFloat.floor days_left = Some k ->
  PyDate.valid today = true ->
  PyDate.valid (today + k) = false ->
  predict_restock today n c = (Raise OverflowError, c, []).
Proof.
  intros H Hl Hle Hdl Hge Hfloor Htoday Hlate.
  unfold predict_restock. unfold bind at 1. rewrite (select_one_found n c r H Hl).
  rewrite Hle. unfold bind, lift, print.
  rewrite Hdl, (ge0_not_lt0 _ Hge), (PyFloatFacts.to_int_floor _ _ Hge Hfloor).
  unfold PyDate.timedelta. destruct (Z.abs k <=? PyDate.max_delta_days); [ | reflexivity].
  unfold PyDate.add. rewrite Hlate. reflexivity.
Qed.

Lemma predict_restock_past_last_date_witness :
  lookup "milk" (fridge (milk 10000000 0 739000 one)) = Some (milk 10000000 0 739000 one) /\
  PyDate.valid (739000 + 10000000) = false /\
  predict_restock 739000 "milk" (fridge (milk 10000000 0 739000 one))
    = (Raise OverflowError, fridge (milk 10000000 0 739000 one), []).
Proof.
  split; [reflexivity | ]. split; [reflexivity | ].
  apply (predict_restock_past_last_date (fridge (milk 10000000 0 739000 one)) 739000
           "milk" (milk 10000000 0 739000 one)
           (S754_finite false 5368709120000000 (-29)) 10000000);
    vm_compute; reflexivity.
Defined.

(** On a row of the table, [days_left] is not a NaN. *)
Lemma days_left_not_nan (r : item) (days_left : float) :
  item_ok r ->
  PyFloat.le0 (daily_usage r) = false ->
  days_left_of r = Ok days_left ->
  days_left <> S754_nan.
Proof.
  intros (Hq & Ht & Hd) Hle. unfold days_left_of, PyFloat.int_truediv_float.
  destruct (PyFloatFacts.of_int_spec (quantity r - threshold r)) as (x & -> & Hx & _).
  { assert (H := int64_difference_small _ _ Hq Ht).
    assert (2 ^ 1022 <= 2 ^ 1023) by (apply Z.pow_le_mono_r; lia). lia. }
  assert (Hpos := PyFloatFacts.gt0_of_not_le0 _ Hd Hle).
  destruct (PyFloatFacts.gt0_finite _ Hd Hpos) as (my & ey & -> & _).
  cbn [PyFloat.truediv]. intros [= <-].
  destruct x as [s | s | | s mx ex]; cbn [float_ok] in Hx; try contradiction.
  - cbn. discriminate.
  - unfold PyFloat.prec, PyFloat.emax.
    destruct (PyFloatFacts.SFdiv_finite s false mx my ex ey) as (q & e' & l & -> & He & Hq').
    destruct (RoundingFacts.SFdiv_core_upper (Zpos mx) ex (Zpos my) ey q e'
                ltac:(lia) ltac:(lia) He Hq') as [Hq0 _].
    assert (Hok := RoundingFacts.binary_round_aux_ok (xorb s false) q e' l Hq0).
    destruct (binary_round_aux 53 1024 (xorb s false) q e' l); cbn in Hok;
      try discriminate. contradiction.
Qed.

(** X18.  On a table that satisfies the invariant, whatever its health and
    the input, the only exceptions that can leave [predict_restock] are a
    failure of the storage, [OverflowError], and [UnicodeEncodeError] for a
    name that is not UTF-8 text; [int] is never applied to a NaN, and
    nothing divides by zero. *)
Theorem predict_restock_exceptions (c : conn) (today : date) (n : string) (e : exn) :
  store_ok c ->
  fst (fst (predict_restock today n c)) = Raise e ->
  e = OverflowError \/ e = SqlOperationalError \/
  (e = UnicodeEncodeError /\ Sql.text_ok n = false).
Proof.
  intros Hc. unfold predict_restock. unfold bind at 1.
  assert (Hfound : forall r, fst (fst (Sql.select_one n c)) = Ok (Some r) -> item_ok r).
  { unfold Sql.select_one, Sql.bind_text, Sql.engine, bind, ret, raise.
    destruct (Sql.text_ok n); [ | discriminate].
    destruct Hc as [Hall _]. rewrite Forall_forall in Hall.
    destruct (faults c) as [ | [ | ] fs]; [ | destruct (io_errors c) as [ | [ | ] ks] | ];
      cbn [fst snd rows]; try discriminate;
      intros r [= Hr]; apply find_some in Hr; apply Hall; tauto. }
  assert (Hsel := raises_select_one n
                    (fun e => e = SqlOperationalError \/
                              (e = UnicodeEncodeError /\ Sql.text_ok n = false))
                    (or_introl eq_refl) (fun H => or_intror (conj eq_refl H)) c).
  destruct (Sql.select_one n c) as [[[found | e1] c1] out1]; cbn [fst snd] in *;
    [ | intros [= <-]; right; apply Hsel; reflexivity].
  clear Hsel.
  destruct found as [r | ]; [ | cbn; discriminate].
  specialize (Hfound r eq_refl).
  assert (Hrest : raises_only
            (if PyFloat.le0 (daily_usage r)
             then print MsgNotEnoughData
             else
               days_left <- lift (days_left_of r) ;;
               if PyFloat.lt0 days_left
               then print (MsgAlreadyBelow n)
               else
                 whole <- lift (PyFloat.to_int days_left) ;;
                 delta <- lift (PyDate.timedelta whole) ;;
                 restock_date <- lift (PyDate.add today delta) ;;
                 shown <- lift (PyFloat.to_int days_left) ;;
                 print (MsgEstimate shown n) ;;
                 print (MsgRestockDate restock_date))
            (fun e => e = OverflowError)).
  { destruct (PyFloat.le0 (daily_usage r)) eqn:Ele; [apply raises_print | ].
    assert (Hint : forall days_left e', days_left_of r = Ok days_left ->
                     PyFloat.to_int days_left = Raise e' -> e' = OverflowError).
    { intros days_left e' Hdl He'.
      assert (Hnan := days_left_not_nan r days_left Hfound Ele Hdl).
      destruct days_left; cbn [PyFloat.to_int] in He'; try discriminate;
        [injection He' as <-; reflexivity | contradiction]. }
    unfold bind at 1, lift at 1. intros c0 e0.
    destruct (days_left_of r) as [days_left | e2] eqn:Edl; cbn [fst snd];
      [ | intros [= <-]; exact (days_left_of_raises r e2 Ele Edl)].
    assert (Hk : raises_only
              (if PyFloat.lt0 days_left
               then print (MsgAlreadyBelow n)
               else
                 whole <- lift (PyFloat.to_int days_left) ;;
                 delta <- lift (PyDate.timedelta whole) ;;
                 restock_date <- lift (PyDate.add today delta) ;;
                 shown <- lift (PyFloat.to_int days_left) ;;
                 print (MsgEstimate shown n) ;;
                 print (MsgRestockDate restock_date))
              (fun e => e = OverflowError)).
    { destruct (PyFloat.lt0 days_left); [apply raises_print | ].
      apply raises_bind; [apply raises_lift; intros e'; apply Hint; reflexivity | ].
      intros whole. apply raises_bind.
      { apply raises_lift. intros e'. unfold PyDate.timedelta.
        destruct (Z.abs whole <=? PyDate.max_delta_days); [discriminate | ].
        intros [= <-]. reflexivity. }
      intros delta. apply raises_bind.
      { apply raises_lift. intros e'. unfold PyDate.add.
        destruct (PyDate.valid (today + delta)); [discriminate | ].
        intros [= <-]. reflexivity. }
      intros restock. apply raises_bind;
        [apply raises_lift; intros e'; apply Hint; reflexivity | ].
      intros shown. apply raises_bind; [apply raises_print | intros _; apply raises_print]. }
    specialize (Hk c0 e0). destruct (_ c0) as [[r0 c2] out2] in Hk |- *. exact Hk. }
  specialize (Hrest c1 e).
  destruct (_ c1) as [[r0 c2] out2] in Hrest |- *. cbn [fst] in *.
  intros He. left. exact (Hrest He).
Qed.

Lemma predict_restock_exceptions_witness :
  store_ok (fridge (milk 10000000 0 739000 one)) /\
  fst (fst (predict_restock 739000 "milk" (fridge (milk 10000000 0 739000 one))))
    = Raise OverflowError /\
  fst (fst (predict_restock 739000 not_utf8 (fridge (milk 10000000 0 739000 one))))
    = Raise UnicodeEncodeError /\
  (OverflowError = OverflowError \/ OverflowError = SqlOperationalError \/
   (OverflowError = UnicodeEncodeError /\ Sql.text_ok "milk" = false)) /\
  (UnicodeEncodeError = OverflowError \/ UnicodeEncodeError = SqlOperationalError \/
   (UnicodeEncodeError = UnicodeEncodeError /\ Sql.text_ok not_utf8 = false)).
Proof.
  assert (Hok : store_ok (fridge (milk 10000000 0 739000 one))).
  { split.
    - constructor; [ | constructor]. repeat split. vm_compute. discriminate.
    - constructor; [intros [] | constructor]. }
  split; [exact Hok | ]. split; [reflexivity | ]. split; [reflexivity | ]. split.
  - apply (predict_restock_exceptions (fridge (milk 10000000 0 739000 one)) 739000 "milk"
             OverflowError Hok).
    reflexivity.
  - apply (predict_restock_exceptions (fridge (milk 10000000 0 739000 one)) 739000 not_utf8
             UnicodeEncodeError Hok).
    reflexivity.
Defined.

(** ** [delete_item] *)


(** ** What a reported success has committed *)

Lemma update_item_committed (c c' : conn) (now_days now_stamp : date) (n n' : string)
    (qi ti : int_input) (out : list message) (nq nt : Z) (use : float) :
  update_item now_days now_stamp n qi ti c = (Ok tt, c', out) ->
  In (MsgUpdated n' nq nt use) out ->
  held c' = seen c'.
Proof.
  unfold update_item, Sql.select_one, Sql.update, Sql.bind_int, Sql.bind_text, Sql.commit,
    Sql.engine, bind, try_except, lift, ret, raise, print.
  destruct c as [rs sq fs ks srs ssq].
  destruct (Sql.text_ok n); [ | discriminate].
  repeat first
    [ split_faults
    | progress cbn [is_sqlite_error is_value_error]
    | match goal with
      | |- context [find (Sql.has_name n) rs] =>
          destruct (find (Sql.has_name n) rs) as [? | ]
      | |- context [int_or_keep ?x ?y] =>
          destruct (int_or_keep x y) as [? | [ | | | | | ]]
      | |- context [recompute_usage ?a ?b ?c ?d] => destruct (recompute_usage a b c d)
      | |- context [Sql.in_int64 ?z] => destruct (Sql.in_int64 z)
      | |- context [?a <? ?b] => destruct (a <? b)
      end ].
  all: first [not_printed | intros [= <- <-] _; reflexivity].
Qed.

Lemma delete_item_committed (c c' : conn) (n n' : string) (out : list message) :
  delete_item n c = (Ok tt, c', out) ->
  In (MsgDeleted n') out ->
  held c' = seen c' /\
  rows c' = filter (fun x => negb (Sql.has_name n x)) (rows c) /\
  seq c' = seq c.
Proof.
  unfold delete_item, Sql.delete, Sql.bind_text, Sql.commit, Sql.engine, bind, print, ret,
    raise.
  destruct c as [rs sq fs ks srs ssq].
  destruct (Sql.text_ok n); [ | discriminate].
  repeat first
    [ split_faults
    | match goal with
      | |- context [Z.of_nat ?k =? 0] => destruct (Z.of_nat k =? 0)
      end ].
  all: first [not_printed | intros [= <- <-] _; repeat split].
Qed.

(** X20.  A success that is reported has been committed: whatever the
    store and the health of the storage, after an [add_item] that printed
    "Item added", an [update_item] that printed "Item updated" or a
    [delete_item] that printed "Item deleted", the table the file holds is
    the table the connection sees, the change included; and the rows a
    [delete_item] that printed "Item deleted" leaves are the rows of the
    other names. *)
Theorem reported_success_is_committed (c c' : conn) (out : list message) :
  (forall (today : date) (n : string) (qi ti : int_input) (q t : Z),
     add_item today n qi ti c = (Ok tt, c', out) ->
     In (MsgAdded n q t) out ->
     held c' = seen c' /\
     rows c' = rows c ++ [mkItem (seq c + 1) n q t today PyFloat.zero]) /\
  (forall (now_days now_stamp : date) (n n' : string) (qi ti : int_input) (nq nt : Z)
          (use : float),
     update_item now_days now_stamp n qi ti c = (Ok tt, c', out) ->
     In (MsgUpdated n' nq nt use) out ->
     held c' = seen c' /\
     rows c' = map (fun x => if Sql.has_name n x
                             then mkItem (id x) (name x) nq nt now_stamp use
                             else x) (rows c)) /\
  (forall n n' : string,
     delete_item n c = (Ok tt, c', out) ->
     In (MsgDeleted n') out ->
     held c' = seen c' /\
     rows c' = filter (fun x => negb (Sql.has_name n x)) (rows c)).
Proof.
  split; [ | split].
  - intros today n qi ti q t Hrun Hout.
    destruct (add_item_success c c' today n qi ti out q t Hrun Hout)
      as (_ & _ & _ & Hrows & _ & _ & Hsr & Hss).
    split; [ | exact Hrows]. unfold held, seen. rewrite Hsr, Hss. reflexivity.
  - intros now_days now_stamp n n' qi ti nq nt use Hrun Hout. split.
    + exact (update_item_committed c c' now_days now_stamp n n' qi ti out nq nt use
               Hrun Hout).
    + exact (update_item_success c c' now_days now_stamp n n' qi ti out nq nt use
               Hrun Hout).
  - intros n n' Hrun Hout.
    destruct (delete_item_committed c c' n n' out Hrun Hout) as (Hc & Hrows & _).
    split; assumption.
Qed.

(** An update whose [UPDATE] is the second call into the storage and whose
    [COMMIT] is the third, on a connection that had a row uncommitted. *)
Lemma reported_success_is_committed_witness :
  update_item 739001 739001 "milk" (Digits 7) Blank
    (Conn [milk 10 2 739000 one] 1 [false; false] [] [] 0)
    = (Ok tt, fridge (milk 7 2 739001 three),
       [MsgCurrent 10 2 739000 one; MsgUpdated "milk" 7 2 three]) /\
  In (MsgUpdated "milk" 7 2 three)
     [MsgCurrent 10 2 739000 one; MsgUpdated "milk" 7 2 three] /\
  held (fridge (milk 7 2 739001 three)) = seen (fridge (milk 7 2 739001 three)) /\
  rows (fridge (milk 7 2 739001 three))
    = map (fun x => if Sql.has_name "milk" x
                    then mkItem (id x) (name x) 7 2 739001 three
                    else x)
          (rows (Conn [milk 10 2 739000 one] 1 [false; false] [] [] 0)).
Proof.
  split; [vm_compute; reflexivity | ]. split; [right; left; reflexivity | ].
  apply (proj1 (proj2 (reported_success_is_committed
                         (Conn [milk 10 2 739000 one] 1 [false; false] [] [] 0)
                         (fridge (milk 7 2 739001 three))
                         [MsgCurrent 10 2 739000 one; MsgUpdated "milk" 7 2 three]))
           739001 739001 "milk"%string "milk"%string (Digits 7) Blank 7 2 three).
  - vm_compute. reflexivity.
  - right. left. reflexivity.
Defined.
